(** * Study Strategy Simulator: a shallow embedding of [study_simulator_test.py]

    The scoring function [simulate], the comparator [compare] and the
    session loop of [main] with its scenario list and result cache.

    - Python's [float] is Rocq's primitive binary64 [float]: the same
      IEEE-754 doubles, the same correctly rounded [+ - * /] and the same
      comparisons (false on a NaN).
    - Python's [int] is [Z]; its implicit conversion to [float] rounds to
      the nearest double and raises [OverflowError] beyond the doubles.
    - An exception is an explicit result, [Raise e], threaded by [bind].
    - [math.exp] wraps the C library's [exp], whose bits the platform
      chooses: [simulate] takes it as a parameter, and the properties that
      need something of it assume [exp_contract].
    - [str] is [string] (bytes), terminal output is a list of [Event]s. *)

From Stdlib Require Import ZArith List String Ascii Bool Lia Floats.
Import ListNotations.

Set Warnings "-inexact-float".

(** ** Python runtime: exceptions *)

Inductive PyError : Type :=
| OverflowError
| ZeroDivisionError
| ValueError
| IndexError.

Inductive PyResult (A : Type) : Type :=
| Ok (a : A)
| Raise (e : PyError).

Arguments Ok {A} a.
Arguments Raise {A} e.

Definition bind {A B : Type} (c : PyResult A) (k : A -> PyResult B) : PyResult B :=
  match c with
  | Ok a => k a
  | Raise e => Raise e
  end.

Declare Scope py_scope.
Delimit Scope py_scope with py.
Notation "x <- c ;; k" := (bind c (fun x => k))
  (at level 61, c at next level, right associativity) : py_scope.

Definition returns {A : Type} (c : PyResult A) : Prop := exists a, c = Ok a.

(** ** Python runtime: floats *)

Module PyFloat.
Local Open Scope float_scope.

(** [float(z)] for an [int] [z] (CPython's [PyLong_AsDouble]): the nearest
    double, ties to even; [OverflowError] when that is out of range.  It is
    the implicit conversion of every mixed [int]/[float] operation. *)
Definition float_of_int (z : Z) : PyResult float :=
  let f := SF2Prim (binary_normalize prec emax z 0 false) in
  if is_infinity f then Raise OverflowError else Ok f.

(** [a / b] on floats: [ZeroDivisionError] on a zero divisor. *)
Definition truediv (a b : float) : PyResult float :=
  if b =? 0 then Raise ZeroDivisionError else Ok (a / b).

(** The builtins [max(a, b)] and [min(a, b)]: the first argument is kept
    unless the second is strictly greater (smaller). *)
Definition py_max (a b : float) : float := if a <? b then b else a.
Definition py_min (a b : float) : float := if b <? a then b else a.

(** Nearest integer to [num / den], ties to even ([0 < den]). *)
Definition round_half_even (num den : Z) : Z :=
  let q := (num / den)%Z in
  let r := (num mod den)%Z in
  match (2 * r ?= den)%Z with
  | Lt => q
  | Gt => (q + 1)%Z
  | Eq => if Z.even q then q else (q + 1)%Z
  end.

(** The number of tenths nearest to the exact value [m * 2^e]. *)
Definition tenths (m : positive) (e : Z) : Z :=
  match e with
  | Zneg k => round_half_even (10 * Zpos m) (2 ^ Zpos k)
  | _ => (10 * Zpos m * 2 ^ e)%Z
  end.

(** The double nearest to [n / 10], with sign [s]. *)
Definition of_tenths (s : bool) (n : Z) : float :=
  match n with
  | Zpos p => SF2Prim (SFdiv prec emax (S754_finite s p 0) (S754_finite false 10 0))
  | _ => if s then neg_zero else zero
  end.

(** [round(x, 1)] (CPython's [double_round]): the exact value of [x] is
    rounded to one decimal, ties to even, and the decimal is read back as
    the nearest double; zeros, infinities and NaN round to themselves. *)
Definition round1 (x : float) : float :=
  match Prim2SF x with
  | S754_finite s m e => of_tenths s (tenths m e)
  | _ => x
  end.

End PyFloat.
Export PyFloat.

(** ** Python runtime: [dict.get] and [in] on a set of strings *)

Fixpoint dict_get {V : Type} (d : list (string * V)) (key : string) (default : V) : V :=
  match d with
  | [] => default
  | (k, v) :: d' => if String.eqb k key then v else dict_get d' key default
  end.

(** [l.append(x)] on a list. *)
Definition append {A : Type} (l : list A) (x : A) : list A := l ++ [x].

(** [l[i]] on a list: a negative index counts from the end, and an index
    outside the list raises [IndexError]. *)
Definition subscript {A : Type} (l : list A) (i : Z) : PyResult A :=
  let n := Z.of_nat (List.length l) in
  let i := if (i <? 0)%Z then (i + n)%Z else i in
  if (0 <=? i)%Z && (i <? n)%Z then
    match nth_error l (Z.to_nat i) with
    | Some x => Ok x
    | None => Raise IndexError
    end
  else Raise IndexError.

Definition str_in (x : string) (set : list string) : bool :=
  existsb (String.eqb x) set.

(** ** Data model *)

Record Strategy : Type := mkStrategy {
  name : string;
  method : string;
  session_minutes : Z;
  sessions_per_week : Z;
  environment : string;
  break_style : string;
  course_difficulty : Z;
  distraction_risk : Z
}.

Record Result : Type := mkResult {
  effectiveness : float;
  sustainability : float;
  efficiency : float;
  burnout_risk : float;
  predicted_improvement : float;
  notes : list string
}.

(** ** Simulation logic *)

Module Sim.
Local Open Scope string_scope.
Local Open Scope float_scope.
Local Open Scope py_scope.

Definition METHOD_WEIGHTS : list (string * float) :=
  [ ("practice_problems", 1.00);
    ("flashcards", 0.90);
    ("teaching_someone", 0.95);
    ("summarizing", 0.70);
    ("rereading", 0.45);
    ("highlighting", 0.40);
    ("group_study", 0.75) ].

Definition ENVIRONMENT_WEIGHTS : list (string * float) :=
  [ ("library", 1.00);
    ("quiet_room", 0.95);
    ("coffee_shop", 0.85);
    ("dorm_room", 0.80) ].

Definition BREAK_WEIGHTS : list (string * float) :=
  [ ("pomodoro", 1.00);
    ("structured", 0.92);
    ("none", 0.75);
    ("random", 0.80) ].

(** [clamp(x, lo, hi) = max(lo, min(hi, x))].  The source passes the [int]
    bounds 0, 100 and 15; they are compared as the doubles of the same
    value, and a saturated clamp yields that double. *)
Definition clamp (x lo hi : float) : float := py_max lo (py_min hi x).

Definition NOTE_LONG : string :=
  "Session length is long; focus may drop after ~60 minutes.".
Definition NOTE_VERY_LONG : string :=
  "Very long sessions increase diminishing returns and fatigue.".
Definition NOTE_PASSIVE : string :=
  "Consider adding active recall (practice problems or flashcards) for stronger retention.".
Definition NOTE_BREAKS : string :=
  "Structured breaks can improve endurance and reduce burnout risk.".
Definition NOTE_DISTRACTION : string :=
  "High distraction risk: switching to a quieter environment may help.".
Definition NOTE_FREQUENCY : string :=
  "Low weekly frequency: shorter, more frequent sessions often improve consistency.".
Definition NOTE_LOAD : string :=
  "High weekly study load: consider reducing duration or adding recovery time to avoid burnout.".

Section WithLibm.

(** The C library's [exp] on doubles, which [math.exp] wraps.  Its bits are
    the platform's; the development is parametric in it. *)
Variable libm_exp : float -> float.

(** [math.exp(x)] (CPython's [math_1] with [can_overflow]): a NaN from a
    number is a domain error, an infinity from a finite number a range
    error.  The [errno] test that follows there is for a C library that
    reports an overflow without returning an infinity; [libm_exp] is taken
    to report through its result. *)
Definition math_exp (x : float) : PyResult float :=
  let r := libm_exp x in
  if is_nan r && negb (is_nan x) then Raise ValueError
  else if is_infinity r && is_finite x then Raise OverflowError
  else Ok r.

Definition logistic (x : float) : PyResult float :=
  e <- math_exp (- x) ;;
  truediv 1.0 (1.0 + e).

Definition simulate (strategy : Strategy) : PyResult Result :=
  let notes : list string := [] in
  let method_w := dict_get METHOD_WEIGHTS (method strategy) 0.60 in
  let env_w := dict_get ENVIRONMENT_WEIGHTS (environment strategy) 0.85 in
  let break_w := dict_get BREAK_WEIGHTS (break_style strategy) 0.85 in
  let total_minutes := (session_minutes strategy * sessions_per_week strategy)%Z in
  let '(session_focus, notes) :=
    if (session_minutes strategy <=? 60)%Z then (1.0, notes)
    else if (session_minutes strategy <=? 90)%Z then (0.88, append notes NOTE_LONG)
    else (0.75, append notes NOTE_VERY_LONG) in
  dr1 <- float_of_int (distraction_risk strategy - 1) ;;
  let distraction_penalty := 1.0 - dr1 * 0.06 in
  cd1 <- float_of_int (course_difficulty strategy - 1) ;;
  let difficulty_penalty := 1.0 - cd1 * 0.05 in
  let base_eff :=
    85.0 * method_w * env_w * break_w * session_focus
    * distraction_penalty * difficulty_penalty in
  let effectiveness := clamp base_eff 0 100 in
  tm <- float_of_int total_minutes ;;
  time_load <- truediv tm 300.0 ;;
  cd3 <- float_of_int (course_difficulty strategy - 3) ;;
  let burnout_raw := (time_load - 1.0) + (1.0 - break_w) + cd3 * 0.15 in
  lg <- logistic burnout_raw ;;
  let burnout_risk := clamp (100.0 * lg) 0 100 in
  let sustainability := clamp (100.0 - burnout_risk + (break_w - 0.8) * 10.0) 0 100 in
  tm' <- float_of_int total_minutes ;;
  hours <- truediv tm' 60.0 ;;
  efficiency <-
    (if hours <=? 0 then Ok 0.0
     else
       diminishing <- truediv 1.0 (1.0 + 0.12 * py_max 0.0 (hours - 5.0)) ;;
       per_week <- truediv hours 5.0 ;;
       ratio <- truediv (effectiveness * diminishing) per_week ;;
       Ok (clamp ratio 0 100)) ;;
  neg_scaled <- truediv (- hours) 4.5 ;;
  e <- math_exp neg_scaled ;;
  let time_gain := 12.0 * (1.0 - e) in
  let method_bonus := 3.0 * (method_w - 0.6) in
  burnout_frac <- truediv burnout_risk 100.0 ;;
  let penalty := 4.0 * burnout_frac in
  let predicted_improvement := clamp (time_gain + method_bonus - penalty) 0 15 in
  let notes :=
    if str_in (method strategy) ["rereading"; "highlighting"]
    then append notes NOTE_PASSIVE else notes in
  let notes :=
    if str_in (break_style strategy) ["none"; "random"]
    then append notes NOTE_BREAKS else notes in
  let notes :=
    if str_in (environment strategy) ["dorm_room"; "coffee_shop"]
       && (4 <=? distraction_risk strategy)%Z
    then append notes NOTE_DISTRACTION else notes in
  let notes :=
    if (sessions_per_week strategy <=? 2)%Z
    then append notes NOTE_FREQUENCY else notes in
  let notes :=
    if (600 <? total_minutes)%Z
    then append notes NOTE_LOAD else notes in
  Ok (mkResult
        (round1 effectiveness)
        (round1 sustainability)
        (round1 efficiency)
        (round1 burnout_risk)
        (round1 predicted_improvement)
        notes).

End WithLibm.

End Sim.
Export Sim.

(** ** Terminal output *)

(** What the program writes, in order.  [Say] is [say(msg)], [Print] is
    [print(text)]; a formatted line keeps the values it formats. *)
Inductive Event : Type :=
| Say (msg : string)
| Print (text : string)
| PrintStrategy (s : Strategy)
| PrintNumbered (i : Z) (s : Strategy)
| PrintScore (label : string) (value : float)
| PrintTableHeader
| PrintRow (label : string) (r : Result).

Module UI.
Local Open Scope string_scope.
Local Open Scope py_scope.

Fixpoint str_mul (s : string) (n : nat) : string :=
  match n with
  | O => ""
  | S n' => s ++ str_mul s n'
  end.

Definition NL : string := String (ascii_of_nat 10) "".

(** The character U+2026 in UTF-8. *)
Definition ELLIPSIS : string :=
  String (ascii_of_nat 226) (String (ascii_of_nat 128) (String (ascii_of_nat 166) "")).

Definition print_result (strategy : Strategy) (result : Result) : list Event :=
  ([ Print (NL ++ str_mul "=" 72);
    PrintStrategy strategy;
    Print (str_mul "-" 72);
    PrintScore "Effectiveness" (effectiveness result);
    PrintScore "Sustainability" (sustainability result);
    PrintScore "Efficiency" (efficiency result);
    PrintScore "Burnout risk" (burnout_risk result);
    PrintScore "Predicted improvement" (predicted_improvement result) ]
  ++ (match notes result with
      | [] => []
      | _ => Print (NL ++ "Notes / Recommendations:")
             :: map (fun n => Print ("  - " ++ n)) (firstn 6 (notes result))
      end)
  ++ [ Print (str_mul "=" 72) ])%list.

(** The builtins [max(seq, key=f)] and [min(seq, key=f)]: a linear scan
    that replaces the held item only by a strictly better one. *)
Fixpoint max_scan {A : Type} (key : A -> float) (held : A) (rest : list A) : A :=
  match rest with
  | [] => held
  | item :: rest' =>
      max_scan key (if (key held <? key item)%float then item else held) rest'
  end.

Fixpoint min_scan {A : Type} (key : A -> float) (held : A) (rest : list A) : A :=
  match rest with
  | [] => held
  | item :: rest' =>
      min_scan key (if (key item <? key held)%float then item else held) rest'
  end.

Definition max_key {A : Type} (seq : list A) (key : A -> float) : PyResult A :=
  match seq with
  | [] => Raise ValueError
  | first :: rest => Ok (max_scan key first rest)
  end.

Definition min_key {A : Type} (seq : list A) (key : A -> float) : PyResult A :=
  match seq with
  | [] => Raise ValueError
  | first :: rest => Ok (min_scan key first rest)
  end.

(** A [str] is held as its UTF-8 bytes.  A byte [10xxxxxx] continues the
    character that an earlier byte began. *)
Definition is_continuation (c : ascii) : bool :=
  let n := nat_of_ascii c in ((128 <=? n) && (n <? 192))%nat.

(** [len(s)] on a [str]: the number of characters. *)
Fixpoint str_len (s : string) : nat :=
  match s with
  | EmptyString => O
  | String c s' => if is_continuation c then str_len s' else S (str_len s')
  end.

(** [s[:n]] on a [str]: the first [n] characters. *)
Fixpoint str_take (n : nat) (s : string) : string :=
  match s with
  | EmptyString => EmptyString
  | String c s' =>
      if is_continuation c then String c (str_take n s')
      else match n with
           | O => EmptyString
           | S n' => String c (str_take n' s')
           end
  end.

Definition row_label (s : Strategy) : string :=
  if (25 <? str_len (name s))%nat
  then str_take 24 (name s) ++ ELLIPSIS
  else name s.

(** The printed table of [compare]: its heading and a row per entry. *)
Definition comparison_table (results : list (Strategy * Result)) : list Event :=
  ([ Print (NL ++ str_mul "=" 72);
     Print "Scenario Comparison";
     Print (str_mul "=" 72);
     PrintTableHeader;
     Print (str_mul "-" 72) ]
   ++ map (fun x => PrintRow (row_label (fst x)) (snd x)) results)%list.

Definition compare (results : list (Strategy * Result)) : PyResult (list Event) :=
  if (List.length results <? 2)%nat then
    Ok [ Say "Create at least two scenarios to compare." ]
  else
    let table := comparison_table results in
    best_eff <- max_key results (fun x => effectiveness (snd x)) ;;
    best_sus <- max_key results (fun x => sustainability (snd x)) ;;
    best_efy <- max_key results (fun x => efficiency (snd x)) ;;
    lowest_burn <- min_key results (fun x => burnout_risk (snd x)) ;;
    Ok (table ++
        [ Say ("Highest effectiveness: " ++ name (fst best_eff));
          Say ("Best sustainability: " ++ name (fst best_sus));
          Say ("Best efficiency: " ++ name (fst best_efy));
          Say ("Lowest burnout risk: " ++ name (fst lowest_burn)) ])%list.

(** ** The session loop of [main] *)

Record Session : Type := mkSession {
  scenarios : list Strategy;
  results_cache : list (Strategy * Result)
}.

(** A turn of the loop: the menu choice with what the prompts returned
    ([create_strategy()] for choice 1, [ask_int] for choice 2). *)
Inductive Choice : Type :=
| CreateScenario (s : Strategy)
| RunSimulation (number : Z)
| CompareAll
| ListScenarios
| Quit.

Fixpoint enumerate_from (i : Z) (l : list Strategy) : list Event :=
  match l with
  | [] => []
  | s :: l' => PrintNumbered i s :: enumerate_from (i + 1) l'
  end.

Section WithLibm.
Variable libm_exp : float -> float.

(** Choice 2, with the [number] that [ask_int] returned (it only returns
    one of [1 .. len(scenarios)]). *)
Definition run_simulation (st : Session) (number : Z)
  : PyResult (Session * list Event) :=
  match scenarios st with
  | [] => Ok (st, [ Say "No scenarios yet. Create one first." ])
  | _ =>
      let listing := Print (NL ++ "Your scenarios:") :: enumerate_from 1 (scenarios st) in
      let idx := (number - 1)%Z in
      s <- subscript (scenarios st) idx ;;
      r <- simulate libm_exp s ;;
      let cache :=
        filter (fun x => negb (String.eqb (name (fst x)) (name s)))
               (results_cache st) in
      let cache := append cache (s, r) in
      Ok (mkSession (scenarios st) cache, (listing ++ print_result s r)%list)
  end.

(** One turn of the [while True] loop; [false] is [break]. *)
Definition menu_turn (st : Session) (choice : Choice)
  : PyResult (Session * list Event * bool) :=
  match choice with
  | CreateScenario s =>
      Ok (mkSession (append (scenarios st) s) (results_cache st),
          [ Say ("Saved scenario: " ++ name s) ], true)
  | RunSimulation number =>
      out <- run_simulation st number ;;
      Ok (fst out, snd out, true)
  | CompareAll =>
      match results_cache st with
      | [] => Ok (st, [ Say "Run at least one simulation first." ], true)
      | _ => out <- compare (results_cache st) ;; Ok (st, out, true)
      end
  | ListScenarios =>
      match scenarios st with
      | [] => Ok (st, [ Say "No scenarios created yet." ], true)
      | _ => Ok (st, Say "Current scenarios:" :: map PrintStrategy (scenarios st), true)
      end
  | Quit => Ok (st, [ Say "Goodbye!" ], false)
  end.

End WithLibm.
End UI.
Export UI.

(** * Specification vocabulary *)

(** ** Ranges and domains *)

Definition zrange (lo hi : Z) : list Z :=
  map (fun i => (lo + Z.of_nat i)%Z) (seq 0 (Z.to_nat (hi - lo + 1))).

Definition between (lo hi x : float) : Prop :=
  (lo <=? x)%float = true /\ (x <=? hi)%float = true.

Definition not_nan (x : float) : Prop := (x <=? x)%float = true.

(** The documented clamp ranges of a [Result]. *)
Definition in_documented_ranges (r : Result) : Prop :=
  between 0 100 (effectiveness r) /\
  between 0 100 (sustainability r) /\
  between 0 100 (efficiency r) /\
  between 0 100 (burnout_risk r) /\
  between 0 15 (predicted_improvement r).

(** The documented input domains of a scenario. *)
Definition valid (s : Strategy) : Prop :=
  (10 <= session_minutes s <= 180)%Z /\
  (1 <= sessions_per_week s <= 14)%Z /\
  (1 <= course_difficulty s <= 5)%Z /\
  (1 <= distraction_risk s <= 5)%Z.

(** The pieces of [simulate] that the properties speak about, each the
    expression of the same name in its body. *)
Module Parts.
Local Open Scope string_scope.
Local Open Scope float_scope.
Local Open Scope py_scope.

Definition method_w (s : Strategy) : float :=
  dict_get METHOD_WEIGHTS (method s) 0.60.
Definition env_w (s : Strategy) : float :=
  dict_get ENVIRONMENT_WEIGHTS (environment s) 0.85.
Definition break_w (s : Strategy) : float :=
  dict_get BREAK_WEIGHTS (break_style s) 0.85.

Definition session_focus (s : Strategy) : float :=
  if (session_minutes s <=? 60)%Z then 1.0
  else if (session_minutes s <=? 90)%Z then 0.88
  else 0.75.

Definition base_eff_from (mw ew bw sf : float) (dr cd : Z) : PyResult float :=
  dr1 <- float_of_int (dr - 1) ;;
  cd1 <- float_of_int (cd - 1) ;;
  Ok (85.0 * mw * ew * bw * sf * (1.0 - dr1 * 0.06) * (1.0 - cd1 * 0.05)).

Definition base_eff (s : Strategy) : PyResult float :=
  base_eff_from (method_w s) (env_w s) (break_w s) (session_focus s)
                (distraction_risk s) (course_difficulty s).

Definition session_notes (s : Strategy) : list string :=
  if (session_minutes s <=? 60)%Z then []
  else if (session_minutes s <=? 90)%Z then [NOTE_LONG]
  else [NOTE_VERY_LONG].

Definition rule_notes (s : Strategy) : list string :=
  (if str_in (method s) ["rereading"; "highlighting"] then [NOTE_PASSIVE] else [])
  ++ (if str_in (break_style s) ["none"; "random"] then [NOTE_BREAKS] else [])
  ++ (if str_in (environment s) ["dorm_room"; "coffee_shop"]
         && (4 <=? distraction_risk s)%Z then [NOTE_DISTRACTION] else [])
  ++ (if (sessions_per_week s <=? 2)%Z then [NOTE_FREQUENCY] else [])
  ++ (if (600 <? session_minutes s * sessions_per_week s)%Z then [NOTE_LOAD] else []).

End Parts.
Export Parts.

(** ** The scorer after its three lookups *)

Module Supplied.
Local Open Scope string_scope.
Local Open Scope float_scope.
Local Open Scope py_scope.

(** The body of [simulate] from its fourth statement on, with the three
    weights that its first three statements look up supplied. *)
Definition simulate_from (libm_exp : float -> float)
  (method_w env_w break_w : float) (strategy : Strategy) : PyResult Result :=
  let notes : list string := [] in
  let total_minutes := (session_minutes strategy * sessions_per_week strategy)%Z in
  let '(session_focus, notes) :=
    if (session_minutes strategy <=? 60)%Z then (1.0, notes)
    else if (session_minutes strategy <=? 90)%Z then (0.88, append notes NOTE_LONG)
    else (0.75, append notes NOTE_VERY_LONG) in
  dr1 <- float_of_int (distraction_risk strategy - 1) ;;
  let distraction_penalty := 1.0 - dr1 * 0.06 in
  cd1 <- float_of_int (course_difficulty strategy - 1) ;;
  let difficulty_penalty := 1.0 - cd1 * 0.05 in
  let base_eff :=
    85.0 * method_w * env_w * break_w * session_focus
    * distraction_penalty * difficulty_penalty in
  let effectiveness := clamp base_eff 0 100 in
  tm <- float_of_int total_minutes ;;
  time_load <- truediv tm 300.0 ;;
  cd3 <- float_of_int (course_difficulty strategy - 3) ;;
  let burnout_raw := (time_load - 1.0) + (1.0 - break_w) + cd3 * 0.15 in
  lg <- logistic libm_exp burnout_raw ;;
  let burnout_risk := clamp (100.0 * lg) 0 100 in
  let sustainability := clamp (100.0 - burnout_risk + (break_w - 0.8) * 10.0) 0 100 in
  tm' <- float_of_int total_minutes ;;
  hours <- truediv tm' 60.0 ;;
  efficiency <-
    (if hours <=? 0 then Ok 0.0
     else
       diminishing <- truediv 1.0 (1.0 + 0.12 * py_max 0.0 (hours - 5.0)) ;;
       per_week <- truediv hours 5.0 ;;
       ratio <- truediv (effectiveness * diminishing) per_week ;;
       Ok (clamp ratio 0 100)) ;;
  neg_scaled <- truediv (- hours) 4.5 ;;
  e <- math_exp libm_exp neg_scaled ;;
  let time_gain := 12.0 * (1.0 - e) in
  let method_bonus := 3.0 * (method_w - 0.6) in
  burnout_frac <- truediv burnout_risk 100.0 ;;
  let penalty := 4.0 * burnout_frac in
  let predicted_improvement := clamp (time_gain + method_bonus - penalty) 0 15 in
  let notes :=
    if str_in (method strategy) ["rereading"; "highlighting"]
    then append notes NOTE_PASSIVE else notes in
  let notes :=
    if str_in (break_style strategy) ["none"; "random"]
    then append notes NOTE_BREAKS else notes in
  let notes :=
    if str_in (environment strategy) ["dorm_room"; "coffee_shop"]
       && (4 <=? distraction_risk strategy)%Z
    then append notes NOTE_DISTRACTION else notes in
  let notes :=
    if (sessions_per_week strategy <=? 2)%Z
    then append notes NOTE_FREQUENCY else notes in
  let notes :=
    if (600 <? total_minutes)%Z
    then append notes NOTE_LOAD else notes in
  Ok (mkResult
        (round1 effectiveness)
        (round1 sustainability)
        (round1 efficiency)
        (round1 burnout_risk)
        (round1 predicted_improvement)
        notes).

End Supplied.
Export Supplied.

(** The values a weight lookup can yield: the table's, and the default. *)
Definition method_values : list float := 0.60%float :: map snd METHOD_WEIGHTS.
Definition env_values : list float := 0.85%float :: map snd ENVIRONMENT_WEIGHTS.
Definition break_values : list float := 0.85%float :: map snd BREAK_WEIGHTS.
Definition focus_values : list float := [1.0; 0.88; 0.75]%float.

(** What the development assumes of the C library's [exp]: on an argument
    of at most 709 (where [e^x] is below the largest double) the result is
    a non-negative finite double. *)
Definition exp_contract (libm_exp : float -> float) : Prop :=
  forall x, (x <=? 709)%float = true ->
            (0 <=? libm_exp x)%float = true /\ (libm_exp x <? infinity)%float = true.

(** For a weekly load [tm] (minutes): the divisors of the efficiency are
    not zero and the argument of the second [math.exp] is at most 709. *)
Definition hours_checks (tm : Z) : bool :=
  match float_of_int tm with
  | Ok t =>
      let hours := (t / 60)%float in
      negb (1 + 0.12 * py_max 0 (hours - 5) =? 0)%float
      && negb (hours / 5 =? 0)%float
      && (- hours / 4.5 <=? 709)%float
  | Raise _ => false
  end.

(** The argument [-burnout_raw] of the first [math.exp] is at most 709. *)
Definition burnout_checks (tm : Z) (bw : float) (cd : Z) : bool :=
  match float_of_int tm, float_of_int (cd - 3) with
  | Ok t, Ok c => (- (t / 300 - 1 + (1 - bw) + c * 0.15) <=? 709)%float
  | _, _ => false
  end.

(** The six factors that multiply the base of 85. *)
Definition factors_from (mw ew bw sf : float) (dr cd : Z) : PyResult (list float) :=
  bind (float_of_int (dr - 1)) (fun dr1 =>
  bind (float_of_int (cd - 1)) (fun cd1 =>
  Ok [mw; ew; bw; sf; (1.0 - dr1 * 0.06)%float; (1.0 - cd1 * 0.05)%float])).

Definition factors (s : Strategy) : PyResult (list float) :=
  factors_from (method_w s) (env_w s) (break_w s) (session_focus s)
               (distraction_risk s) (course_difficulty s).

(** The rounded effectiveness as a function of the weights and risks. *)
Definition effectiveness_from (mw ew bw sf : float) (dr cd : Z) : PyResult float :=
  bind (base_eff_from mw ew bw sf dr cd) (fun b => Ok (round1 (clamp b 0 100))).

(** Checks run over every combination of weights and risks. *)
Definition all_weights (P : float -> float -> float -> float -> bool) : bool :=
  forallb (fun mw =>
  forallb (fun ew =>
  forallb (fun bw =>
  forallb (fun sf => P mw ew bw sf) focus_values) break_values) env_values) method_values.

Definition all_risks (P : Z -> Z -> bool) : bool :=
  forallb (fun dr => forallb (fun cd => P dr cd) (zrange 1 5)) (zrange 1 5).

Definition bound_check (mw ew bw sf : float) (dr cd : Z) : bool :=
  match factors_from mw ew bw sf dr cd, base_eff_from mw ew bw sf dr cd with
  | Ok fs, Ok b =>
      forallb (fun f => (f <=? 1)%float) fs
      && Leibniz.eqb (fold_left PrimFloat.mul fs 85%float) b
      && (0 <? b)%float && (b <? 100)%float && (b <=? 85)%float
      && (round1 (clamp b 0 100) <=? 85)%float
  | _, _ => false
  end.

(** The rounded effectiveness at each pair of risks of [1..5]. *)
Definition effectiveness_table (mw ew bw sf : float) : list (Z * Z * PyResult float) :=
  flat_map (fun dr => map (fun cd => (dr, cd, effectiveness_from mw ew bw sf dr cd))
                          (zrange 1 5))
           (zrange 1 5).

Definition monotone_pair (p q : Z * Z * PyResult float) : bool :=
  let '(dr, cd, e) := p in
  let '(dr', cd', e') := q in
  match e, e' with
  | Ok x, Ok x' => if (dr <=? dr')%Z && (cd <=? cd')%Z then (x' <=? x)%float else true
  | _, _ => false
  end.

Definition monotone_check (mw ew bw sf : float) : bool :=
  let table := effectiveness_table mw ew bw sf in
  forallb (fun p => forallb (monotone_pair p) table) table.

(** ** A stand-in for the C library's [exp] *)

Module ExpModel.
Local Open Scope float_scope.

(** An executable stand-in for the C library's [exp]: the degree-14 Taylor
    polynomial at [x / 2^10], squared ten times, saturated to the
    non-negative finite doubles. *)
Fixpoint taylor_exp (n : nat) (k : float) (term acc y : float) : float :=
  match n with
  | O => acc
  | S n' => let term' := term * y / k in taylor_exp n' (k + 1) term' (acc + term') y
  end.

Fixpoint square_n (n : nat) (x : float) : float :=
  match n with
  | O => x
  | S n' => square_n n' (x * x)
  end.

Definition DBL_MAX : float := 0x1.fffffffffffffp+1023.

Definition exp_model (x : float) : float :=
  clamp (square_n 10 (taylor_exp 14 1 1 1 (x / 1024))) 0 DBL_MAX.

End ExpModel.
Export ExpModel.

(** ** The order of doubles, in integers *)

(** The results of rounding a positive value: positive and not NaN. *)
Definition pos_result (x : spec_float) : Prop :=
  match x with
  | S754_finite false _ _ | S754_infinity false => True
  | _ => False
  end.

(** [SFcompare] away from NaN is the lexicographic order of
    (sign class, exponent, mantissa), which [SFrank] maps into [Z]. *)
Definition SFrank (x : spec_float) : Z * Z * Z :=
  match x with
  | S754_zero _ => (0, 0, 0)%Z
  | S754_infinity false => (2, 0, 0)%Z
  | S754_infinity true => (-2, 0, 0)%Z
  | S754_nan => (0, 0, 0)%Z
  | S754_finite false m e => (1, e, Zpos m)%Z
  | S754_finite true m e => (-1, - e, Zneg m)%Z
  end.

Definition lex_compare (a b : Z * Z * Z) : comparison :=
  let '(a1, a2, a3) := a in
  let '(b1, b2, b3) := b in
  match (a1 ?= b1)%Z with
  | Eq => match (a2 ?= b2)%Z with
          | Eq => (a3 ?= b3)%Z
          | c => c
          end
  | c => c
  end.

(** ** Selection by a linear scan *)

Section Scan.
Context {A : Type}.
Variables worse not_better : A -> A -> bool.

(** A scan that replaces the held item by a strictly better one. *)
Fixpoint scan (held : A) (rest : list A) : A :=
  match rest with
  | [] => held
  | item :: rest' => scan (if worse held item then item else held) rest'
  end.

Definition first_best (l : list A) (x : A) : Prop :=
  exists i, nth_error l i = Some x /\
            (forall y, In y l -> not_better y x = true) /\
            (forall j y, (j < i)%nat -> nth_error l j = Some y -> worse y x = true).

End Scan.

(** [x] is the lowest-index entry of [l] whose key is the greatest
    (smallest): no entry has a greater (smaller) key, and every entry
    before it has a strictly smaller (greater) one. *)
Definition first_max {A : Type} (key : A -> float) (l : list A) (x : A) : Prop :=
  exists i, nth_error l i = Some x /\
            (forall y, In y l -> (key y <=? key x)%float = true) /\
            (forall j y, (j < i)%nat -> nth_error l j = Some y ->
                         (key y <? key x)%float = true).

Definition first_min {A : Type} (key : A -> float) (l : list A) (x : A) : Prop :=
  exists i, nth_error l i = Some x /\
            (forall y, In y l -> (key x <=? key y)%float = true) /\
            (forall j y, (j < i)%nat -> nth_error l j = Some y ->
                         (key x <? key y)%float = true).

(** ** Relations between scenarios and between cache states *)

(** The fields [simulate] reads: all but the display name. *)
Definition scoring_fields (s : Strategy) : string * Z * Z * string * string * Z * Z :=
  (method s, session_minutes s, sessions_per_week s, environment s,
   break_style s, course_difficulty s, distraction_risk s).

Definition agree_except_risks (s1 s2 : Strategy) : Prop :=
  name s1 = name s2 /\ method s1 = method s2 /\
  session_minutes s1 = session_minutes s2 /\
  sessions_per_week s1 = sessions_per_week s2 /\
  environment s1 = environment s2 /\ break_style s1 = break_style s2.

(** The cache entry [x] is filed under the name of [s]. *)
Definition named_like (s : Strategy) (x : Strategy * Result) : bool :=
  String.eqb (name (fst x)) (name s).

(** What choice 2 does to the session: nothing without scenarios;
    otherwise the chosen scenario [s] is scored, the entries under its name
    are dropped and [(s, r)] is appended. *)
Definition cache_updated
  (libm_exp : float -> float) (st : Session) (number : Z) (st' : Session) : Prop :=
  (scenarios st = [] /\ st' = st) \/
  exists s r,
    subscript (scenarios st) (number - 1) = Ok s /\
    simulate libm_exp s = Ok r /\
    scenarios st' = scenarios st /\
    results_cache st' =
      (filter (fun x => negb (named_like s x)) (results_cache st) ++ [(s, r)])%list /\
    filter (named_like s) (results_cache st') = [(s, r)] /\
    filter (fun x => negb (named_like s x)) (results_cache st')
    = filter (fun x => negb (named_like s x)) (results_cache st).

(** The sessions the loop can be in: it starts empty and takes turns. *)
Inductive reachable (libm_exp : float -> float) : Session -> Prop :=
| reachable_start : reachable libm_exp (mkSession [] [])
| reachable_turn (st st' : Session) (choice : Choice) (out : list Event) :
    reachable libm_exp st ->
    menu_turn libm_exp st choice = Ok (st', out, true) ->
    reachable libm_exp st'.

Definition cache_names (st : Session) : list string :=
  map (fun x => name (fst x)) (results_cache st).

(** Every cached result came out of [simulate], under a name of its own. *)
Definition cache_ok (st : Session) : Prop :=
  Forall (fun x => in_documented_ranges (snd x)) (results_cache st) /\
  NoDup (cache_names st).

(** ** Scenarios used as concrete inputs *)

Module Examples.
Local Open Scope string_scope.
Local Open Scope float_scope.

(** Practice problems in the library with pomodoro breaks, 45 minutes 4
    times a week, difficulty 3, distraction risk 2, under any label. *)
Definition practice_in_library (label : string) : Strategy :=
  mkStrategy label "practice_problems" 45 4 "library" "pomodoro" 3 2.

Definition meditation_plan : Strategy :=
  mkStrategy "Plan M" "meditation" 45 4 "rooftop" "stretching" 3 2.

(** A plan whose session length no double can hold. *)
Definition endless_sessions : Strategy :=
  mkStrategy "Plan Z" "meditation" (10 ^ 400) 4 "library" "pomodoro" 3 2.

Definition cram_in_dorm : Strategy :=
  mkStrategy "Cram" "highlighting" 120 7 "dorm_room" "none" 5 5.

Definition cram_renamed : Strategy :=
  mkStrategy "Cram again" "highlighting" 120 7 "dorm_room" "none" 5 5.

Definition calm_in_dorm : Strategy :=
  mkStrategy "Cram" "highlighting" 120 7 "dorm_room" "none" 5 2.

(** Six notes: one for the session length and all five rules. *)
Definition marathon_plan : Strategy :=
  mkStrategy "Marathon" "rereading" 400 2 "coffee_shop" "random" 4 4.

(** Effectiveness 70, 90, 90. *)
Definition tie_example : list (Strategy * Result) :=
  [ (mkStrategy "A" "summarizing" 45 4 "library" "pomodoro" 3 2,
     mkResult 70 60 80 40 5 []);
    (mkStrategy "B" "flashcards" 45 4 "library" "pomodoro" 3 2,
     mkResult 90 60 70 40 6 []);
    (mkStrategy "C" "practice_problems" 45 4 "library" "pomodoro" 3 2,
     mkResult 90 55 80 45 6 []) ].

(** A session whose cache holds a stale result under the name "Cram". *)
Definition stale_session : Session :=
  mkSession [ cram_in_dorm; practice_in_library "Plan A" ]
            [ (cram_in_dorm, mkResult 1 2 3 4 5 []);
              (practice_in_library "Plan A", mkResult 71.9 61.9 100 40.1 5.4 []) ].

End Examples.
Import Examples.

From Stdlib Require Import DecimalString.

(** * The interactive layer *)

(** ** Console runtime *)

(** The exceptions of the interactive layer: its own, and those of the
    scorer. *)
Inductive ConsoleError : Type :=
| EOFError
| KeyError (key : string)
| Scoring (e : PyError).

(** What reaches the terminal: the output of [print] and [say], and the
    prompts of [input]. *)
Inductive Tty : Type :=
| Shown (e : Event)
| Asked (prompt : string).

(** The world outside the program: the lines still to be typed, the number
    of random draws made, and the terminal so far. *)
Record World : Type := mkWorld {
  stdin : list string;
  draws : nat;
  tty : list Tty
}.

Inductive Outcome (A : Type) : Type :=
| Returned (a : A) (w : World)
| Raised (e : ConsoleError) (w : World).

Arguments Returned {A} a w.
Arguments Raised {A} e w.

Definition IO (A : Type) : Type := World -> Outcome A.

Definition io_ret {A : Type} (a : A) : IO A := fun w => Returned a w.

Definition io_bind {A B : Type} (c : IO A) (k : A -> IO B) : IO B :=
  fun w =>
    match c w with
    | Returned a w' => k a w'
    | Raised e w' => Raised e w'
    end.

Declare Scope io_scope.
Delimit Scope io_scope with io.
Notation "x <- c ;; k" := (io_bind c (fun x => k))
  (at level 61, c at next level, right associativity) : io_scope.
Notation "c ;; k" := (io_bind c (fun _ => k))
  (at level 61, right associativity) : io_scope.

(** [str(z)] for an [int]. *)
Definition str_of_int (z : Z) : string := NilZero.string_of_int (Z.to_int z).

(** [d[key]] on a dict: [KeyError] on a missing key. *)
Fixpoint dict_item {V : Type} (d : list (string * V)) (key : string) : option V :=
  match d with
  | [] => None
  | (k, v) :: d' => if String.eqb k key then Some v else dict_item d' key
  end.

(** [key in d] on a dict. *)
Definition dict_has {V : Type} (d : list (string * V)) (key : string) : bool :=
  existsb (fun kv => String.eqb (fst kv) key) d.

(** [s.replace("_", " ")]. *)
Fixpoint replace_underscores (s : string) : string :=
  match s with
  | EmptyString => EmptyString
  | String c s' =>
      String (if Ascii.eqb c "_"%char then " "%char else c) (replace_underscores s')
  end.

Module Console.
Local Open Scope string_scope.
Local Open Scope io_scope.

Definition emit (e : Event) : IO unit :=
  fun w => Returned tt (mkWorld (stdin w) (draws w) (tty w ++ [Shown e])).

Definition say (msg : string) : IO unit := emit (Say msg).
Definition print (text : string) : IO unit := emit (Print text).

Definition emit_all (es : list Event) : IO unit :=
  fun w => Returned tt (mkWorld (stdin w) (draws w) (tty w ++ map Shown es)).

(** [input(prompt)]: the prompt is written and a line is read;
    [EOFError] at the end of the input. *)
Definition input (prompt : string) : IO string :=
  fun w =>
    let shown := (tty w ++ [Asked prompt])%list in
    match stdin w with
    | [] => Raised EOFError (mkWorld [] (draws w) shown)
    | line :: rest => Returned line (mkWorld rest (draws w) shown)
    end.

Definition raise {A : Type} (e : ConsoleError) : IO A := fun w => Raised e w.

(** A scorer computation run inside the interactive layer. *)
Definition scoring {A : Type} (c : PyResult A) : IO A :=
  match c with
  | Ok a => io_ret a
  | Raise e => raise (Scoring e)
  end.

Definition METHOD_OPTIONS : list (string * string) :=
  [ ("1", "practice_problems");
    ("2", "flashcards");
    ("3", "teaching_someone");
    ("4", "summarizing");
    ("5", "rereading");
    ("6", "highlighting");
    ("7", "group_study") ].

Definition ENV_OPTIONS : list (string * string) :=
  [ ("1", "library");
    ("2", "quiet_room");
    ("3", "coffee_shop");
    ("4", "dorm_room") ].

Definition BREAK_OPTIONS : list (string * string) :=
  [ ("1", "pomodoro");
    ("2", "structured");
    ("3", "random");
    ("4", "none") ].

Definition MAIN_MENU : list (string * string) :=
  [ ("1", "Create a new scenario");
    ("2", "Run simulation for a scenario");
    ("3", "Compare all simulated scenarios");
    ("4", "List scenarios");
    ("5", "Quit") ].

Definition BANNER : string :=
  "Study Strategy Simulator (Prototype)" ++ NL ++
  "Build study-plan scenarios and see explainable scores for effectiveness, " ++
  "sustainability, efficiency, and burnout risk.".

Section WithPlatform.

(** Python's [str.strip], [str.lower] and [str.title], and [int] on a
    string ([None] is its [ValueError]): Unicode-aware library functions,
    taken as they are. *)
Variable strip : string -> string.
Variable lower : string -> string.
Variable title : string -> string.
Variable int_of_str : string -> option Z.

(** The random source: the value of the [n]-th draw, before it is brought
    into the range asked for. *)
Variable entropy : nat -> Z.

Variable libm_exp : float -> float.

(** [random.randint(a, b)]: an integer of [a .. b]. *)
Definition randint (a b : Z) : IO Z :=
  fun w =>
    Returned (a + entropy (draws w) mod (b - a + 1))%Z
             (mkWorld (stdin w) (S (draws w)) (tty w)).

Definition ask (prompt : string) : IO string :=
  line <- input prompt ;;
  io_ret (strip line).

(** The [while True] loop of [ask_int], on the lines still to be typed:
    every iteration reads one. *)
Fixpoint ask_int_from (prompt : string) (min_v max_v : Z)
  (lines : list string) (n : nat) (shown : list Tty) : Outcome Z :=
  match lines with
  | [] => Raised EOFError (mkWorld [] n (shown ++ [Asked prompt]))
  | line :: rest =>
      let shown := (shown ++ [Asked prompt])%list in
      let raw := strip line in
      match int_of_str raw with
      | None =>
          ask_int_from prompt min_v max_v rest n
            (shown ++ [Shown (Say ("Please enter an integer between "
                                   ++ str_of_int min_v ++ " and "
                                   ++ str_of_int max_v ++ "."))])
      | Some val =>
          if (min_v <=? val)%Z && (val <=? max_v)%Z then
            Returned val (mkWorld rest n shown)
          else
            ask_int_from prompt min_v max_v rest n
              (shown ++ [Shown (Say ("Value must be between "
                                     ++ str_of_int min_v ++ " and "
                                     ++ str_of_int max_v ++ "."))])
      end
  end.

Definition ask_int (prompt : string) (min_v max_v : Z) : IO Z :=
  fun w => ask_int_from prompt min_v max_v (stdin w) (draws w) (tty w).

(** The menu that [ask_choice] prints before each attempt. *)
Definition menu_lines (prompt : string) (options : list (string * string)) : list Tty :=
  Shown (Print (NL ++ prompt))
  :: map (fun kv => Shown (Print ("  " ++ fst kv ++ ") " ++ snd kv))) options.

Fixpoint ask_choice_from (prompt : string) (options : list (string * string))
  (lines : list string) (n : nat) (shown : list Tty) : Outcome string :=
  let shown := (shown ++ menu_lines prompt options ++ [Asked "Choose: "])%list in
  match lines with
  | [] => Raised EOFError (mkWorld [] n shown)
  | line :: rest =>
      let pick := lower (strip line) in
      if dict_has options pick then Returned pick (mkWorld rest n shown)
      else ask_choice_from prompt options rest n
             (shown ++ [Shown (Say "Invalid choice. Try again.")])
  end.

Definition ask_choice (prompt : string) (options : list (string * string)) : IO string :=
  fun w => ask_choice_from prompt options (stdin w) (draws w) (tty w).

Definition pretty_method (m : string) : string := title (replace_underscores m).

Definition subscript_key (d : list (string * string)) (key : string) : IO string :=
  match dict_item d key with
  | Some v => io_ret v
  | None => raise (KeyError key)
  end.

Definition pretty_options (d : list (string * string)) : list (string * string) :=
  map (fun kv => (fst kv, pretty_method (snd kv))) d.

Definition create_strategy : IO Strategy :=
  say "Create a new study strategy scenario." ;;
  name <- ask "Scenario name (e.g., 'Exam Week Plan A'): " ;;
  name <- (if String.eqb name "" then
             n <- randint 100 999 ;;
             io_ret ("Scenario " ++ str_of_int n)
           else io_ret name) ;;
  m_key <- ask_choice "Pick a study method:" (pretty_options METHOD_OPTIONS) ;;
  e_key <- ask_choice "Pick an environment:" (pretty_options ENV_OPTIONS) ;;
  b_key <- ask_choice "Pick a break style:" (pretty_options BREAK_OPTIONS) ;;
  session_minutes <- ask_int "Session length in minutes (10-180): " 10 180 ;;
  sessions_per_week <- ask_int "Sessions per week (1-14): " 1 14 ;;
  course_difficulty <- ask_int "Course difficulty (1=easy, 5=hard): " 1 5 ;;
  distraction_risk <- ask_int "Distraction risk (1=low, 5=high): " 1 5 ;;
  method <- subscript_key METHOD_OPTIONS m_key ;;
  environment <- subscript_key ENV_OPTIONS e_key ;;
  break_style <- subscript_key BREAK_OPTIONS b_key ;;
  io_ret (mkStrategy name method session_minutes sessions_per_week
                     environment break_style course_difficulty distraction_risk).

(** One iteration of the loop of [main]: the session after it, and whether
    the loop goes on. *)
Definition main_turn (st : Session) : IO (Session * bool) :=
  print (NL ++ str_mul "-" 72) ;;
  choice <- ask_choice "Main menu:" MAIN_MENU ;;
  if String.eqb choice "1" then
    s <- create_strategy ;;
    say ("Saved scenario: " ++ name s) ;;
    io_ret (mkSession (append (scenarios st) s) (results_cache st), true)
  else if String.eqb choice "2" then
    match scenarios st with
    | [] => say "No scenarios yet. Create one first." ;; io_ret (st, true)
    | _ =>
        print (NL ++ "Your scenarios:") ;;
        emit_all (enumerate_from 1 (scenarios st)) ;;
        number <- ask_int "Which scenario number? " 1
                          (Z.of_nat (List.length (scenarios st))) ;;
        let idx := (number - 1)%Z in
        s <- scoring (subscript (scenarios st) idx) ;;
        r <- scoring (simulate libm_exp s) ;;
        let cache :=
          filter (fun x => negb (String.eqb (name (fst x)) (name s)))
                 (results_cache st) in
        let cache := append cache (s, r) in
        emit_all (print_result s r) ;;
        io_ret (mkSession (scenarios st) cache, true)
    end
  else if String.eqb choice "3" then
    match results_cache st with
    | [] => say "Run at least one simulation first." ;; io_ret (st, true)
    | _ =>
        out <- scoring (compare (results_cache st)) ;;
        emit_all out ;;
        io_ret (st, true)
    end
  else if String.eqb choice "4" then
    match scenarios st with
    | [] => say "No scenarios created yet." ;; io_ret (st, true)
    | _ =>
        say "Current scenarios:" ;;
        emit_all (map PrintStrategy (scenarios st)) ;;
        io_ret (st, true)
    end
  else if String.eqb choice "5" then
    say "Goodbye!" ;; io_ret (st, false)
  else io_ret (st, true).

(** The loop of [main], for at most [fuel] iterations; [None] when they are
    used up. *)
Fixpoint main_loop (fuel : nat) (st : Session) : IO (option Session) :=
  match fuel with
  | O => io_ret None
  | S fuel' =>
      turn <- main_turn st ;;
      if snd turn then main_loop fuel' (fst turn) else io_ret (Some (fst turn))
  end.

(** [main()]: every iteration reads a line, so one more iteration than
    there are lines is enough. *)
Definition main : IO (option Session) :=
  fun w =>
    (say BANNER ;;
     main_loop (S (List.length (stdin w))) (mkSession [] [])) w.

End WithPlatform.
End Console.

(** ** The library functions on ASCII text *)

(** What [str.strip], [str.lower], [str.title] and [int] do on ASCII text,
    and a fixed sequence for the random source: the instance at which the
    interactive layer is run on concrete inputs. *)
Module AsciiText.
Local Open Scope string_scope.

Definition is_space (c : ascii) : bool :=
  let n := nat_of_ascii c in
  ((9 <=? n) && (n <=? 13) || (28 <=? n) && (n <=? 32))%nat.

Definition is_upper (c : ascii) : bool :=
  let n := nat_of_ascii c in ((65 <=? n) && (n <=? 90))%nat.

Definition is_lower (c : ascii) : bool :=
  let n := nat_of_ascii c in ((97 <=? n) && (n <=? 122))%nat.

Definition is_digit (c : ascii) : bool :=
  let n := nat_of_ascii c in ((48 <=? n) && (n <=? 57))%nat.

Definition to_lower (c : ascii) : ascii :=
  if is_upper c then ascii_of_nat (nat_of_ascii c + 32) else c.

Definition to_upper (c : ascii) : ascii :=
  if is_lower c then ascii_of_nat (nat_of_ascii c - 32) else c.

Fixpoint lstrip (s : string) : string :=
  match s with
  | String c s' => if is_space c then lstrip s' else s
  | EmptyString => EmptyString
  end.

Fixpoint rstrip (s : string) : string :=
  match s with
  | String c s' =>
      let r := rstrip s' in
      if is_space c && String.eqb r "" then "" else String c r
  | EmptyString => EmptyString
  end.

Definition strip (s : string) : string := rstrip (lstrip s).

Fixpoint lower (s : string) : string :=
  match s with
  | String c s' => String (to_lower c) (lower s')
  | EmptyString => EmptyString
  end.

(** [str.title]: a letter is upper case after a character that is not a
    letter, and lower case after a letter. *)
Fixpoint title_from (after_letter : bool) (s : string) : string :=
  match s with
  | String c s' =>
      if is_upper c || is_lower c then
        String (if after_letter then to_lower c else to_upper c) (title_from true s')
      else String c (title_from false s')
  | EmptyString => EmptyString
  end.

Definition title (s : string) : string := title_from false s.

(** [int] on a decimal numeral with an optional sign; the other spellings
    that [int] reads (underscores between digits) are taken as errors
    here. *)
Definition int_of_str (s : string) : option Z :=
  match s with
  | String "+" (String c s') =>
      if is_digit c then option_map Z.of_int (NilZero.int_of_string (String c s'))
      else None
  | _ => option_map Z.of_int (NilZero.int_of_string s)
  end.

Definition entropy (n : nat) : Z := (Z.of_nat n * 7919 + 4321)%Z.

End AsciiText.

(** ** Typed inputs used as concrete runs *)

Module Scripts.
Local Open Scope string_scope.

Definition typing (lines : list string) : World := mkWorld lines 0 [].

(** A scenario is typed, with a mistake on the way and the name left
    empty. *)
Definition new_scenario : list string :=
  [ ""; "9"; " 1 "; "2"; "2"; "forty"; "45"; "4"; "3"; "0"; "2" ].

(** A whole session: a scenario is created, scored twice, listed and
    compared, before quitting. *)
Definition whole_session : list string :=
  [ "1"; "Plan A"; "1"; "1"; "1"; "45"; "4"; "3"; "2";
    "2"; "7"; "1"; "2"; "1"; "4"; "3"; "5"; "never read" ].

End Scripts.

(** ** Vocabulary for the prompts *)

(** What a typed line is worth to [ask_int]: the integer it holds, when it
    holds one of [min_v .. max_v]. *)
Definition int_answer (strip : string -> string) (int_of_str : string -> option Z)
  (min_v max_v : Z) (line : string) : option Z :=
  match int_of_str (strip line) with
  | Some val => if (min_v <=? val)%Z && (val <=? max_v)%Z then Some val else None
  | None => None
  end.

(** What [ask_int] says of a line it rejects. *)
Definition int_complaint (strip : string -> string) (int_of_str : string -> option Z)
  (min_v max_v : Z) (line : string) : string :=
  match int_of_str (strip line) with
  | None => "Please enter an integer between " ++ str_of_int min_v ++ " and "
            ++ str_of_int max_v ++ "."
  | Some _ => "Value must be between " ++ str_of_int min_v ++ " and "
              ++ str_of_int max_v ++ "."
  end.

(** What a typed line is worth to [ask_choice]: the key it names. *)
Definition choice_answer (strip lower : string -> string)
  (options : list (string * string)) (line : string) : option string :=
  if dict_has options (lower (strip line)) then Some (lower (strip line)) else None.

(** The [say] lines on a terminal. *)
Definition said (t : list Tty) : list string :=
  flat_map (fun x => match x with Shown (Say msg) => [msg] | _ => [] end) t.

(** The prompts of [input] on a terminal. *)
Definition prompts (t : list Tty) : list string :=
  flat_map (fun x => match x with Asked p => [p] | _ => [] end) t.

(** An outcome that satisfies [Q] when it is a value and [E] when it is an
    exception. *)
Definition outcome_sat {A : Type} (o : Outcome A)
  (Q : A -> World -> Prop) (E : ConsoleError -> World -> Prop) : Prop :=
  match o with
  | Returned a w' => Q a w'
  | Raised e w' => E e w'
  end.

(** The input ran out: the one way the prompts fail. *)
Definition end_of_input (e : ConsoleError) (w : World) : Prop :=
  e = EOFError /\ stdin w = [].

(** At least [k] lines were read between [w] and [w']. *)
Definition read_lines (k : nat) (w w' : World) : Prop :=
  (List.length (stdin w') + k <= List.length (stdin w))%nat.

(** The categories the weight tables know. *)
Definition known_categories (s : Strategy) : Prop :=
  In (method s) (map fst METHOD_WEIGHTS) /\
  In (environment s) (map fst ENVIRONMENT_WEIGHTS) /\
  In (break_style s) (map fst BREAK_WEIGHTS).

(** What [create_strategy] promises of a scenario. *)
Definition well_formed (s : Strategy) : Prop :=
  valid s /\ known_categories s /\ name s <> ""%string.

(** The ways [main] can fail: the input runs out, or [simulate] raises on
    a scenario that [create_strategy] built. *)
Definition main_failure (libm_exp : float -> float) (e : ConsoleError) (w : World) : Prop :=
  end_of_input e w \/
  exists s e', well_formed s /\ simulate libm_exp s = Raise e' /\ e = Scoring e'.

(** How [main] ends when it returns: not out of iterations, in a session
    the loop can reach, with scenarios from [create_strategy] only, and
    after saying goodbye. *)
Definition main_finished (libm_exp : float -> float) (r : option Session) (w : World) : Prop :=
  exists st, r = Some st /\ reachable libm_exp st /\
             Forall well_formed (scenarios st) /\
             exists t, tty w = (t ++ [Shown (Say "Goodbye!"%string)])%list.

(** The key of the main menu that stands for a turn of the session model. *)
Definition menu_key (choice : Choice) : string :=
  match choice with
  | CreateScenario _ => "1"
  | RunSimulation _ => "2"
  | CompareAll => "3"
  | ListScenarios => "4"
  | Quit => "5"
  end.

(** What is read after the menu key, between the worlds [w] and [w'], for
    the data that the choice carries: the scenario of choice 1 comes from
    [create_strategy], the number of choice 2 from [ask_int] when there is a
    scenario to pick; nothing else is read. *)
Definition choice_read
  (strip lower title : string -> string) (int_of_str : string -> option Z)
  (entropy : nat -> Z) (st : Session) (choice : Choice) (w w' : World) : Prop :=
  match choice with
  | CreateScenario s =>
      Console.create_strategy strip lower title int_of_str entropy w = Returned s w'
  | RunSimulation number =>
      match scenarios st with
      | [] => w' = w
      | _ => Console.ask_int strip int_of_str "Which scenario number? " 1
               (Z.of_nat (List.length (scenarios st))) w = Returned number w'
      end
  | _ => w' = w
  end.

(** ** Vocabulary for the session and the scorer *)

(** Every cached result is what [simulate] gives on its scenario, which is
    one of the session's. *)
Definition cache_coherent (libm_exp : float -> float) (st : Session) : Prop :=
  Forall (fun x => In (fst x) (scenarios st) /\ simulate libm_exp (fst x) = Ok (snd x))
         (results_cache st).

(** The session after the scenario [cram_in_dorm] was created and scored. *)
Definition scored_session : Session :=
  match menu_turn exp_model (mkSession [Examples.cram_in_dorm] []) (RunSimulation 1) with
  | Ok (st, _, _) => st
  | Raise _ => mkSession [] []
  end.

(** Checks run over every combination of the three category weights. *)
Definition all_categories (P : float -> float -> float -> bool) : bool :=
  forallb (fun mw =>
  forallb (fun ew =>
  forallb (fun bw => P mw ew bw) break_values) env_values) method_values.

(** At given weights and risks: the rounded effectiveness does not grow
    from one session-focus factor to a lower one, and is at least 9.3 at
    each. *)
Definition focus_check (mw ew bw : float) (dr cd : Z) : bool :=
  match effectiveness_from mw ew bw 1.0 dr cd,
        effectiveness_from mw ew bw 0.88 dr cd,
        effectiveness_from mw ew bw 0.75 dr cd with
  | Ok a, Ok b, Ok c =>
      ((b <=? a) && (c <=? b) && (c <=? a)
       && (a <=? a) && (b <=? b) && (c <=? c)
       && (9.3 <=? a) && (9.3 <=? b) && (9.3 <=? c))%float
  | _, _, _ => false
  end.

(** The session-focus factor as a function of the session length. *)
Definition focus_of (minutes : Z) : float :=
  if (minutes <=? 60)%Z then 1.0%float
  else if (minutes <=? 90)%Z then 0.88%float else 0.75%float.

(** The scoring fields other than the session length. *)
Definition agree_except_minutes (s1 s2 : Strategy) : Prop :=
  method s1 = method s2 /\ environment s1 = environment s2 /\
  break_style s1 = break_style s2 /\
  distraction_risk s1 = distraction_risk s2 /\
  course_difficulty s1 = course_difficulty s2.

(** The character U+00E9 in UTF-8. *)
Definition E_ACUTE : string :=
  String (ascii_of_nat 195) (String (ascii_of_nat 169) "").

(** A plan whose name is 26 characters long, each of two bytes. *)
Definition accented_plan : Strategy :=
  mkStrategy (str_mul E_ACUTE 26) "flashcards" 45 4 "library" "pomodoro" 3 2.

(** Practice problems in the library as in [practice_in_library], in
    sessions of two hours. *)
Definition long_practice : Strategy :=
  mkStrategy "Plan A" "practice_problems" 120 4 "library" "pomodoro" 3 2.

(** * Properties *)

(** ** Enumeration of integer ranges *)


Lemma zrange_In (lo hi z : Z) : (lo <= z <= hi)%Z -> In z (zrange lo hi).
Proof.
  intros Hz. unfold zrange. apply in_map_iff.
  exists (Z.to_nat (z - lo)). split; [lia|].
  apply in_seq. lia.
Qed.

Lemma forallb_zrange (P : Z -> bool) (lo hi : Z) :
  forallb P (zrange lo hi) = true ->
  forall z, (lo <= z <= hi)%Z -> P z = true.
Proof.
  intros Hall z Hz. rewrite forallb_forall in Hall.
  apply Hall, zrange_In, Hz.
Qed.

(** ** Rounding of a positive value never yields a zero or a NaN *)

Module SpecRound.
Local Open Scope Z_scope.

Lemma digits2_pos_lower (m : positive) :
  (2 ^ (Zpos (digits2_pos m) - 1) <= Zpos m)%Z.
Proof.
  induction m as [m IH|m IH|]; simpl digits2_pos.
  - rewrite Pos2Z.inj_succ. replace (Z.succ (Zpos (digits2_pos m)) - 1) with (Z.succ (Zpos (digits2_pos m) - 1)) by lia.
    rewrite Z.pow_succ_r by lia. lia.
  - rewrite Pos2Z.inj_succ. replace (Z.succ (Zpos (digits2_pos m)) - 1) with (Z.succ (Zpos (digits2_pos m) - 1)) by lia.
    rewrite Z.pow_succ_r by lia. lia.
  - reflexivity.
Qed.

Lemma shr_1_m (mrs : shr_record) :
  0 <= shr_m mrs -> shr_m (shr_1 mrs) = shr_m mrs / 2.
Proof.
  destruct mrs as [m r s]. cbn [shr_m]. intros Hm.
  destruct m as [|[p|p|]|p]; unfold shr_1; cbn [shr_m]; try lia; try reflexivity.
  - apply Z.div_unique with 1; lia.
  - apply Z.div_unique with 0; lia.
Qed.

Lemma iter_shr_1_m (n : positive) : forall mrs,
  0 <= shr_m mrs ->
  shr_m (iter_pos shr_1 n mrs) = shr_m mrs / 2 ^ Zpos n.
Proof.
  induction n as [n IH|n IH|]; intros mrs Hm; simpl iter_pos.
  - assert (H1 : 0 <= shr_m (shr_1 mrs)) by (rewrite shr_1_m by lia; apply Z.div_pos; lia).
    assert (H2 : 0 <= shr_m (iter_pos shr_1 n (shr_1 mrs))) by (rewrite IH by lia; apply Z.div_pos; lia).
    rewrite IH, IH, shr_1_m by lia.
    rewrite !Z.div_div by lia.
    f_equal.
    assert (En : Zpos n~1 = 1 + Zpos n + Zpos n) by lia.
    rewrite En, !Z.pow_add_r by lia. lia.
  - assert (H2 : 0 <= shr_m (iter_pos shr_1 n mrs)) by (rewrite IH by lia; apply Z.div_pos; lia).
    rewrite IH, IH by lia.
    rewrite !Z.div_div by lia.
    f_equal.
    assert (En : Zpos n~0 = Zpos n + Zpos n) by lia.
    rewrite En, !Z.pow_add_r by lia. lia.
  - rewrite shr_1_m by lia. reflexivity.
Qed.

Lemma shr_record_of_loc_m m l : shr_m (shr_record_of_loc m l) = m.
Proof. destruct l as [|[| |]]; reflexivity. Qed.

Lemma shr_fexp_pos (m e : Z) (l : location) :
  1 <= m -> emin <= e ->
  1 <= shr_m (fst (shr_fexp prec emax m e l)) /\ emin <= snd (shr_fexp prec emax m e l).
Proof.
  intros Hm He. unfold shr_fexp, shr.
  destruct m as [|p|p]; try lia.
  simpl Zdigits2.
  pose proof (digits2_pos_lower p) as Hd.
  unfold fexp, SpecFloat.emin, prec, emax in *.
  destruct (Z.max (Zpos (digits2_pos p) + e - 53) (3 - 1024 - 53) - e) as [|n|n] eqn:En;
    simpl fst; simpl snd; rewrite ?shr_record_of_loc_m; try lia.
  rewrite iter_shr_1_m by (rewrite shr_record_of_loc_m; lia).
  rewrite shr_record_of_loc_m.
  split; [|lia].
  assert (Hn : Zpos n = Zpos (digits2_pos p) - 53) by lia.
  apply Z.div_le_lower_bound; [apply Z.pow_pos_nonneg; lia|].
  rewrite Z.mul_1_r.
  eapply Z.le_trans; [|exact Hd].
  apply Z.pow_le_mono_r; lia.
Qed.


Lemma round_nearest_even_ge m l : m <= round_nearest_even m l.
Proof. destruct l as [|[| |]]; simpl; try lia. destruct (Z.even m); lia. Qed.

Lemma binary_round_aux_pos (m e : Z) (l : location) :
  1 <= m -> emin <= e -> pos_result (binary_round_aux prec emax false m e l).
Proof.
  intros Hm He. unfold binary_round_aux.
  pose proof (shr_fexp_pos m e l Hm He) as [H1 H2].
  destruct (shr_fexp prec emax m e l) as [mrs' e']. simpl fst in H1. simpl snd in H2.
  pose proof (round_nearest_even_ge (shr_m mrs') (loc_of_shr_record mrs')) as Hr.
  pose proof (shr_fexp_pos (round_nearest_even (shr_m mrs') (loc_of_shr_record mrs')) e' loc_Exact ltac:(lia) H2) as [H3 H4].
  destruct (shr_fexp prec emax _ e' loc_Exact) as [mrs'' e'']. simpl fst in H3.
  destruct (shr_m mrs'') as [|q|q]; try lia.
  destruct (e'' <=? emax - prec); exact I.
Qed.

Lemma binary_round_pos (p : positive) (e : Z) :
  emin <= e -> pos_result (binary_round prec emax false p e).
Proof.
  intros He. unfold binary_round.
  destruct (shl_align p e (fexp prec emax (Zpos (digits2_pos p) + e))) as [mz ez] eqn:Es.
  apply binary_round_aux_pos; [lia|].
  unfold shl_align in Es.
  destruct (fexp prec emax (Zpos (digits2_pos p) + e) - e) eqn:Ed; inversion Es; subst; try lia.
  unfold fexp. lia.
Qed.

End SpecRound.

(** ** The order of doubles *)


Module FloatOrder.
Local Open Scope float_scope.

Lemma ltb_leb (x y : float) : (x <? y) = true -> (x <=? y) = true.
Proof.
  rewrite ltb_spec, leb_spec. unfold SFltb, SFleb.
  destruct (SFcompare (Prim2SF x) (Prim2SF y)) as [[ | | ]|]; congruence.
Qed.

Lemma digits2_pos_bound (m : positive) :
  (Zpos m < 2 ^ Zpos (digits2_pos m))%Z.
Proof.
  induction m as [m IH|m IH|]; simpl digits2_pos.
  - rewrite Pos2Z.inj_succ, Z.pow_succ_r by lia. lia.
  - rewrite Pos2Z.inj_succ, Z.pow_succ_r by lia. lia.
  - reflexivity.
Qed.

(** A valid finite double has a mantissa below [2^53]. *)
Lemma valid_mantissa (s : bool) (m : positive) (e : Z) :
  valid_binary (S754_finite s m e) = true -> (Zpos m < 2 ^ 53)%Z.
Proof.
  unfold valid_binary, SpecFloat.valid_binary, bounded, canonical_mantissa, fexp.
  intros H. apply andb_true_iff in H as [H _]. apply Z.eqb_eq in H.
  pose proof (digits2_pos_bound m) as Hd.
  assert (Hle : (Zpos (digits2_pos m) <= 53)%Z) by (unfold prec in H; lia).
  eapply Z.lt_le_trans; [exact Hd|].
  apply Z.pow_le_mono_r; lia.
Qed.

(** [clamp]-style selections stay between their bounds, whatever [x] is
    (also a NaN). *)
Lemma py_min_le (hi x : float) :
  (hi <=? hi) = true -> (py_min hi x <=? hi) = true.
Proof.
  intros Hhi. unfold py_min. destruct (x <? hi) eqn:E; [now apply ltb_leb|exact Hhi].
Qed.

Lemma clamp_bounds (x lo hi : float) :
  (lo <=? hi) = true -> (lo <=? lo) = true -> (hi <=? hi) = true ->
  (lo <=? clamp x lo hi) = true /\ (clamp x lo hi <=? hi) = true.
Proof.
  intros Hlh Hlo Hhi. unfold clamp, py_max.
  destruct (lo <? py_min hi x) eqn:E.
  - split; [now apply ltb_leb|now apply py_min_le].
  - split; assumption.
Qed.

Lemma valid_exponent (s : bool) (m : positive) (e : Z) :
  valid_binary (S754_finite s m e) = true -> (emin <= e)%Z.
Proof.
  unfold valid_binary, SpecFloat.valid_binary, bounded, canonical_mantissa, fexp.
  intros H. apply andb_true_iff in H as [H _]. apply Z.eqb_eq in H. lia.
Qed.

Lemma SFcompare_refl (x : spec_float) :
  x <> S754_nan -> SFcompare x x = Some Eq.
Proof.
  destruct x as [s|s| |s m e]; intros Hx; try congruence.
  - reflexivity.
  - destruct s; reflexivity.
  - simpl. rewrite Z.compare_refl.
    change (Pos.compare_cont Eq m m) with (Pos.compare m m).
    rewrite Pos.compare_refl. destruct s; reflexivity.
Qed.

(** A double that is at least zero and below infinity is a zero or a
    positive finite double. *)
Lemma nonneg_finite_cases (r : float) :
  (0 <=? r) = true -> (r <? infinity) = true ->
  (exists s, Prim2SF r = S754_zero s) \/
  (exists m e, Prim2SF r = S754_finite false m e).
Proof.
  intros H0 H1.
  rewrite leb_spec in H0. rewrite ltb_spec in H1.
  change (Prim2SF 0) with (S754_zero false) in H0.
  change (Prim2SF infinity) with (S754_infinity false) in H1.
  destruct (Prim2SF r) as [s|s| |s m e].
  - left. now exists s.
  - destruct s; discriminate.
  - discriminate.
  - destruct s; [discriminate|]. right. now exists m, e.
Qed.

Lemma nonneg_finite_is_nan (r : float) :
  (0 <=? r) = true -> (r <? infinity) = true -> is_nan r = false.
Proof.
  intros H0 H1. unfold is_nan. rewrite eqb_spec. unfold SFeqb.
  rewrite SFcompare_refl; [reflexivity|].
  destruct (nonneg_finite_cases r H0 H1) as [[s E]|[m [e E]]]; rewrite E; discriminate.
Qed.

Lemma nonneg_finite_is_infinity (r : float) :
  (0 <=? r) = true -> (r <? infinity) = true -> is_infinity r = false.
Proof.
  intros H0 H1. unfold is_infinity. rewrite eqb_spec, abs_spec.
  change (Prim2SF infinity) with (S754_infinity false).
  destruct (nonneg_finite_cases r H0 H1) as [[s E]|[m [e E]]]; rewrite E; reflexivity.
Qed.

(** [1.0 + r] is not zero for such an [r], so dividing by it never raises
    [ZeroDivisionError]. *)
Lemma one_plus_nonneg (r : float) :
  (0 <=? r) = true -> (r <? infinity) = true -> (1 + r =? 0) = false.
Proof.
  intros H0 H1.
  pose proof (Prim2SF_valid r) as Hv.
  rewrite eqb_spec, add_spec.
  change (Prim2SF 0) with (S754_zero false).
  change (Prim2SF 1) with (S754_finite false 4503599627370496 (-52)).
  destruct (nonneg_finite_cases r H0 H1) as [[s E]|[m [e E]]]; rewrite E in *.
  - reflexivity.
  - apply valid_exponent in Hv.
    unfold SF64add, SFadd. cbn [cond_Zopp Z.add].
    unfold binary_normalize.
    assert (He : (emin <= Z.min (-52) e)%Z) by (unfold SpecFloat.emin, prec, emax in *; lia).
    pose proof (SpecRound.binary_round_pos
                  (fst (shl_align 4503599627370496 (-52) (Z.min (-52) e))
                   + fst (shl_align m e (Z.min (-52) e)))%positive _ He) as Hp.
    destruct (binary_round prec emax false _ _) as [s'|s'| |s' m' e'];
      try destruct s'; try contradiction; reflexivity.
Qed.

Lemma round_half_even_range (num den H : Z) :
  (0 < den)%Z -> (0 <= num <= H * den)%Z ->
  (0 <= round_half_even num den <= H)%Z.
Proof.
  intros Hden Hnum. unfold round_half_even.
  pose proof (Z.div_mod num den ltac:(lia)) as Hdm.
  pose proof (Z.mod_pos_bound num den Hden) as Hr.
  assert (Hq0 : (0 <= num / den)%Z) by (apply Z.div_pos; lia).
  assert (HqH : (num / den <= H)%Z) by (apply Z.div_le_upper_bound; lia).
  assert (Hstep : (0 < num mod den -> num / den < H)%Z) by nia.
  destruct (2 * (num mod den) ?= den)%Z eqn:E.
  - apply Z.compare_eq in E. destruct (Z.even (num / den)); lia.
  - lia.
  - apply Z.compare_gt_iff in E. lia.
Qed.

(** Rounding to one decimal keeps a double of [0 .. hi] in [0 .. hi], for a
    bound [hi = H] that is an integer with a 53-bit mantissa [mh]: the
    tenths of the exact value are at most [10 * H], and each of those is
    read back as a double of the range. *)
Lemma round1_within (hi : float) (H : Z) (mh k : positive) :
  Prim2SF hi = S754_finite false mh (Zneg k) ->
  (Zpos mh = H * 2 ^ Zpos k)%Z ->
  (2 ^ 52 <= Zpos mh)%Z ->
  forallb (fun n => (0 <=? of_tenths false n) && (of_tenths false n <=? hi))
          (zrange 0 (10 * H)) = true ->
  forall x, (0 <=? x) = true -> (x <=? hi) = true ->
  (0 <=? round1 x) = true /\ (round1 x <=? hi) = true.
Proof.
  intros Hhi Hmh Hnorm Hall x H0 H1.
  pose proof (Prim2SF_valid x) as Hv.
  unfold round1.
  assert (E0 : Prim2SF 0 = S754_zero false) by reflexivity.
  pose proof H0 as H0'. pose proof H1 as H1'.
  rewrite leb_spec, E0 in H0'. rewrite leb_spec, Hhi in H1'.
  destruct (Prim2SF x) as [s|s| |s m e] eqn:Ex.
  - split; assumption.
  - destruct s; discriminate.
  - discriminate.
  - destruct s; [discriminate|].
    apply valid_mantissa in Hv.
    assert (Hpow : (0 < 2 ^ Zpos k)%Z) by (apply Z.pow_pos_nonneg; lia).
    assert (Hn : (0 <= tenths m e <= 10 * H)%Z).
    { unfold SFleb, SFcompare in H1'.
      destruct (e ?= Zneg k)%Z eqn:Ec; try discriminate.
      - apply Z.compare_eq in Ec. subst e. unfold tenths.
        apply round_half_even_range; [exact Hpow|].
        assert (Hm : (Zpos m <= Zpos mh)%Z).
        { destruct (Pos.compare_cont Eq m mh) eqn:Em; try discriminate.
          - apply Pos.compare_eq in Em. subst. lia.
          - change (Pos.compare m mh = Lt) in Em. rewrite Pos.compare_lt_iff in Em. lia. }
        lia.
      - rewrite Z.compare_lt_iff in Ec.
        destruct e as [|e|e]; try lia.
        unfold tenths. apply round_half_even_range; [apply Z.pow_pos_nonneg; lia|].
        assert (Hk : (2 * 2 ^ Zpos k <= 2 ^ Zpos e)%Z).
        { rewrite <- Z.pow_succ_r by lia. apply Z.pow_le_mono_r; lia. }
        change (2 ^ 53)%Z with (2 * 2 ^ 52)%Z in Hv.
        assert (HH : (0 < H)%Z) by nia.
        nia. }
    pose proof (forallb_zrange _ _ _ Hall _ Hn) as Hb.
    apply andb_true_iff in Hb. exact Hb.
Qed.

Lemma round1_within_100 (x : float) :
  (0 <=? x) = true -> (x <=? 100) = true ->
  (0 <=? round1 x) = true /\ (round1 x <=? 100) = true.
Proof.
  apply (round1_within 100 100 7036874417766400 46);
    [reflexivity|reflexivity|vm_compute; discriminate|vm_compute; reflexivity].
Qed.

Lemma round1_within_15 (x : float) :
  (0 <=? x) = true -> (x <=? 15) = true ->
  (0 <=? round1 x) = true /\ (round1 x <=? 15) = true.
Proof.
  apply (round1_within 15 15 8444249301319680 49);
    [reflexivity|reflexivity|vm_compute; discriminate|vm_compute; reflexivity].
Qed.

(** *** The order is a total preorder away from NaN

    [SFcompare] is the lexicographic order of (sign class, exponent,
    mantissa), which [SFrank] maps into the integers. *)


Lemma SFcompare_rank (x y : spec_float) :
  x <> S754_nan -> y <> S754_nan ->
  SFcompare x y = Some (lex_compare (SFrank x) (SFrank y)).
Proof.
  intros Hx Hy.
  destruct x as [sx|sx| |sx mx ex]; try congruence;
  destruct y as [sy|sy| |sy my ey]; try congruence;
  try destruct sx; try destruct sy; try reflexivity.
  cbn [SFcompare SFrank lex_compare]. change (-1 ?= -1)%Z with Eq.
  rewrite Z.compare_opp, (Z.compare_antisym ex ey).
  destruct (ex ?= ey)%Z; reflexivity.
Qed.



Lemma not_nan_SF (x : float) : not_nan x -> Prim2SF x <> S754_nan.
Proof.
  unfold not_nan. rewrite leb_spec. intros H E. rewrite E in H. discriminate.
Qed.

Ltac lex_solve :=
  repeat match goal with
  | H : context [(?a ?= ?b)%Z] |- _ => destruct (Z.compare_spec a b)
  | |- context [(?a ?= ?b)%Z] => destruct (Z.compare_spec a b)
  end; try congruence; try lia.

Lemma lex_lt_le_trans a b c :
  lex_compare a b <> Gt -> lex_compare b c = Lt -> lex_compare a c = Lt.
Proof.
  destruct a as [[a1 a2] a3], b as [[b1 b2] b3], c as [[c1 c2] c3]. simpl.
  lex_solve.
Qed.

Lemma lex_le_lt_trans a b c :
  lex_compare b c <> Gt -> lex_compare a b = Lt -> lex_compare a c = Lt.
Proof.
  destruct a as [[a1 a2] a3], b as [[b1 b2] b3], c as [[c1 c2] c3]. simpl.
  lex_solve.
Qed.

Lemma lex_le_trans a b c :
  lex_compare a b <> Gt -> lex_compare b c <> Gt -> lex_compare a c <> Gt.
Proof.
  destruct a as [[a1 a2] a3], b as [[b1 b2] b3], c as [[c1 c2] c3]. simpl.
  lex_solve.
Qed.

Lemma lex_total a b : lex_compare a b <> Lt -> lex_compare b a <> Gt.
Proof.
  destruct a as [[a1 a2] a3], b as [[b1 b2] b3]. simpl. lex_solve.
Qed.

Lemma leb_rank (x y : float) :
  not_nan x -> not_nan y ->
  (x <=? y) = true <-> lex_compare (SFrank (Prim2SF x)) (SFrank (Prim2SF y)) <> Gt.
Proof.
  intros Hx Hy. rewrite leb_spec. unfold SFleb.
  rewrite (SFcompare_rank _ _ (not_nan_SF _ Hx) (not_nan_SF _ Hy)).
  destruct (lex_compare _ _); split; congruence.
Qed.

Lemma ltb_rank (x y : float) :
  not_nan x -> not_nan y ->
  (x <? y) = true <-> lex_compare (SFrank (Prim2SF x)) (SFrank (Prim2SF y)) = Lt.
Proof.
  intros Hx Hy. rewrite ltb_spec. unfold SFltb.
  rewrite (SFcompare_rank _ _ (not_nan_SF _ Hx) (not_nan_SF _ Hy)).
  destruct (lex_compare _ _); split; congruence.
Qed.

Lemma leb_ltb_trans (x y z : float) :
  not_nan x -> not_nan y -> not_nan z ->
  (x <=? y) = true -> (y <? z) = true -> (x <? z) = true.
Proof.
  intros Hx Hy Hz. rewrite (leb_rank x y), (ltb_rank y z), (ltb_rank x z) by assumption.
  apply lex_lt_le_trans.
Qed.

Lemma leb_trans (x y z : float) :
  not_nan x -> not_nan y -> not_nan z ->
  (x <=? y) = true -> (y <=? z) = true -> (x <=? z) = true.
Proof.
  intros Hx Hy Hz. rewrite (leb_rank x y), (leb_rank y z), (leb_rank x z) by assumption.
  apply lex_le_trans.
Qed.

Lemma not_ltb_leb (x y : float) :
  not_nan x -> not_nan y -> (x <? y) = false -> (y <=? x) = true.
Proof.
  intros Hx Hy H. apply (leb_rank y x Hy Hx). apply lex_total.
  intros E. apply (ltb_rank x y Hx Hy) in E. congruence.
Qed.

Lemma ltb_leb_trans (x y z : float) :
  not_nan x -> not_nan y -> not_nan z ->
  (x <? y) = true -> (y <=? z) = true -> (x <? z) = true.
Proof.
  intros Hx Hy Hz. rewrite (ltb_rank x y), (leb_rank y z), (ltb_rank x z) by assumption.
  intros H1 H2. revert H2 H1. apply lex_le_lt_trans.
Qed.

Lemma between_not_nan (lo hi x : float) : between lo hi x -> not_nan x.
Proof.
  intros [H _]. unfold not_nan. rewrite leb_spec in *. unfold SFleb in *.
  destruct (Prim2SF x) as [s|s| |s m e] eqn:E.
  - reflexivity.
  - destruct s; reflexivity.
  - destruct (Prim2SF lo) as [?|[|]| |[|] ? ?]; discriminate.
  - rewrite SFcompare_refl; [reflexivity|discriminate].
Qed.

End FloatOrder.

(** ** The scorer *)

Module SimFacts.
Local Open Scope string_scope.
Local Open Scope float_scope.
Local Open Scope py_scope.
Import FloatOrder.

(** Inverts the outermost [bind] of a computation known to return. *)
Ltac bind_inv H x E :=
  match type of H with
  | bind ?c _ = Ok _ =>
      destruct c as [x|] eqn:E; cbn [bind] in H; [|discriminate H]
  end.

Lemma between_clamp_round_100 (x : float) : between 0 100 (round1 (clamp x 0 100)).
Proof.
  destruct (clamp_bounds x 0 100) as [H0 H1]; try reflexivity.
  apply round1_within_100; assumption.
Qed.

Lemma between_clamp_round_15 (x : float) : between 0 15 (round1 (clamp x 0 15)).
Proof.
  destruct (clamp_bounds x 0 15) as [H0 H1]; try reflexivity.
  apply round1_within_15; assumption.
Qed.

Lemma dict_get_In {V : Type} (d : list (string * V)) (key : string) (default : V) :
  In (dict_get d key default) (default :: map snd d).
Proof.
  induction d as [|[k v] d IH]; simpl.
  - now left.
  - destruct (String.eqb k key); [right; now left|].
    destruct IH as [IH|IH]; [now left|right; now right].
Qed.

Lemma method_w_In (s : Strategy) : In (method_w s) method_values.
Proof. apply (dict_get_In METHOD_WEIGHTS). Qed.

Lemma env_w_In (s : Strategy) : In (env_w s) env_values.
Proof. apply (dict_get_In ENVIRONMENT_WEIGHTS). Qed.

Lemma break_w_In (s : Strategy) : In (break_w s) break_values.
Proof. apply (dict_get_In BREAK_WEIGHTS). Qed.

Lemma session_focus_In (s : Strategy) : In (session_focus s) focus_values.
Proof.
  unfold session_focus, focus_values.
  destruct (session_minutes s <=? 60)%Z; [now left|].
  destruct (session_minutes s <=? 90)%Z; [right; now left|right; right; now left].
Qed.

Lemma truediv_nonzero (a b : float) :
  (b =? 0) = false -> truediv a b = Ok (a / b).
Proof. intros H. unfold truediv. now rewrite H. Qed.

Lemma float_of_int_small (z : Z) :
  (-2 <= z <= 2520)%Z -> exists f, float_of_int z = Ok f.
Proof.
  intros Hz.
  assert (H : forallb (fun z => match float_of_int z with Ok _ => true | Raise _ => false end)
                      (zrange (-2) 2520) = true) by (vm_compute; reflexivity).
  pose proof (forallb_zrange _ _ _ H z Hz) as Hz'. cbv beta in Hz'.
  destruct (float_of_int z) as [f|]; [now exists f|discriminate].
Qed.

Lemma load_checks_all :
  forallb (fun tm =>
             hours_checks tm
             && forallb (fun bw => forallb (fun cd => burnout_checks tm bw cd) (zrange 1 5))
                        break_values)
          (zrange 10 2520) = true.
Proof. vm_compute. reflexivity. Qed.

Lemma all_weights_spec (P : float -> float -> float -> float -> bool) :
  all_weights P = true ->
  forall s, P (method_w s) (env_w s) (break_w s) (session_focus s) = true.
Proof.
  unfold all_weights. intros H s.
  rewrite forallb_forall in H. specialize (H _ (method_w_In s)).
  rewrite forallb_forall in H. specialize (H _ (env_w_In s)).
  rewrite forallb_forall in H. specialize (H _ (break_w_In s)).
  rewrite forallb_forall in H. exact (H _ (session_focus_In s)).
Qed.

Lemma all_risks_spec (P : Z -> Z -> bool) :
  all_risks P = true ->
  forall dr cd, (1 <= dr <= 5)%Z -> (1 <= cd <= 5)%Z -> P dr cd = true.
Proof.
  unfold all_risks. intros H dr cd Hdr Hcd.
  pose proof (forallb_zrange _ _ _ H dr Hdr) as H'.
  exact (forallb_zrange _ _ _ H' cd Hcd).
Qed.

Lemma bound_check_all :
  all_weights (fun mw ew bw sf => all_risks (bound_check mw ew bw sf)) = true.
Proof. vm_compute. reflexivity. Qed.

Lemma monotone_check_all : all_weights monotone_check = true.
Proof. vm_compute. reflexivity. Qed.

Lemma effectiveness_table_In (mw ew bw sf : float) (dr cd : Z) :
  (1 <= dr <= 5)%Z -> (1 <= cd <= 5)%Z ->
  In (dr, cd, effectiveness_from mw ew bw sf dr cd) (effectiveness_table mw ew bw sf).
Proof.
  intros Hdr Hcd. unfold effectiveness_table.
  apply in_flat_map. exists dr. split; [now apply zrange_In|].
  apply in_map_iff. exists cd. split; [reflexivity|now apply zrange_In].
Qed.

Section WithLibm.
Variable libm_exp : float -> float.

(** What a returned [Result] is made of. *)
Lemma simulate_inv (s : Strategy) (r : Result) :
  simulate libm_exp s = Ok r ->
  (exists b, base_eff s = Ok b /\ effectiveness r = round1 (clamp b 0 100)) /\
  (exists x, sustainability r = round1 (clamp x 0 100)) /\
  (efficiency r = round1 0 \/ exists x, efficiency r = round1 (clamp x 0 100)) /\
  (exists x, burnout_risk r = round1 (clamp x 0 100)) /\
  (exists x, predicted_improvement r = round1 (clamp x 0 15)) /\
  notes r = (session_notes s ++ rule_notes s)%list.
Proof.
  unfold simulate, base_eff, base_eff_from, session_focus, session_notes, rule_notes.
  unfold method_w, env_w, break_w.
  generalize (str_in (method s) ["rereading"; "highlighting"]),
             (str_in (break_style s) ["none"; "random"]),
             (str_in (environment s) ["dorm_room"; "coffee_shop"]
              && (4 <=? distraction_risk s)%Z),
             (sessions_per_week s <=? 2)%Z,
             (600 <? session_minutes s * sessions_per_week s)%Z.
  intros c1 c2 c3 c4 c5 H.
  destruct (session_minutes s <=? 60)%Z; [|destruct (session_minutes s <=? 90)%Z].
  all: cbv zeta beta iota in H.
  all: bind_inv H dr1 Edr; bind_inv H cd1 Ecd; bind_inv H tm Etm.
  all: bind_inv H time_load Etl; bind_inv H cd3 Ecd3; bind_inv H lg Elg.
  all: bind_inv H hours Eh; bind_inv H efy Eefy; bind_inv H neg_scaled Ens.
  all: bind_inv H e Ee; bind_inv H burnout_frac Ebf.
  all: injection H as <-; cbn [effectiveness sustainability efficiency burnout_risk
                                 predicted_improvement notes bind].
  all: repeat apply conj; try (eexists; reflexivity);
       try (eexists; split; reflexivity).
  all: try (destruct (hours <=? 0);
            [injection Eefy as <-; now left
            |bind_inv Eefy dim Edim; bind_inv Eefy pw Epw; bind_inv Eefy ratio Eratio;
             injection Eefy as <-; right; eexists; reflexivity]).
  all: unfold append; destruct c1, c2, c3, c4, c5; reflexivity.
Qed.

Lemma simulate_ranges (s : Strategy) (r : Result) :
  simulate libm_exp s = Ok r -> in_documented_ranges r.
Proof.
  intros H. apply simulate_inv in H.
  destruct H as [[b [_ He]] [[x1 Hs] [Hf [[x2 Hb] [[x3 Hp] _]]]]].
  unfold in_documented_ranges. rewrite He, Hs, Hb, Hp.
  repeat split; try apply between_clamp_round_100; try apply between_clamp_round_15.
  all: destruct Hf as [Hf|[x Hf]]; rewrite Hf;
       try apply between_clamp_round_100; reflexivity.
Qed.

(** *** The scorer returns on every valid scenario *)

Hypothesis libm_exp_ok : exp_contract libm_exp.

Lemma math_exp_returns (x : float) :
  (x <=? 709) = true -> math_exp libm_exp x = Ok (libm_exp x).
Proof.
  intros Hx. destruct (libm_exp_ok x Hx) as [H0 H1].
  unfold math_exp.
  rewrite (nonneg_finite_is_nan _ H0 H1), (nonneg_finite_is_infinity _ H0 H1).
  reflexivity.
Qed.

Lemma logistic_returns (x : float) :
  (- x <=? 709) = true ->
  logistic libm_exp x = Ok (1 / (1 + libm_exp (- x))).
Proof.
  intros Hx. unfold logistic. rewrite (math_exp_returns _ Hx). cbn [bind].
  destruct (libm_exp_ok _ Hx) as [H0 H1].
  unfold truediv. rewrite (one_plus_nonneg _ H0 H1). reflexivity.
Qed.

Lemma simulate_returns (s : Strategy) : valid s -> returns (simulate libm_exp s).
Proof.
  intros (Hsm & Hspw & Hcd & Hdr).
  destruct (float_of_int_small (distraction_risk s - 1)) as [dr1 Edr]; [lia|].
  destruct (float_of_int_small (course_difficulty s - 1)) as [cd1 Ecd]; [lia|].
  assert (Htm : (10 <= session_minutes s * sessions_per_week s <= 2520)%Z) by nia.
  pose proof (forallb_zrange _ _ _ load_checks_all _ Htm) as Hchk.
  apply andb_true_iff in Hchk as [Hh Hb].
  rewrite forallb_forall in Hb. specialize (Hb _ (break_w_In s)).
  pose proof (forallb_zrange _ _ _ Hb _ Hcd) as Hb'. clear Hb.
  unfold hours_checks in Hh. unfold burnout_checks in Hb'.
  destruct (float_of_int (session_minutes s * sessions_per_week s)) as [tm|] eqn:Etm;
    [|discriminate Hh].
  destruct (float_of_int (course_difficulty s - 3)) as [cd3|] eqn:Ecd3;
    [|discriminate Hb'].
  cbv zeta in Hh.
  apply andb_true_iff in Hh as [Hh Hexp]. apply andb_true_iff in Hh as [Hdim Hpw].
  apply negb_true_iff in Hdim, Hpw.
  unfold returns, simulate.
  destruct (if (session_minutes s <=? 60)%Z then _ else _) as [sf notes0].
  rewrite Edr. cbn [bind]. rewrite Ecd. cbn [bind]. rewrite Etm. cbn [bind].
  rewrite (truediv_nonzero tm 300) by reflexivity. cbn [bind].
  rewrite Ecd3. cbn [bind].
  unfold break_w in Hb'. rewrite (logistic_returns _ Hb'). cbn [bind].
  rewrite (truediv_nonzero tm 60) by reflexivity. cbn [bind].
  assert (Hefy : exists efy,
             (if tm / 60 <=? 0 then Ok 0
              else
                diminishing <- truediv 1 (1 + 0.12 * py_max 0 (tm / 60 - 5)) ;;
                per_week <- truediv (tm / 60) 5 ;;
                ratio <- truediv (clamp (85 * method_w s * env_w s * break_w s * sf
                                         * (1 - dr1 * 0.06) * (1 - cd1 * 0.05)) 0 100
                                  * diminishing) per_week ;;
                Ok (clamp ratio 0 100)) = Ok efy).
  { destruct (tm / 60 <=? 0); [now eexists|].
    rewrite (truediv_nonzero _ _ Hdim). cbn [bind].
    rewrite (truediv_nonzero (tm / 60) 5) by reflexivity. cbn [bind].
    rewrite (truediv_nonzero _ _ Hpw). cbn [bind].
    now eexists. }
  destruct Hefy as [efy Eefy]. unfold method_w, env_w, break_w in Eefy.
  rewrite Eefy. cbn [bind].
  rewrite (truediv_nonzero (- (tm / 60)) 4.5) by reflexivity. cbn [bind].
  rewrite (math_exp_returns _ Hexp). cbn [bind].
  rewrite (truediv_nonzero _ 100) by reflexivity. cbn [bind].
  eexists; reflexivity.
Qed.

End WithLibm.
End SimFacts.

(** ** The comparator *)

Module CompareFacts.
Import FloatOrder.

(** The scan finds the first best item of any total preorder given as
    booleans. *)
Section FirstBest.
Context {A : Type}.
Variables worse not_better : A -> A -> bool.
Variable ok : A -> Prop.
Hypothesis not_better_refl : forall x, ok x -> not_better x x = true.
Hypothesis worse_not_better : forall x y, worse x y = true -> not_better x y = true.
Hypothesis total :
  forall x y, ok x -> ok y -> worse x y = false -> not_better y x = true.
Hypothesis not_better_worse :
  forall x y z, ok x -> ok y -> ok z ->
                not_better x y = true -> worse y z = true -> worse x z = true.

Lemma first_best_step (l : list A) (held item : A) :
  Forall ok l -> ok item -> first_best worse not_better l held ->
  first_best worse not_better (l ++ [item]) (if worse held item then item else held).
Proof.
  intros Hl Hitem (i & Hi & Hall & Hbefore).
  rewrite Forall_forall in Hl.
  assert (Hheld : ok held) by (apply Hl; eapply nth_error_In; exact Hi).
  assert (Hlen : (i < List.length l)%nat) by (apply nth_error_Some; congruence).
  destruct (worse held item) eqn:E.
  - exists (List.length l). split; [|split].
    + rewrite nth_error_app2, Nat.sub_diag by lia. reflexivity.
    + intros y Hy. apply in_app_iff in Hy as [Hy|[<-|[]]].
      * apply worse_not_better.
        apply (not_better_worse y held item); auto.
      * now apply not_better_refl.
    + intros j y Hj Hy. rewrite nth_error_app1 in Hy by lia.
      apply (not_better_worse y held item); auto.
      * apply Hl. eapply nth_error_In; exact Hy.
      * apply Hall. eapply nth_error_In; exact Hy.
  - exists i. split; [|split].
    + rewrite nth_error_app1 by lia. exact Hi.
    + intros y Hy. apply in_app_iff in Hy as [Hy|[<-|[]]].
      * now apply Hall.
      * now apply total.
    + intros j y Hj Hy. rewrite nth_error_app1 in Hy by lia.
      now apply (Hbefore j).
Qed.

Lemma scan_first_best (rest : list A) : forall (l : list A) (held : A),
  Forall ok (l ++ rest) -> first_best worse not_better l held ->
  first_best worse not_better (l ++ rest) (scan worse held rest).
Proof.
  induction rest as [|item rest IH]; intros l held Hok Hbest; simpl.
  - now rewrite app_nil_r.
  - replace (l ++ item :: rest)%list with ((l ++ [item]) ++ rest)%list in *
      by (rewrite <- app_assoc; reflexivity).
    apply IH; [exact Hok|].
    apply Forall_app in Hok as [Hok _]. apply Forall_app in Hok as [Hl Hi].
    apply first_best_step; [exact Hl|now inversion Hi|exact Hbest].
Qed.

Lemma scan_first (first : A) (rest : list A) :
  Forall ok (first :: rest) ->
  first_best worse not_better (first :: rest) (scan worse first rest).
Proof.
  intros Hok. apply (scan_first_best rest [first] first Hok).
  exists 0%nat. split; [reflexivity|split].
  - intros y [<-|[]]. apply not_better_refl. now inversion Hok.
  - intros j y Hj. lia.
Qed.

End FirstBest.

Section Keyed.
Context {A : Type}.
Variable key : A -> float.

Lemma max_scan_scan (held : A) (rest : list A) :
  max_scan key held rest = scan (fun a b => (key a <? key b)%float) held rest.
Proof. revert held. induction rest as [|item rest IH]; intros held; simpl; auto. Qed.

Lemma min_scan_scan (held : A) (rest : list A) :
  min_scan key held rest = scan (fun a b => (key b <? key a)%float) held rest.
Proof. revert held. induction rest as [|item rest IH]; intros held; simpl; auto. Qed.

Lemma max_key_first (first : A) (rest : list A) :
  Forall (fun x => not_nan (key x)) (first :: rest) ->
  first_max key (first :: rest) (max_scan key first rest).
Proof.
  intros Hok. rewrite max_scan_scan.
  apply (scan_first (fun a b => (key a <? key b)%float)
                    (fun a b => (key a <=? key b)%float)
                    (fun x => not_nan (key x))); auto.
  - intros x y. apply ltb_leb.
  - intros x y Hx Hy. now apply not_ltb_leb.
  - intros x y z Hx Hy Hz. now apply leb_ltb_trans.
Qed.

Lemma min_key_first (first : A) (rest : list A) :
  Forall (fun x => not_nan (key x)) (first :: rest) ->
  first_min key (first :: rest) (min_scan key first rest).
Proof.
  intros Hok. rewrite min_scan_scan.
  apply (scan_first (fun a b => (key b <? key a)%float)
                    (fun a b => (key b <=? key a)%float)
                    (fun x => not_nan (key x))); auto.
  - intros x y. apply ltb_leb.
  - intros x y Hx Hy. now apply not_ltb_leb.
  - intros x y z Hx Hy Hz H1 H2. now apply (ltb_leb_trans (key z) (key y) (key x)).
Qed.

End Keyed.
End CompareFacts.

(** ** The stand-in [exp_model] meets the contract *)

Lemma exp_model_contract : exp_contract exp_model.
Proof.
  intros x _. unfold exp_model.
  destruct (FloatOrder.clamp_bounds (square_n 10 (taylor_exp 14 1 1 1 (x / 1024))) 0 DBL_MAX)
    as [H0 H1]; try reflexivity.
  split; [exact H0|].
  revert H0 H1. generalize (clamp (square_n 10 (taylor_exp 14 1 1 1 (x / 1024))) 0 DBL_MAX).
  intros c H0 H1.
  rewrite leb_spec in H1. rewrite ltb_spec.
  change (Prim2SF infinity) with (S754_infinity false).
  change (Prim2SF DBL_MAX) with (S754_finite false 9007199254740991 971) in H1.
  destruct (Prim2SF c) as [s|s| |s m e]; try destruct s; try discriminate; reflexivity.
Qed.

(** ** The session cache *)

Lemma filter_filter_negb {A : Type} (p : A -> bool) (l : list A) :
  filter p (filter (fun x => negb (p x)) l) = [].
Proof.
  induction l as [|x l IH]; [reflexivity|].
  cbn [filter]. destruct (p x) eqn:E; cbn [negb filter]; [exact IH|].
  now rewrite E.
Qed.

Lemma filter_negb_idem {A : Type} (p : A -> bool) (l : list A) :
  filter (fun x => negb (p x)) (filter (fun x => negb (p x)) l)
  = filter (fun x => negb (p x)) l.
Proof.
  induction l as [|x l IH]; [reflexivity|].
  cbn [filter]. destruct (p x) eqn:E; cbn [negb filter]; [exact IH|].
  rewrite E. cbn [negb]. now rewrite IH.
Qed.

Lemma run_simulation_cache
  (libm_exp : float -> float) (st st' : Session) (number : Z) (out : list Event) :
  run_simulation libm_exp st number = Ok (st', out) ->
  cache_updated libm_exp st number st'.
Proof.
  unfold run_simulation, cache_updated. intros H.
  destruct (scenarios st) as [|s0 l] eqn:Es.
  - left. injection H as <- _. auto.
  - right. rewrite <- Es in *.
    destruct (subscript (scenarios st) (number - 1)) as [s|] eqn:En;
      cbn [bind] in H; [|discriminate H].
    destruct (simulate libm_exp s) as [r|] eqn:Er; cbn [bind] in H; [|discriminate H].
    injection H as <- _. cbn [scenarios results_cache].
    exists s, r. unfold append.
    change (fun x : Strategy * Result => negb (String.eqb (name (fst x)) (name s)))
      with (fun x => negb (named_like s x)).
    repeat split; try assumption.
    + rewrite filter_app, filter_filter_negb. cbn [filter app].
      unfold named_like. cbn [fst]. now rewrite String.eqb_refl.
    + rewrite filter_app, filter_negb_idem. cbn [filter].
      unfold named_like at 2. cbn [fst]. rewrite String.eqb_refl. cbn [negb].
      apply app_nil_r.
Qed.

(** Dropping entries keeps the names of a cache distinct. *)
Lemma filter_cache_names
  (keep : Strategy * Result -> bool) (cache : list (Strategy * Result)) :
  NoDup (map (fun x => name (fst x)) cache) ->
  NoDup (map (fun x => name (fst x)) (filter keep cache)).
Proof.
  intros Hcache. induction cache as [|entry cache IH]; cbn [filter map] in *.
  - exact Hcache.
  - apply NoDup_cons_iff in Hcache as [Hfresh Hrest].
    destruct (keep entry); cbn [map]; [|now apply IH].
    apply NoDup_cons; [|now apply IH].
    rewrite in_map_iff. intros (other & Hname & Hin).
    apply filter_In in Hin as [Hin _].
    apply Hfresh, in_map_iff. now exists other.
Qed.

(** Appending a name that is not there keeps the names distinct. *)
Lemma fresh_name_last (names : list string) (fresh : string) :
  ~ In fresh names -> NoDup names -> NoDup (names ++ [fresh]).
Proof.
  intros Hfresh Hnames. induction Hnames as [|first names Hfirst _ IH]; cbn [app].
  - apply NoDup_cons; [intros []|apply NoDup_nil].
  - apply NoDup_cons.
    + rewrite in_app_iff. intros [Hin|[Heq|[]]]; [now apply Hfirst|].
      apply Hfresh. now left.
    + apply IH. intros Hin. apply Hfresh. now right.
Qed.

Lemma menu_turn_cache_ok
  (libm_exp : float -> float) (st st' : Session) (choice : Choice)
  (out : list Event) (go : bool) :
  cache_ok st -> menu_turn libm_exp st choice = Ok (st', out, go) -> cache_ok st'.
Proof.
  intros Hok H. pose proof Hok as [Hr Hn].
  destruct choice as [s|number| | |]; cbn [menu_turn] in H.
  - injection H as <- _ _. exact Hok.
  - destruct (run_simulation libm_exp st number) as [[st1 out1]|] eqn:E;
      cbn [bind fst snd] in H; [|discriminate H].
    injection H as <- _ _.
    destruct (run_simulation_cache libm_exp st st1 number out1 E)
      as [[_ ->]|(s & r & _ & Hs & _ & Hc & _)]; [exact Hok|].
    unfold cache_ok, cache_names. rewrite Hc. split.
    + apply Forall_app. split.
      * rewrite Forall_forall in *. intros x Hx. apply filter_In in Hx as [Hx _]. auto.
      * constructor; [|constructor]. exact (SimFacts.simulate_ranges libm_exp s r Hs).
    + rewrite map_app. cbn [map fst]. apply fresh_name_last.
      * intros Hin. apply in_map_iff in Hin as [x [Hx Hin]].
        apply filter_In in Hin as [_ Hin]. unfold named_like in Hin.
        rewrite Hx, String.eqb_refl in Hin. discriminate Hin.
      * apply filter_cache_names. exact Hn.
  - destruct (results_cache st) eqn:Ec; [injection H as <- _ _; exact Hok|].
    destruct (compare _); cbn [bind] in H; [|discriminate H].
    injection H as <- _ _. exact Hok.
  - destruct (scenarios st) eqn:Es; injection H as <- _ _; exact Hok.
  - injection H as <- _ _. exact Hok.
Qed.

Lemma reachable_cache_ok (libm_exp : float -> float) (st : Session) :
  reachable libm_exp st -> cache_ok st.
Proof.
  induction 1 as [|st st' choice out _ IH Hturn].
  - split; constructor.
  - exact (menu_turn_cache_ok libm_exp st st' choice out true IH Hturn).
Qed.

(** [compare] never raises. *)
Lemma compare_returns (results : list (Strategy * Result)) : returns (compare results).
Proof.
  unfold compare. destruct (List.length results <? 2)%nat eqn:E; [eexists; reflexivity|].
  destruct results as [|first rest]; [discriminate E|].
  cbn [max_key min_key bind]. eexists; reflexivity.
Qed.

(** A turn of a session raises only if [simulate] does. *)
Lemma menu_turn_returns
  (libm_exp : float -> float) (st : Session) (choice : Choice) :
  (forall number, choice <> RunSimulation number) ->
  returns (menu_turn libm_exp st choice).
Proof.
  intros Hc. destruct choice as [s|number| | |]; cbn [menu_turn];
    try (eexists; reflexivity).
  - now destruct (Hc number).
  - destruct (results_cache st) as [|x c]; [eexists; reflexivity|].
    destruct (compare_returns (x :: c)) as [out ->]. eexists; reflexivity.
  - destruct (scenarios st); eexists; reflexivity.
Qed.

(** ** The unknown-category fallback *)

Lemma dict_get_default {V : Type} (d : list (string * V)) (key : string) (default : V) :
  ~ In key (map fst d) -> dict_get d key default = default.
Proof.
  induction d as [|[k v] d IH]; simpl; intros H; [reflexivity|].
  destruct (String.eqb_spec k key) as [E|E]; [exfalso; apply H; now left|].
  apply IH. intros Hin. apply H. now right.
Qed.

(** ** A worked example *)

Lemma practice_in_library_result :
  simulate exp_model (practice_in_library "Plan A")
  = Ok (mkResult 71.9 61.9 100 40.1 5.4 [])%float.
Proof. vm_compute. reflexivity. Qed.

(** ** The comparator on documented results *)

Lemma documented_keys_not_nan (results : list (Strategy * Result)) :
  Forall (fun x => in_documented_ranges (snd x)) results ->
  Forall (fun x => not_nan (effectiveness (snd x))) results /\
  Forall (fun x => not_nan (sustainability (snd x))) results /\
  Forall (fun x => not_nan (efficiency (snd x))) results /\
  Forall (fun x => not_nan (burnout_risk (snd x))) results.
Proof.
  intros H. repeat split; eapply Forall_impl; try exact H;
    intros x (H1 & H2 & H3 & H4 & _); eapply FloatOrder.between_not_nan; eassumption.
Qed.

Lemma tie_example_output :
  compare tie_example =
    Ok (comparison_table tie_example ++
        [ Say "Highest effectiveness: B";
          Say "Best sustainability: A";
          Say "Best efficiency: A";
          Say "Lowest burnout risk: A" ])%list.
Proof. reflexivity. Qed.

(** ** The interactive layer *)

Module ConsoleFacts.
Import Console.

Section WithPlatform.
Variable strip : string -> string.
Variable lower : string -> string.
Variable title : string -> string.
Variable int_of_str : string -> option Z.
Variable entropy : nat -> Z.
Variable libm_exp : float -> float.

Lemma ask_int_from_answer (prompt : string) (min_v max_v : Z) (lines : list string) :
  forall (n : nat) (shown : list Tty),
    match ask_int_from strip int_of_str prompt min_v max_v lines n shown with
    | Returned val w' =>
        exists bad line,
          lines = (bad ++ line :: stdin w')%list /\
          Forall (fun l => int_answer strip int_of_str min_v max_v l = None) bad /\
          int_answer strip int_of_str min_v max_v line = Some val /\
          draws w' = n /\
          exists out, tty w' = (shown ++ out)%list /\
                      said out = map (int_complaint strip int_of_str min_v max_v) bad /\
                      prompts out = repeat prompt (S (List.length bad))
    | Raised e w' =>
        e = EOFError /\ stdin w' = [] /\ draws w' = n /\
        Forall (fun l => int_answer strip int_of_str min_v max_v l = None) lines /\
        exists out, tty w' = (shown ++ out)%list /\
                    said out = map (int_complaint strip int_of_str min_v max_v) lines /\
                    prompts out = repeat prompt (S (List.length lines))
    end.
Proof.
  induction lines as [|line rest IH]; intros n shown; cbn [ask_int_from].
  - repeat split; [constructor|]. exists [Asked prompt]. now repeat split.
  - assert (Hstep : forall msg,
      int_complaint strip int_of_str min_v max_v line = msg ->
      int_answer strip int_of_str min_v max_v line = None ->
      match ask_int_from strip int_of_str prompt min_v max_v rest n
              ((shown ++ [Asked prompt]) ++ [Shown (Say msg)]) with
      | Returned val w' =>
          exists bad line0,
            line :: rest = (bad ++ line0 :: stdin w')%list /\
            Forall (fun l => int_answer strip int_of_str min_v max_v l = None) bad /\
            int_answer strip int_of_str min_v max_v line0 = Some val /\
            draws w' = n /\
            exists out, tty w' = (shown ++ out)%list /\
                        said out = map (int_complaint strip int_of_str min_v max_v) bad /\
                        prompts out = repeat prompt (S (List.length bad))
      | Raised e w' =>
          e = EOFError /\ stdin w' = [] /\ draws w' = n /\
          Forall (fun l => int_answer strip int_of_str min_v max_v l = None) (line :: rest) /\
          exists out, tty w' = (shown ++ out)%list /\
                      said out = map (int_complaint strip int_of_str min_v max_v) (line :: rest) /\
                      prompts out = repeat prompt (S (List.length (line :: rest)))
      end).
    { intros msg <- Hbad.
      set (msg := int_complaint strip int_of_str min_v max_v line).
      specialize (IH n ((shown ++ [Asked prompt]) ++ [Shown (Say msg)])%list).
      destruct (ask_int_from strip int_of_str prompt min_v max_v rest n
                  ((shown ++ [Asked prompt]) ++ [Shown (Say msg)])) as [val w'|e w'].
      - destruct IH as (bad & line0 & Hl & Hb & Ha & Hd & out & Ht & Hs & Hp).
        exists (line :: bad), line0. repeat split; try assumption.
        + now rewrite Hl.
        + now constructor.
        + exists (Asked prompt :: Shown (Say msg) :: out). repeat split.
          * rewrite Ht, <- !app_assoc. reflexivity.
          * change (said (Asked prompt :: Shown (Say msg) :: out)) with (msg :: said out).
            now rewrite Hs.
          * change (prompts (Asked prompt :: Shown (Say msg) :: out))
              with (prompt :: prompts out).
            now rewrite Hp.
      - destruct IH as (He & Hi & Hd & Hb & out & Ht & Hs & Hp).
        repeat split; try assumption.
        + now constructor.
        + exists (Asked prompt :: Shown (Say msg) :: out). repeat split.
          * rewrite Ht, <- !app_assoc. reflexivity.
          * change (said (Asked prompt :: Shown (Say msg) :: out)) with (msg :: said out).
            now rewrite Hs.
          * change (prompts (Asked prompt :: Shown (Say msg) :: out))
              with (prompt :: prompts out).
            now rewrite Hp. }
    destruct (int_of_str (strip line)) as [val|] eqn:Ei.
    + destruct ((min_v <=? val)%Z && (val <=? max_v)%Z) eqn:Er.
      * exists [], line. cbn [stdin draws tty app]. repeat split.
        -- constructor.
        -- unfold int_answer. now rewrite Ei, Er.
        -- exists [Asked prompt]. now repeat split.
      * apply Hstep; [unfold int_complaint|unfold int_answer]; now rewrite Ei, ?Er.
    + apply Hstep; [unfold int_complaint|unfold int_answer]; now rewrite Ei.
Qed.

Lemma dict_has_item {V : Type} (d : list (string * V)) (key : string) :
  dict_has d key = true -> exists v, dict_item d key = Some v.
Proof.
  induction d as [|[k v] d IH]; cbn; [discriminate|].
  destruct (String.eqb k key); [now exists v|exact IH].
Qed.

Lemma dict_has_keys {V W : Type} (f : string * V -> W) (d : list (string * V)) (key : string) :
  dict_has (map (fun kv => (fst kv, f kv)) d) key = dict_has d key.
Proof.
  unfold dict_has. induction d as [|[k v] d IH]; cbn; [reflexivity|].
  now rewrite IH.
Qed.

Lemma dict_item_In {V : Type} (d : list (string * V)) (key : string) (v : V) :
  dict_item d key = Some v -> In v (map snd d).
Proof.
  induction d as [|[k v0] d IH]; cbn; [discriminate|].
  destruct (String.eqb k key).
  - intros [= <-]. now left.
  - intros H. right. now apply IH.
Qed.

Lemma ask_choice_from_answer (prompt : string) (options : list (string * string))
  (lines : list string) :
  forall (n : nat) (shown : list Tty),
    match ask_choice_from strip lower prompt options lines n shown with
    | Returned pick w' =>
        exists bad line,
          lines = (bad ++ line :: stdin w')%list /\
          Forall (fun l => choice_answer strip lower options l = None) bad /\
          choice_answer strip lower options line = Some pick /\
          draws w' = n /\
          exists out, tty w' = (shown ++ out)%list /\
                      said out = repeat "Invalid choice. Try again."%string (List.length bad)
    | Raised e w' =>
        e = EOFError /\ stdin w' = [] /\ draws w' = n /\
        Forall (fun l => choice_answer strip lower options l = None) lines /\
        exists out, tty w' = (shown ++ out)%list /\
                    said out = repeat "Invalid choice. Try again."%string (List.length lines)
    end.
Proof.
  assert (Hmenu : forall out, said (menu_lines prompt options ++ Asked "Choose: " :: out)
                              = said out).
  { intros out. unfold menu_lines. cbn [app said flat_map].
    induction options as [|kv d IH]; [reflexivity|exact IH]. }
  induction lines as [|line rest IH]; intros n shown; cbn [ask_choice_from].
  - repeat split; [constructor|].
    exists (menu_lines prompt options ++ [Asked "Choose: "%string])%list.
    split; [reflexivity|]. apply Hmenu.
  - destruct (dict_has options (lower (strip line))) eqn:Eh.
    + exists [], line. cbn [stdin draws tty app]. repeat split.
      * constructor.
      * unfold choice_answer. now rewrite Eh.
      * exists (menu_lines prompt options ++ [Asked "Choose: "%string])%list.
        split; [reflexivity|]. apply Hmenu.
    + assert (Hbad : choice_answer strip lower options line = None).
      { unfold choice_answer. now rewrite Eh. }
      match goal with |- context [ask_choice_from _ _ _ _ _ _ ?sh] =>
        specialize (IH n sh);
        destruct (ask_choice_from strip lower prompt options rest n sh) as [pick w'|e w']
      end.
      * destruct IH as (bad & line0 & Hl & Hb & Ha & Hd & out & Ht & Hs).
        exists (line :: bad), line0. repeat split; try assumption.
        -- now rewrite Hl.
        -- now constructor.
        -- exists (menu_lines prompt options
                   ++ Asked "Choose: "%string
                   :: Shown (Say "Invalid choice. Try again."%string) :: out)%list.
           split.
           ++ rewrite Ht, <- !app_assoc. reflexivity.
           ++ rewrite Hmenu. cbn [said flat_map app List.length repeat].
              f_equal. exact Hs.
      * destruct IH as (He & Hi & Hd & Hb & out & Ht & Hs).
        repeat split; try assumption.
        -- now constructor.
        -- exists (menu_lines prompt options
                   ++ Asked "Choose: "%string
                   :: Shown (Say "Invalid choice. Try again."%string) :: out)%list.
           split.
           ++ rewrite Ht, <- !app_assoc. reflexivity.
           ++ rewrite Hmenu. cbn [said flat_map app List.length repeat].
              f_equal. exact Hs.
Qed.

Lemma io_bind_sat {A B : Type} (c : IO A) (k : A -> IO B) (w : World)
  (Q : B -> World -> Prop) (E : ConsoleError -> World -> Prop) :
  outcome_sat (c w) (fun a w1 => outcome_sat (k a w1) Q E) E ->
  outcome_sat (io_bind c k w) Q E.
Proof. unfold io_bind. now destruct (c w). Qed.

Lemma outcome_sat_weaken {A : Type} (o : Outcome A)
  (Q Q' : A -> World -> Prop) (E E' : ConsoleError -> World -> Prop) :
  outcome_sat o Q E ->
  (forall a w, Q a w -> Q' a w) -> (forall e w, E e w -> E' e w) ->
  outcome_sat o Q' E'.
Proof. destruct o; cbn; auto. Qed.

Lemma emit_sat (e : Event) (w : World)
  (Q : unit -> World -> Prop) (E : ConsoleError -> World -> Prop) :
  (forall w', stdin w' = stdin w -> tty w' = (tty w ++ [Shown e])%list -> Q tt w') ->
  outcome_sat (emit e w) Q E.
Proof. intros H. now apply H. Qed.

Lemma emit_all_sat (es : list Event) (w : World)
  (Q : unit -> World -> Prop) (E : ConsoleError -> World -> Prop) :
  (forall w', stdin w' = stdin w -> Q tt w') ->
  outcome_sat (emit_all es w) Q E.
Proof. intros H. now apply H. Qed.

Lemma ask_sat (prompt : string) (w : World)
  (Q : string -> World -> Prop) (E : ConsoleError -> World -> Prop) :
  (forall line w', read_lines 1 w w' -> Q (strip line) w') ->
  (forall w', stdin w' = [] -> E EOFError w') ->
  outcome_sat (ask strip prompt w) Q E.
Proof.
  intros HQ HE. unfold ask, io_bind, input, io_ret.
  destruct (stdin w) as [|line rest] eqn:Ew; cbn.
  - now apply HE.
  - apply HQ. unfold read_lines. rewrite Ew. cbn. lia.
Qed.

Lemma randint_sat (a b : Z) (w : World)
  (Q : Z -> World -> Prop) (E : ConsoleError -> World -> Prop) :
  (a <= b)%Z ->
  (forall n w', (a <= n <= b)%Z -> stdin w' = stdin w -> Q n w') ->
  outcome_sat (randint entropy a b w) Q E.
Proof.
  intros Hab H. apply H; [|reflexivity].
  pose proof (Z.mod_pos_bound (entropy (draws w)) (b - a + 1)) as Hm. lia.
Qed.

Lemma ask_int_sat (prompt : string) (min_v max_v : Z) (w : World)
  (Q : Z -> World -> Prop) (E : ConsoleError -> World -> Prop) :
  (forall val w', (min_v <= val <= max_v)%Z -> read_lines 1 w w' -> Q val w') ->
  (forall w', stdin w' = [] -> E EOFError w') ->
  outcome_sat (ask_int strip int_of_str prompt min_v max_v w) Q E.
Proof.
  intros HQ HE. unfold ask_int.
  pose proof (ask_int_from_answer prompt min_v max_v (stdin w) (draws w) (tty w)) as H.
  destruct (ask_int_from strip int_of_str prompt min_v max_v (stdin w) (draws w) (tty w))
    as [val w'|e w']; cbn.
  - destruct H as (bad & line & Hl & _ & Ha & _).
    apply HQ.
    + unfold int_answer in Ha. destruct (int_of_str (strip line)) as [v|]; [|discriminate].
      destruct ((min_v <=? v)%Z && (v <=? max_v)%Z) eqn:Er; [|discriminate].
      injection Ha as <-. lia.
    + unfold read_lines. rewrite Hl, length_app. cbn. lia.
  - destruct H as (-> & Hnil & _). now apply HE.
Qed.

Lemma ask_choice_sat (prompt : string) (options : list (string * string)) (w : World)
  (Q : string -> World -> Prop) (E : ConsoleError -> World -> Prop) :
  (forall pick w', dict_has options pick = true -> read_lines 1 w w' -> Q pick w') ->
  (forall w', stdin w' = [] -> E EOFError w') ->
  outcome_sat (ask_choice strip lower prompt options w) Q E.
Proof.
  intros HQ HE. unfold ask_choice.
  pose proof (ask_choice_from_answer prompt options (stdin w) (draws w) (tty w)) as H.
  destruct (ask_choice_from strip lower prompt options (stdin w) (draws w) (tty w))
    as [pick w'|e w']; cbn.
  - destruct H as (bad & line & Hl & _ & Ha & _).
    apply HQ.
    + unfold choice_answer in Ha.
      destruct (dict_has options (lower (strip line))) eqn:Eh; [|discriminate].
      now injection Ha as <-.
    + unfold read_lines. rewrite Hl, length_app. cbn. lia.
  - destruct H as (-> & Hnil & _). now apply HE.
Qed.

Lemma subscript_key_sat (d : list (string * string)) (key : string) (w : World)
  (Q : string -> World -> Prop) (E : ConsoleError -> World -> Prop) :
  dict_has d key = true ->
  (forall v, dict_item d key = Some v -> Q v w) ->
  outcome_sat (subscript_key d key w) Q E.
Proof.
  intros Hk HQ. unfold subscript_key.
  destruct (dict_has_item d key Hk) as [v Hv]. rewrite Hv. now apply HQ.
Qed.

Lemma options_known :
  (forall v, In v (map snd METHOD_OPTIONS) -> In v (map fst METHOD_WEIGHTS)) /\
  (forall v, In v (map snd ENV_OPTIONS) -> In v (map fst ENVIRONMENT_WEIGHTS)) /\
  (forall v, In v (map snd BREAK_OPTIONS) -> In v (map fst BREAK_WEIGHTS)).
Proof. repeat split; intros v; cbn; intuition. Qed.

Ltac io_next := apply io_bind_sat.

Lemma create_strategy_sat (w : World)
  (Q : Strategy -> World -> Prop) (E : ConsoleError -> World -> Prop) :
  (forall s w', valid s -> known_categories s -> name s <> ""%string ->
                read_lines 8 w w' -> Q s w') ->
  (forall w', stdin w' = [] -> E EOFError w') ->
  outcome_sat (create_strategy strip lower title int_of_str entropy w) Q E.
Proof.
  intros HQ HE. unfold create_strategy, say, pretty_options.
  io_next. apply emit_sat. intros w0 Hw0 _.
  io_next. apply ask_sat; [|exact HE]. intros line w1 Hr1.
  set (typed := strip line).
  assert (Hname : outcome_sat
            ((if String.eqb typed ""
              then io_bind (randint entropy 100 999)
                     (fun n => io_ret ("Scenario " ++ str_of_int n)%string)
              else io_ret typed) w1)
            (fun nm w2 => nm <> ""%string /\ stdin w2 = stdin w1) E).
  { destruct (String.eqb typed "") eqn:En.
    - io_next. apply randint_sat; [lia|]. intros n w2 _ Hw2. cbn. now split.
    - cbn. split; [|reflexivity]. intros ->. now rewrite String.eqb_refl in En. }
  io_next. eapply outcome_sat_weaken; [exact Hname| |auto].
  cbn beta. intros nm w2 [Hnm Hw2].
  io_next. apply ask_choice_sat; [|exact HE]. intros m_key w3 Hm Hr3.
  io_next. apply ask_choice_sat; [|exact HE]. intros e_key w4 He Hr4.
  io_next. apply ask_choice_sat; [|exact HE]. intros b_key w5 Hb Hr5.
  io_next. apply ask_int_sat; [|exact HE]. intros sm w6 Hsm Hr6.
  io_next. apply ask_int_sat; [|exact HE]. intros sw w7 Hsw Hr7.
  io_next. apply ask_int_sat; [|exact HE]. intros cd w8 Hcd Hr8.
  io_next. apply ask_int_sat; [|exact HE]. intros dr w9 Hdr Hr9.
  rewrite dict_has_keys in Hm, He, Hb.
  io_next. apply subscript_key_sat; [exact Hm|]. intros m Em.
  io_next. apply subscript_key_sat; [exact He|]. intros e Ee.
  io_next. apply subscript_key_sat; [exact Hb|]. intros b Eb.
  cbn. destruct options_known as (Km & Ke & Kb).
  apply HQ.
  - repeat split; cbn; lia.
  - repeat split; cbn; [apply Km|apply Ke|apply Kb]; eapply dict_item_In; eassumption.
  - exact Hnm.
  - unfold read_lines in *. rewrite Hw0 in Hr1. rewrite Hw2 in Hr3. lia.
Qed.

Lemma scoring_sat {A : Type} (c : PyResult A) (w : World)
  (Q : A -> World -> Prop) (E : ConsoleError -> World -> Prop) :
  (forall a, c = Ok a -> Q a w) ->
  (forall e, c = Raise e -> E (Scoring e) w) ->
  outcome_sat (scoring c w) Q E.
Proof. intros HQ HE. destruct c as [a|e]; cbn; auto. Qed.

Lemma subscript_in_range {A : Type} (l : list A) (number : Z) :
  (1 <= number <= Z.of_nat (List.length l))%Z ->
  exists x, subscript l (number - 1) = Ok x /\
            nth_error l (Z.to_nat (number - 1)) = Some x.
Proof.
  intros Hn. unfold subscript.
  destruct (number - 1 <? 0)%Z eqn:Eneg; [apply Z.ltb_lt in Eneg; lia|].
  destruct ((0 <=? number - 1)%Z && (number - 1 <? Z.of_nat (List.length l))%Z) eqn:Ein.
  - destruct (nth_error l (Z.to_nat (number - 1))) as [x|] eqn:Ex.
    + now exists x.
    + apply nth_error_None in Ex. lia.
  - apply andb_false_iff in Ein as [Ein|Ein].
    + apply Z.leb_gt in Ein. lia.
    + apply Z.ltb_ge in Ein. lia.
Qed.

Lemma main_menu_keys (choice : string) :
  dict_has MAIN_MENU choice = true ->
  String.eqb choice "1" = false -> String.eqb choice "2" = false ->
  String.eqb choice "3" = false -> String.eqb choice "4" = false ->
  String.eqb choice "5" = true.
Proof.
  unfold dict_has. cbn [MAIN_MENU existsb fst].
  rewrite !(String.eqb_sym _ choice). intros H E1 E2 E3 E4.
  rewrite E1, E2, E3, E4 in H. cbn in H. now rewrite orb_false_r in H.
Qed.

Lemma main_turn_sat (st : Session) (w : World)
  (Q : Session * bool -> World -> Prop) (E : ConsoleError -> World -> Prop) :
  (forall st' go w' choice out,
      menu_turn libm_exp st choice = Ok (st', out, go) ->
      (forall s, choice = CreateScenario s -> well_formed s) ->
      read_lines 1 w w' ->
      (go = false -> exists t, tty w' = (t ++ [Shown (Say "Goodbye!"%string)])%list) ->
      Q (st', go) w') ->
  (forall w', stdin w' = [] -> E EOFError w') ->
  (forall number s e w',
      (1 <= number <= Z.of_nat (List.length (scenarios st)))%Z ->
      subscript (scenarios st) (number - 1) = Ok s ->
      simulate libm_exp s = Raise e -> E (Scoring e) w') ->
  outcome_sat (main_turn strip lower title int_of_str entropy libm_exp st w) Q E.
Proof.
  intros HQ HE HS. unfold main_turn, print, say.
  io_next. apply emit_sat. intros w0 Hw0 _.
  io_next. apply ask_choice_sat; [|exact HE]. intros choice w1 Hc Hr1.
  assert (Hr : read_lines 1 w w1) by (unfold read_lines in *; rewrite <- Hw0; exact Hr1).
  clear Hr1.
  destruct (String.eqb choice "1") eqn:E1.
  { io_next. apply create_strategy_sat; [|exact HE]. intros s w2 Hv Hk Hn Hr2.
    io_next. apply emit_sat. intros w3 Hw3 _. cbn.
    apply (HQ _ _ _ (CreateScenario s) [Say ("Saved scenario: " ++ name s)%string]).
    - reflexivity.
    - intros s' [= <-]. exact (conj Hv (conj Hk Hn)).
    - unfold read_lines in *. rewrite Hw3. lia.
    - discriminate. }
  destruct (String.eqb choice "2") eqn:E2.
  { destruct (scenarios st) as [|s0 l] eqn:Es.
    - io_next. apply emit_sat. intros w2 Hw2 _. cbn.
      apply (HQ _ _ _ (RunSimulation 0) [Say "No scenarios yet. Create one first."%string]).
      + cbn [menu_turn]. unfold run_simulation. rewrite Es. reflexivity.
      + discriminate.
      + unfold read_lines in *. now rewrite Hw2.
      + discriminate.
    - cbv iota. rewrite <- Es. rewrite <- Es in HS.
      io_next. apply emit_sat. intros w2 Hw2 _.
      io_next. apply emit_all_sat. intros w3 Hw3.
      io_next. apply ask_int_sat; [|exact HE]. intros number w4 Hnum Hr4.
      destruct (subscript_in_range (scenarios st) number Hnum) as (s & Hsub & _).
      cbv zeta.
      io_next. apply scoring_sat; [|intros e He; congruence]. intros s' Hs'.
      assert (s' = s) by congruence. subst s'.
      io_next. apply scoring_sat; [|intros e He; now apply (HS number s)]. intros r Hsim.
      io_next. apply emit_all_sat. intros w5 Hw5. cbn.
      apply (HQ _ _ _ (RunSimulation number)
               ((Print (NL ++ "Your scenarios:")%string :: enumerate_from 1 (scenarios st))
                ++ print_result s r)%list).
      + cbn [menu_turn]. unfold run_simulation. rewrite Es at 1.
        rewrite Hsub. cbn [bind]. rewrite Hsim. reflexivity.
      + discriminate.
      + unfold read_lines in *. rewrite Hw5. rewrite Hw3, Hw2 in Hr4. lia.
      + discriminate. }
  destruct (String.eqb choice "3") eqn:E3.
  { destruct (results_cache st) as [|x l] eqn:Ec.
    - io_next. apply emit_sat. intros w2 Hw2 _. cbn.
      apply (HQ _ _ _ CompareAll [Say "Run at least one simulation first."%string]).
      + cbn [menu_turn]. now rewrite Ec.
      + discriminate.
      + unfold read_lines in *. now rewrite Hw2.
      + discriminate.
    - rewrite <- Ec. destruct (compare_returns (results_cache st)) as [out Hout].
      io_next. apply scoring_sat; [|intros e He; congruence]. intros out' Hout'.
      io_next. apply emit_all_sat. intros w2 Hw2. cbn.
      apply (HQ _ _ _ CompareAll out').
      + cbn [menu_turn]. rewrite Ec, <- Ec, Hout'. reflexivity.
      + discriminate.
      + unfold read_lines in *. now rewrite Hw2.
      + discriminate. }
  destruct (String.eqb choice "4") eqn:E4.
  { destruct (scenarios st) as [|s0 l] eqn:Es.
    - io_next. apply emit_sat. intros w2 Hw2 _. cbn.
      apply (HQ _ _ _ ListScenarios [Say "No scenarios created yet."%string]).
      + cbn [menu_turn]. now rewrite Es.
      + discriminate.
      + unfold read_lines in *. now rewrite Hw2.
      + discriminate.
    - rewrite <- Es.
      io_next. apply emit_sat. intros w2 Hw2 _.
      io_next. apply emit_all_sat. intros w3 Hw3. cbn.
      apply (HQ _ _ _ ListScenarios
               (Say "Current scenarios:"%string :: map PrintStrategy (scenarios st))).
      + cbn [menu_turn]. rewrite Es at 1. reflexivity.
      + discriminate.
      + unfold read_lines in *. rewrite Hw3, Hw2. exact Hr.
      + discriminate. }
  rewrite (main_menu_keys choice Hc E1 E2 E3 E4).
  io_next. apply emit_sat. intros w2 Hw2 Ht2. cbn.
  apply (HQ _ _ _ Quit [Say "Goodbye!"%string]).
  - reflexivity.
  - discriminate.
  - unfold read_lines in *. now rewrite Hw2.
  - intros _. now exists (tty w1).
Qed.

Lemma subscript_In {A : Type} (l : list A) (i : Z) (x : A) :
  subscript l i = Ok x -> In x l.
Proof.
  unfold subscript.
  destruct ((0 <=? _)%Z && _); [|discriminate].
  destruct (nth_error l _) as [y|] eqn:Ey; [|discriminate].
  intros [= <-]. eapply nth_error_In, Ey.
Qed.

Lemma menu_turn_scenarios (st st' : Session) (choice : Choice)
  (out : list Event) (go : bool) :
  menu_turn libm_exp st choice = Ok (st', out, go) ->
  scenarios st' = scenarios st \/
  exists s, choice = CreateScenario s /\ scenarios st' = (scenarios st ++ [s])%list.
Proof.
  destruct choice as [s|number| | |]; cbn [menu_turn].
  - intros [= <- _ _]. right. now exists s.
  - unfold run_simulation. destruct (scenarios st) as [|s0 l] eqn:Es.
    + cbn. intros [= <- _ _]. now left.
    + destruct (subscript (s0 :: l) (number - 1)) as [s|e]; [|discriminate].
      cbn [bind]. destruct (simulate libm_exp s) as [r|e]; [|discriminate].
      cbn. intros [= <- _ _]. cbn. now left.
  - destruct (results_cache st); [intros [= <- _ _]; now left|].
    destruct (compare _); [|discriminate]. cbn. intros [= <- _ _]. now left.
  - destruct (scenarios st) eqn:Es; intros [= <- _ _]; now left.
  - intros [= <- _ _]. now left.
Qed.

Lemma menu_turn_break (st st' : Session) (choice : Choice) (out : list Event) :
  menu_turn libm_exp st choice = Ok (st', out, false) -> choice = Quit /\ st' = st.
Proof.
  destruct choice as [s|number| | |]; cbn [menu_turn].
  - discriminate.
  - destruct (run_simulation libm_exp st number); discriminate.
  - destruct (results_cache st); [discriminate|].
    destruct (compare _); discriminate.
  - destruct (scenarios st); discriminate.
  - intros [= <- _]. now split.
Qed.

Lemma main_loop_sat (fuel : nat) :
  forall (st : Session) (w : World),
    (List.length (stdin w) < fuel)%nat ->
    reachable libm_exp st -> Forall well_formed (scenarios st) ->
    outcome_sat (main_loop strip lower title int_of_str entropy libm_exp fuel st w)
                (main_finished libm_exp) (main_failure libm_exp).
Proof.
  induction fuel as [|fuel IH]; intros st w Hfuel Hreach Hwf; [lia|].
  cbn [main_loop]. io_next. apply main_turn_sat.
  - intros st' go w' choice out Hturn Hnew Hread Hbye. cbn [fst snd].
    destruct go.
    + apply IH.
      * unfold read_lines in Hread. lia.
      * exact (reachable_turn libm_exp st st' choice out Hreach Hturn).
      * destruct (menu_turn_scenarios st st' choice out true Hturn) as [->|(s & -> & ->)];
          [exact Hwf|].
        apply Forall_app. split; [exact Hwf|]. constructor; [|constructor].
        now apply Hnew.
    + destruct (menu_turn_break st st' choice out Hturn) as [_ ->].
      exists st. split; [reflexivity|]. split; [exact Hreach|]. split; [exact Hwf|].
      now apply Hbye.
  - intros w' Hnil. left. now split.
  - intros number s e w' _ Hsub Hsim. right. exists s, e. repeat split; try assumption;
      apply subscript_In in Hsub; rewrite Forall_forall in Hwf; now apply Hwf.
Qed.

Lemma main_sat (w : World) :
  outcome_sat (main strip lower title int_of_str entropy libm_exp w)
              (main_finished libm_exp) (main_failure libm_exp).
Proof.
  unfold main, say. io_next. apply emit_sat. intros w0 Hw0 _.
  apply main_loop_sat.
  - rewrite Hw0. lia.
  - constructor.
  - constructor.
Qed.

End WithPlatform.
End ConsoleFacts.

(** ** A turn of the loop, statement by statement *)

Module TurnFacts.
Import Console.

Ltac split_all := repeat match goal with |- _ /\ _ => split end.

Lemma io_bind_returned {A B : Type} (c : IO A) (k : A -> IO B) (w w' : World) (b : B) :
  io_bind c k w = Returned b w' ->
  exists a w1, c w = Returned a w1 /\ k a w1 = Returned b w'.
Proof.
  unfold io_bind. destruct (c w) as [a w1|e w1]; [|discriminate].
  intros H. now exists a, w1.
Qed.

Lemma scoring_returned {A : Type} (c : PyResult A) (w w' : World) (a : A) :
  scoring c w = Returned a w' -> c = Ok a /\ w' = w.
Proof.
  destruct c as [x|e]; cbn; [|discriminate]. intros [= <- <-]. now split.
Qed.

Lemma emit_all_nil (w : World) : emit_all [] w = Returned tt w.
Proof. destruct w. unfold emit_all. cbn. now rewrite app_nil_r. Qed.

Lemma emit_emit_all (e : Event) (es : list Event) (w w1 w2 : World) :
  emit e w = Returned tt w1 -> emit_all es w1 = Returned tt w2 ->
  emit_all (e :: es) w = Returned tt w2.
Proof.
  unfold emit, emit_all. intros [= <-] [= <-]. cbn.
  now rewrite <- app_assoc.
Qed.

Lemma emit_as_emit_all (e : Event) (w w1 : World) :
  emit e w = Returned tt w1 -> emit_all [e] w = Returned tt w1.
Proof. unfold emit, emit_all. now intros [= <-]. Qed.

Lemma ask_choice_line
  (strip lower : string -> string) (prompt : string) (options : list (string * string))
  (w w1 : World) (key : string) :
  ask_choice strip lower prompt options w = Returned key w1 ->
  dict_has options key = true /\
  exists bad line,
    stdin w = (bad ++ line :: stdin w1)%list /\
    Forall (fun l => choice_answer strip lower options l = None) bad /\
    lower (strip line) = key.
Proof.
  unfold ask_choice. intros H.
  pose proof (ConsoleFacts.ask_choice_from_answer strip lower prompt options
                (stdin w) (draws w) (tty w)) as Hspec.
  rewrite H in Hspec. destruct Hspec as (bad & line & Hl & Hb & Ha & _).
  unfold choice_answer in Ha.
  destruct (dict_has options (lower (strip line))) eqn:Eh; [|discriminate].
  injection Ha as <-. split; [exact Eh|]. now exists bad, line.
Qed.

End TurnFacts.

(** ** Checks over the session-focus factors *)

Module ScorerFacts.
Local Open Scope float_scope.

Lemma focus_check_all :
  all_categories (fun mw ew bw => all_risks (focus_check mw ew bw)) = true.
Proof. vm_compute. reflexivity. Qed.

Lemma all_categories_spec (P : float -> float -> float -> bool) :
  all_categories P = true ->
  forall s, P (method_w s) (env_w s) (break_w s) = true.
Proof.
  unfold all_categories. intros H s.
  rewrite forallb_forall in H. specialize (H _ (SimFacts.method_w_In s)).
  rewrite forallb_forall in H. specialize (H _ (SimFacts.env_w_In s)).
  rewrite forallb_forall in H. exact (H _ (SimFacts.break_w_In s)).
Qed.

Lemma effectiveness_of_result (libm_exp : float -> float) (s : Strategy) (r : Result) :
  simulate libm_exp s = Ok r ->
  effectiveness_from (method_w s) (env_w s) (break_w s) (focus_of (session_minutes s))
                     (distraction_risk s) (course_difficulty s)
  = Ok (effectiveness r).
Proof.
  intros H. apply SimFacts.simulate_inv in H. destruct H as [[b [Hb He]] _].
  unfold effectiveness_from. unfold base_eff in Hb.
  change (focus_of (session_minutes s)) with (session_focus s).
  rewrite Hb. cbn [bind]. now rewrite He.
Qed.

Lemma nan_ltb (x y : float) : (x <=? x) = false -> (x <? y) = false.
Proof.
  rewrite leb_spec, ltb_spec. unfold SFleb, SFltb.
  destruct (Prim2SF x) as [s|s| |s m e] eqn:Ex.
  - discriminate.
  - destruct s; discriminate.
  - reflexivity.
  - intros H. exfalso.
    rewrite (FloatOrder.SFcompare_refl (S754_finite s m e)) in H by discriminate.
    discriminate.
Qed.

Lemma one_plus_not_negative (r : float) : (r <? 0) = false -> (1 + r =? 0) = false.
Proof.
  intros Hr.
  destruct (Prim2SF r) as [s|s| |s m e] eqn:Er.
  - rewrite eqb_spec, add_spec, Er. now destruct s.
  - rewrite ltb_spec, Er in Hr. destruct s; [discriminate Hr|].
    rewrite eqb_spec, add_spec, Er. reflexivity.
  - rewrite eqb_spec, add_spec, Er. reflexivity.
  - rewrite ltb_spec, Er in Hr. destruct s; [discriminate Hr|].
    apply FloatOrder.one_plus_nonneg.
    + rewrite leb_spec, Er. reflexivity.
    + rewrite ltb_spec, Er. reflexivity.
Qed.

End ScorerFacts.

(** * Further properties *)

Import Scripts.

(** ** What the prompts guarantee *)

(** X1. [ask_int] returns the first typed line that holds an integer of
    [min_v .. max_v]: the value is in the range, the lines before it were
    all rejected, each with its message and a new prompt, and the lines after
    it are left to be read. *)
Theorem ask_int_first_answer
  (strip : string -> string) (int_of_str : string -> option Z)
  (prompt : string) (min_v max_v val : Z) (w w' : World) :
  Console.ask_int strip int_of_str prompt min_v max_v w = Returned val w' ->
  (min_v <= val <= max_v)%Z /\
  exists bad line out,
    stdin w = (bad ++ line :: stdin w')%list /\
    Forall (fun l => int_answer strip int_of_str min_v max_v l = None) bad /\
    int_of_str (strip line) = Some val /\
    tty w' = (tty w ++ out)%list /\
    said out = map (int_complaint strip int_of_str min_v max_v) bad /\
    prompts out = repeat prompt (S (List.length bad)).
Proof.
  unfold Console.ask_int. intros H.
  pose proof (ConsoleFacts.ask_int_from_answer strip int_of_str prompt min_v max_v
                (stdin w) (draws w) (tty w)) as Hspec.
  rewrite H in Hspec.
  destruct Hspec as (bad & line & Hl & Hb & Ha & _ & out & Ht & Hs & Hp).
  unfold int_answer in Ha.
  destruct (int_of_str (strip line)) as [v|] eqn:Ei; [|discriminate].
  destruct ((min_v <=? v)%Z && (v <=? max_v)%Z) eqn:Er; [|discriminate].
  injection Ha as <-. split; [lia|].
  exists bad, line, out. now repeat split.
Qed.

Lemma ask_int_first_answer_witness :
  exists val w',
    Console.ask_int AsciiText.strip AsciiText.int_of_str "Minutes: " 10 180
      (typing ["forty"; "9"; " 45 "; "4"]%string) = Returned val w' /\
    val = 45%Z /\ stdin w' = ["4"%string] /\
    (10 <= val <= 180)%Z.
Proof.
  eexists. eexists. split; [vm_compute; reflexivity|].
  split; [reflexivity|]. split; [reflexivity|].
  apply (ask_int_first_answer AsciiText.strip AsciiText.int_of_str "Minutes: " 10 180 45
           (typing ["forty"; "9"; " 45 "; "4"]%string)
           (mkWorld ["4"%string] 0
              [ Asked "Minutes: ";
                Shown (Say "Please enter an integer between 10 and 180.");
                Asked "Minutes: ";
                Shown (Say "Value must be between 10 and 180.");
                Asked "Minutes: " ])).
  vm_compute. reflexivity.
Defined.

(** X2. [ask_int] fails in one way only: with [EOFError], once every line
    of the input has been read and rejected; and whenever some line of the
    input holds an integer of the range, it returns. *)
Theorem ask_int_fails_at_end_of_input
  (strip : string -> string) (int_of_str : string -> option Z)
  (prompt : string) (min_v max_v : Z) (w : World) :
  match Console.ask_int strip int_of_str prompt min_v max_v w with
  | Returned val w' =>
      Exists (fun l => int_answer strip int_of_str min_v max_v l = Some val) (stdin w)
  | Raised e w' =>
      e = EOFError /\ stdin w' = [] /\
      Forall (fun l => int_answer strip int_of_str min_v max_v l = None) (stdin w) /\
      List.length (prompts (tty w')) = (List.length (prompts (tty w)) + S (List.length (stdin w)))%nat
  end.
Proof.
  unfold Console.ask_int.
  pose proof (ConsoleFacts.ask_int_from_answer strip int_of_str prompt min_v max_v
                (stdin w) (draws w) (tty w)) as Hspec.
  destruct (Console.ask_int_from strip int_of_str prompt min_v max_v
              (stdin w) (draws w) (tty w)) as [val w'|e w'].
  - destruct Hspec as (bad & line & Hl & _ & Ha & _).
    rewrite Hl. apply Exists_app. right. now left.
  - destruct Hspec as (He & Hn & _ & Hb & out & Ht & _ & Hp).
    repeat split; try assumption.
    rewrite Ht. unfold prompts at 1. rewrite flat_map_app. fold (prompts (tty w)) (prompts out).
    now rewrite length_app, Hp, repeat_length.
Qed.

(** X3. With an empty range ([max_v < min_v]) [ask_int] never returns: it
    reads the whole input, complains about every line, and fails with
    [EOFError]. *)
Theorem ask_int_empty_range
  (strip : string -> string) (int_of_str : string -> option Z)
  (prompt : string) (min_v max_v : Z) (w : World) :
  (max_v < min_v)%Z ->
  exists w',
    Console.ask_int strip int_of_str prompt min_v max_v w = Raised EOFError w' /\
    stdin w' = [] /\
    exists out, tty w' = (tty w ++ out)%list /\
                said out = map (int_complaint strip int_of_str min_v max_v) (stdin w).
Proof.
  intros Hempty. unfold Console.ask_int.
  pose proof (ConsoleFacts.ask_int_from_answer strip int_of_str prompt min_v max_v
                (stdin w) (draws w) (tty w)) as Hspec.
  destruct (Console.ask_int_from strip int_of_str prompt min_v max_v
              (stdin w) (draws w) (tty w)) as [val w'|e w'].
  - exfalso. destruct Hspec as (bad & line & _ & _ & Ha & _).
    unfold int_answer in Ha.
    destruct (int_of_str (strip line)) as [v|]; [|discriminate].
    destruct ((min_v <=? v)%Z && (v <=? max_v)%Z) eqn:Er; [|discriminate]. lia.
  - destruct Hspec as (-> & Hn & _ & _ & out & Ht & Hs & _).
    exists w'. split; [reflexivity|]. split; [exact Hn|]. now exists out.
Qed.

Lemma ask_int_empty_range_witness :
  (0 < 1)%Z /\
  exists w',
    Console.ask_int AsciiText.strip AsciiText.int_of_str "Which scenario number? " 1 0
      (typing ["1"; "0"; "x"]%string) = Raised EOFError w' /\
    stdin w' = [] /\
    exists out, tty w' = ([] ++ out)%list /\
                said out = [ "Value must be between 1 and 0.";
                             "Value must be between 1 and 0.";
                             "Please enter an integer between 1 and 0." ]%string.
Proof.
  split; [lia|].
  exact (ask_int_empty_range AsciiText.strip AsciiText.int_of_str
           "Which scenario number? " 1 0 (typing ["1"; "0"; "x"]%string) ltac:(lia)).
Defined.

(** X4. [ask_choice] returns a key of the options it was given, the first
    one typed (after [strip] and [lower]); every line before it got the
    message "Invalid choice. Try again.", and [options[pick]] cannot fail. *)
Theorem ask_choice_returns_key
  (strip lower : string -> string)
  (prompt : string) (options : list (string * string)) (pick : string) (w w' : World) :
  Console.ask_choice strip lower prompt options w = Returned pick w' ->
  In pick (map fst options) /\
  (exists v, dict_item options pick = Some v) /\
  exists bad line out,
    stdin w = (bad ++ line :: stdin w')%list /\
    Forall (fun l => choice_answer strip lower options l = None) bad /\
    pick = lower (strip line) /\
    tty w' = (tty w ++ out)%list /\
    said out = repeat "Invalid choice. Try again."%string (List.length bad).
Proof.
  unfold Console.ask_choice. intros H.
  pose proof (ConsoleFacts.ask_choice_from_answer strip lower prompt options
                (stdin w) (draws w) (tty w)) as Hspec.
  rewrite H in Hspec.
  destruct Hspec as (bad & line & Hl & Hb & Ha & _ & out & Ht & Hs).
  unfold choice_answer in Ha.
  destruct (dict_has options (lower (strip line))) eqn:Eh; [|discriminate].
  injection Ha as <-.
  destruct (ConsoleFacts.dict_has_item options _ Eh) as [v Hv].
  split; [|split; [now exists v|exists bad, line, out; now repeat split]].
  unfold dict_has in Eh. apply existsb_exists in Eh as ([k v'] & Hin & Hk).
  apply String.eqb_eq in Hk. cbn in Hk. subst k.
  apply in_map_iff. now exists (lower (strip line), v').
Qed.

Lemma ask_choice_returns_key_witness :
  exists w',
    Console.ask_choice AsciiText.strip AsciiText.lower "Pick an environment:"
      Console.ENV_OPTIONS (typing ["library"; "0"; " 3"; "4"]%string) = Returned "3"%string w' /\
    In "3"%string (map fst Console.ENV_OPTIONS) /\
    dict_item Console.ENV_OPTIONS "3" = Some "coffee_shop"%string /\
    stdin w' = ["4"%string] /\
    said (tty w') = ["Invalid choice. Try again."; "Invalid choice. Try again."]%string.
Proof.
  eexists. split; [vm_compute; reflexivity|].
  split; [|repeat split; reflexivity].
  eapply (ask_choice_returns_key AsciiText.strip AsciiText.lower "Pick an environment:"
            Console.ENV_OPTIONS "3" (typing ["library"; "0"; " 3"; "4"]%string)).
  vm_compute. reflexivity.
Defined.

(** ** Scenarios built by the prompts *)

Lemma dict_get_known {V : Type} (d : list (string * V)) (key : string) (a b : V) :
  In key (map fst d) -> dict_get d key a = dict_get d key b.
Proof.
  induction d as [|[k v] d IH]; cbn; [intros []|].
  destruct (String.eqb k key) eqn:Ek; [reflexivity|].
  intros [->|Hin]; [now rewrite String.eqb_refl in Ek|now apply IH].
Qed.

(** X5. A scenario that [create_strategy] returns lies in the documented
    input domains, its method, environment and break style are keys of the
    weight tables, and its name is not empty; at least eight lines were
    typed for it. *)
Theorem create_strategy_well_formed
  (strip lower title : string -> string) (int_of_str : string -> option Z)
  (entropy : nat -> Z) (w w' : World) (s : Strategy) :
  Console.create_strategy strip lower title int_of_str entropy w = Returned s w' ->
  valid s /\ known_categories s /\ name s <> ""%string /\ read_lines 8 w w'.
Proof.
  intros H.
  pose proof (ConsoleFacts.create_strategy_sat strip lower title int_of_str entropy w
                (fun s w' => valid s /\ known_categories s /\ name s <> ""%string
                             /\ read_lines 8 w w')
                (fun _ _ => True)) as Hsat.
  rewrite H in Hsat. apply Hsat; auto.
Qed.

Lemma create_strategy_well_formed_witness :
  exists s w',
    Console.create_strategy AsciiText.strip AsciiText.lower AsciiText.title
      AsciiText.int_of_str AsciiText.entropy (typing new_scenario) = Returned s w' /\
    s = mkStrategy "Scenario 821" "practice_problems" 45 4 "quiet_room" "structured" 3 2 /\
    valid s /\ known_categories s /\ name s <> ""%string /\
    read_lines 8 (typing new_scenario) w'.
Proof.
  eexists. eexists. split; [vm_compute; reflexivity|]. split; [reflexivity|].
  eapply (create_strategy_well_formed AsciiText.strip AsciiText.lower AsciiText.title
            AsciiText.int_of_str AsciiText.entropy (typing new_scenario)).
  vm_compute. reflexivity.
Defined.

(** X6. [create_strategy] fails in one way only: with [EOFError], when the
    input ends before the scenario is complete.  In particular the three
    subscripts [METHOD_OPTIONS[m_key]], [ENV_OPTIONS[e_key]] and
    [BREAK_OPTIONS[b_key]] never raise [KeyError], although the keys were
    checked against other dicts (the prettified ones). *)
Theorem create_strategy_fails_at_end_of_input
  (strip lower title : string -> string) (int_of_str : string -> option Z)
  (entropy : nat -> Z) (w w' : World) (e : ConsoleError) :
  Console.create_strategy strip lower title int_of_str entropy w = Raised e w' ->
  e = EOFError /\ stdin w' = [].
Proof.
  intros H.
  pose proof (ConsoleFacts.create_strategy_sat strip lower title int_of_str entropy w
                (fun _ _ => True) end_of_input) as Hsat.
  rewrite H in Hsat. apply Hsat; [auto|]. intros w1 Hw1. now split.
Qed.

Lemma create_strategy_fails_at_end_of_input_witness :
  exists w',
    Console.create_strategy AsciiText.strip AsciiText.lower AsciiText.title
      AsciiText.int_of_str AsciiText.entropy
      (typing ["Plan B"; "1"; "1"; "1"; "45"]%string) = Raised EOFError w' /\
    EOFError = EOFError /\ stdin w' = [].
Proof.
  eexists. split; [vm_compute; reflexivity|].
  eapply (create_strategy_fails_at_end_of_input AsciiText.strip AsciiText.lower
            AsciiText.title AsciiText.int_of_str AsciiText.entropy
            (typing ["Plan B"; "1"; "1"; "1"; "45"]%string)).
  vm_compute. reflexivity.
Defined.

(** X7. Prompts and scorer fit together: on a scenario that
    [create_strategy] returned, [simulate] returns a result within the
    documented ranges (for an [exp] that is finite and non-negative up to
    709), and none of the default weights 0.60, 0.85, 0.85 is used. *)
Theorem created_scenario_is_scored
  (strip lower title : string -> string) (int_of_str : string -> option Z)
  (entropy : nat -> Z) (libm_exp : float -> float) (w w' : World) (s : Strategy) :
  exp_contract libm_exp ->
  Console.create_strategy strip lower title int_of_str entropy w = Returned s w' ->
  (exists r, simulate libm_exp s = Ok r /\ in_documented_ranges r) /\
  (forall d, dict_get METHOD_WEIGHTS (method s) d = method_w s) /\
  (forall d, dict_get ENVIRONMENT_WEIGHTS (environment s) d = env_w s) /\
  (forall d, dict_get BREAK_WEIGHTS (break_style s) d = break_w s).
Proof.
  intros Hexp H.
  pose proof (ConsoleFacts.create_strategy_sat strip lower title int_of_str entropy w
                (fun s _ => valid s /\ known_categories s) (fun _ _ => True)) as Hsat.
  rewrite H in Hsat. destruct Hsat as (Hv & Km & Ke & Kb); auto.
  split.
  - destruct (SimFacts.simulate_returns libm_exp Hexp s Hv) as [r Hr].
    exists r. split; [exact Hr|]. exact (SimFacts.simulate_ranges libm_exp s r Hr).
  - repeat split; intros d; unfold method_w, env_w, break_w; now apply dict_get_known.
Qed.

Lemma created_scenario_is_scored_witness :
  exp_contract exp_model /\
  exists s w',
    Console.create_strategy AsciiText.strip AsciiText.lower AsciiText.title
      AsciiText.int_of_str AsciiText.entropy (typing new_scenario) = Returned s w' /\
    exists r, simulate exp_model s = Ok r /\ in_documented_ranges r.
Proof.
  split; [exact exp_model_contract|].
  eexists. eexists. split; [vm_compute; reflexivity|].
  eapply (created_scenario_is_scored AsciiText.strip AsciiText.lower AsciiText.title
            AsciiText.int_of_str AsciiText.entropy exp_model (typing new_scenario)).
  - exact exp_model_contract.
  - vm_compute. reflexivity.
Defined.

(** ** The loop of [main] *)

(** X8. Every iteration of the loop of [main] that completes is a turn of
    the session model [menu_turn], for the choice that was typed: after the
    separator the menu is asked, and the first line that names a key of it
    decides the choice; the scenario of choice 1 is what [create_strategy]
    then returns and the number of choice 2 what [ask_int] returns; the
    session changes as [menu_turn] says, and what [menu_turn] reports is
    what is written on the terminal, the listing of choice 2 before its
    prompt and everything else at the end. *)
Theorem main_turn_is_menu_turn
  (strip lower title : string -> string) (int_of_str : string -> option Z)
  (entropy : nat -> Z) (libm_exp : float -> float)
  (st st' : Session) (go : bool) (w w' : World) :
  Console.main_turn strip lower title int_of_str entropy libm_exp st w
  = Returned (st', go) w' ->
  exists (bad : list string) (line : string) (choice : Choice)
         (out1 out2 : list Event) (w0 w1 w2 w3 : World),
    Console.print (NL ++ str_mul "-" 72) w = Returned tt w0 /\
    Console.ask_choice strip lower "Main menu:" Console.MAIN_MENU w0
    = Returned (menu_key choice) w1 /\
    stdin w = (bad ++ line :: stdin w1)%list /\
    Forall (fun l => choice_answer strip lower Console.MAIN_MENU l = None) bad /\
    lower (strip line) = menu_key choice /\
    Console.emit_all out1 w1 = Returned tt w2 /\
    choice_read strip lower title int_of_str entropy st choice w2 w3 /\
    Console.emit_all out2 w3 = Returned tt w' /\
    menu_turn libm_exp st choice = Ok (st', (out1 ++ out2)%list, go) /\
    (forall s, choice = CreateScenario s -> well_formed s) /\
    read_lines 1 w w'.
Proof.
  intros H. unfold Console.main_turn in H.
  apply TurnFacts.io_bind_returned in H as ([] & w0 & Hp & H).
  apply TurnFacts.io_bind_returned in H as (key & w1 & Hask & H).
  destruct (TurnFacts.ask_choice_line _ _ _ _ _ _ _ Hask) as (Hkey & bad & line & Hl & Hb & Hk).
  assert (Hw0 : stdin w0 = stdin w) by (injection Hp as <-; reflexivity).
  rewrite Hw0 in Hl.
  assert (Hr1 : read_lines 1 w w1).
  { unfold read_lines. rewrite Hl, length_app. cbn. lia. }
  destruct (String.eqb key "1") eqn:E1.
  { apply String.eqb_eq in E1. subst key.
    apply TurnFacts.io_bind_returned in H as (s & w2 & Hcreate & H).
    apply TurnFacts.io_bind_returned in H as ([] & w3 & Hsay & H).
    injection H as <- <- <-.
    pose proof (ConsoleFacts.create_strategy_sat strip lower title int_of_str entropy w1
                  (fun s w2 => well_formed s /\ read_lines 8 w1 w2) (fun _ _ => True)) as Hsat.
    rewrite Hcreate in Hsat.
    destruct Hsat as [Hwf Hr2];
      [intros s0 w4 Hv Hc Hn Hr; exact (conj (conj Hv (conj Hc Hn)) Hr)|auto|].
    exists bad, line, (CreateScenario s), [], [Say ("Saved scenario: " ++ name s)%string],
           w0, w1, w1, w2.
    TurnFacts.split_all; try assumption; try reflexivity;
      try apply TurnFacts.emit_all_nil;
      try (now apply TurnFacts.emit_as_emit_all);
      try (intros s' [= <-]; exact Hwf).
    injection Hsay as <-. unfold read_lines in *. cbn [stdin]. lia. }
  destruct (String.eqb key "2") eqn:E2.
  { apply String.eqb_eq in E2. subst key.
    destruct (scenarios st) as [|s0 l] eqn:Es.
    - apply TurnFacts.io_bind_returned in H as ([] & w2 & Hsay & H).
      injection H as <- <- <-.
      exists bad, line, (RunSimulation 0), [],
             [Say "No scenarios yet. Create one first."%string], w0, w1, w1, w1.
      TurnFacts.split_all; try assumption; try reflexivity;
        try apply TurnFacts.emit_all_nil;
        try (now apply TurnFacts.emit_as_emit_all);
        try discriminate.
      + unfold choice_read. now rewrite Es.
      + cbn [menu_turn]. unfold run_simulation. now rewrite Es.
      + injection Hsay as <-. exact Hr1.
    - apply TurnFacts.io_bind_returned in H as ([] & wa & Hprint & H).
      apply TurnFacts.io_bind_returned in H as ([] & wb & Hlist & H).
      apply TurnFacts.io_bind_returned in H as (number & wc & Hnum & H).
      apply TurnFacts.io_bind_returned in H as (s & wc' & Hsub & H).
      apply TurnFacts.scoring_returned in Hsub as [Hsub ->].
      apply TurnFacts.io_bind_returned in H as (r & wc' & Hsim & H).
      apply TurnFacts.scoring_returned in Hsim as [Hsim ->].
      apply TurnFacts.io_bind_returned in H as ([] & wd & Hres & H).
      injection H as <- <- <-.
      exists bad, line, (RunSimulation number),
             (Print (NL ++ "Your scenarios:")%string :: enumerate_from 1 (s0 :: l)),
             (print_result s r), w0, w1, wb, wc.
      TurnFacts.split_all; try assumption; try reflexivity; try discriminate.
      + exact (TurnFacts.emit_emit_all _ _ _ _ _ Hprint Hlist).
      + unfold choice_read. rewrite Es. exact Hnum.
      + cbn [menu_turn]. unfold run_simulation. rewrite Es.
        cbv zeta in Hsub. rewrite Hsub. cbn [bind]. rewrite Hsim. reflexivity.
      + pose proof (ConsoleFacts.ask_int_sat strip int_of_str "Which scenario number? " 1
                      (Z.of_nat (List.length (s0 :: l))) wb
                      (fun _ w4 => read_lines 1 wb w4) (fun _ _ => True)) as Hsat.
        rewrite Hnum in Hsat. cbn in Hsat.
        injection Hprint as <-. injection Hlist as <-. injection Hres as <-.
        unfold read_lines in *. cbn [stdin] in *.
        assert (Hlen : (List.length (stdin wc) + 1 <= List.length (stdin w1))%nat)
          by (apply Hsat; auto).
        lia. }
  destruct (String.eqb key "3") eqn:E3.
  { apply String.eqb_eq in E3. subst key.
    destruct (results_cache st) as [|x l] eqn:Ec.
    - apply TurnFacts.io_bind_returned in H as ([] & w2 & Hsay & H).
      injection H as <- <- <-.
      exists bad, line, CompareAll, [],
             [Say "Run at least one simulation first."%string], w0, w1, w1, w1.
      TurnFacts.split_all; try assumption; try reflexivity;
        try apply TurnFacts.emit_all_nil;
        try (now apply TurnFacts.emit_as_emit_all);
        try discriminate.
      + cbn [menu_turn]. now rewrite Ec.
      + injection Hsay as <-. exact Hr1.
    - apply TurnFacts.io_bind_returned in H as (out & w2 & Hcmp & H).
      apply TurnFacts.scoring_returned in Hcmp as [Hcmp ->].
      apply TurnFacts.io_bind_returned in H as ([] & w3 & Hout & H).
      injection H as <- <- <-.
      exists bad, line, CompareAll, [], out, w0, w1, w1, w1.
      TurnFacts.split_all; try assumption; try reflexivity;
        try apply TurnFacts.emit_all_nil; try discriminate.
      + cbn [menu_turn]. rewrite Ec. rewrite Hcmp. reflexivity.
      + injection Hout as <-. exact Hr1. }
  destruct (String.eqb key "4") eqn:E4.
  { apply String.eqb_eq in E4. subst key.
    destruct (scenarios st) as [|s0 l] eqn:Es.
    - apply TurnFacts.io_bind_returned in H as ([] & w2 & Hsay & H).
      injection H as <- <- <-.
      exists bad, line, ListScenarios, [],
             [Say "No scenarios created yet."%string], w0, w1, w1, w1.
      TurnFacts.split_all; try assumption; try reflexivity;
        try apply TurnFacts.emit_all_nil;
        try (now apply TurnFacts.emit_as_emit_all);
        try discriminate.
      + cbn [menu_turn]. now rewrite Es.
      + injection Hsay as <-. exact Hr1.
    - apply TurnFacts.io_bind_returned in H as ([] & w2 & Hsay & H).
      apply TurnFacts.io_bind_returned in H as ([] & w3 & Hlist & H).
      injection H as <- <- <-.
      exists bad, line, ListScenarios, [],
             (Say "Current scenarios:"%string :: map PrintStrategy (s0 :: l)), w0, w1, w1, w1.
      TurnFacts.split_all; try assumption; try reflexivity;
        try apply TurnFacts.emit_all_nil; try discriminate.
      + exact (TurnFacts.emit_emit_all _ _ _ _ _ Hsay Hlist).
      + cbn [menu_turn]. now rewrite Es.
      + injection Hsay as <-. injection Hlist as <-. exact Hr1. }
  destruct (String.eqb key "5") eqn:E5.
  { apply String.eqb_eq in E5. subst key.
    apply TurnFacts.io_bind_returned in H as ([] & w2 & Hsay & H).
    injection H as <- <- <-.
    exists bad, line, Quit, [], [Say "Goodbye!"%string], w0, w1, w1, w1.
    TurnFacts.split_all; try assumption; try reflexivity;
      try apply TurnFacts.emit_all_nil;
      try (now apply TurnFacts.emit_as_emit_all);
      try discriminate.
    injection Hsay as <-. exact Hr1. }
  rewrite (ConsoleFacts.main_menu_keys key Hkey E1 E2 E3 E4) in E5. discriminate E5.
Qed.

Lemma main_turn_is_menu_turn_witness :
  exists st' w',
    Console.main_turn AsciiText.strip AsciiText.lower AsciiText.title
      AsciiText.int_of_str AsciiText.entropy exp_model Examples.stale_session
      (typing ["two"; " 2"; "3"; "1"; "5"]%string) = Returned (st', true) w' /\
    stdin w' = ["5"%string] /\
    exists choice out1 out2,
      menu_key choice = "2"%string /\
      menu_turn exp_model Examples.stale_session choice = Ok (st', (out1 ++ out2)%list, true).
Proof.
  eexists. eexists. split; [vm_compute; reflexivity|]. split; [reflexivity|].
  destruct (main_turn_is_menu_turn AsciiText.strip AsciiText.lower AsciiText.title
              AsciiText.int_of_str AsciiText.entropy exp_model Examples.stale_session
              _ true (typing ["two"; " 2"; "3"; "1"; "5"]%string) _
              ltac:(vm_compute; reflexivity))
    as (bad & line & choice & out1 & out2 & w0 & w1 & w2 & w3
        & Hp & Hask & _ & _ & _ & _ & _ & _ & Hturn & _).
  exists choice, out1, out2. split; [|exact Hturn].
  injection Hp as <-. vm_compute in Hask. injection Hask as Hk _. exact (eq_sym Hk).
Defined.

(** X9. [main] does not crash: for an [exp] that is finite and
    non-negative up to 709, whatever is typed, it either returns (the loop
    was left by choice 5, within the iterations the input allows) or fails
    with [EOFError] at the end of the input.  No [KeyError], [IndexError],
    [ValueError], [ZeroDivisionError] or [OverflowError] escapes. *)
Theorem main_only_fails_at_end_of_input
  (strip lower title : string -> string) (int_of_str : string -> option Z)
  (entropy : nat -> Z) (libm_exp : float -> float) (w : World) :
  exp_contract libm_exp ->
  match Console.main strip lower title int_of_str entropy libm_exp w with
  | Returned r w' => exists st, r = Some st
  | Raised e w' => e = EOFError /\ stdin w' = []
  end.
Proof.
  intros Hexp.
  pose proof (ConsoleFacts.main_sat strip lower title int_of_str entropy libm_exp w) as Hsat.
  destruct (Console.main strip lower title int_of_str entropy libm_exp w) as [r w'|e w'].
  - destruct Hsat as (st & -> & _). now exists st.
  - destruct Hsat as [Heof|(s & e' & (Hv & _) & Hraise & _)]; [exact Heof|].
    destruct (SimFacts.simulate_returns libm_exp Hexp s Hv) as [r Hr]. congruence.
Qed.

Lemma main_only_fails_at_end_of_input_witness :
  exp_contract exp_model /\
  match Console.main AsciiText.strip AsciiText.lower AsciiText.title
          AsciiText.int_of_str AsciiText.entropy exp_model (typing whole_session) with
  | Returned r w' => exists st, r = Some st
  | Raised e w' => e = EOFError /\ stdin w' = []
  end /\
  match Console.main AsciiText.strip AsciiText.lower AsciiText.title
          AsciiText.int_of_str AsciiText.entropy exp_model (typing new_scenario) with
  | Returned r w' => exists st, r = Some st
  | Raised e w' => e = EOFError /\ stdin w' = []
  end.
Proof.
  split; [exact exp_model_contract|]. split.
  - exact (main_only_fails_at_end_of_input AsciiText.strip AsciiText.lower AsciiText.title
             AsciiText.int_of_str AsciiText.entropy exp_model (typing whole_session)
             exp_model_contract).
  - exact (main_only_fails_at_end_of_input AsciiText.strip AsciiText.lower AsciiText.title
             AsciiText.int_of_str AsciiText.entropy exp_model (typing new_scenario)
             exp_model_contract).
Defined.

(** X10. When [main] returns, the last thing on the terminal is
    "Goodbye!", every scenario of the final session came out of
    [create_strategy] (documented domains, known categories, a name), and
    the cache holds results within the documented ranges under distinct
    names. *)
Theorem main_returns_after_goodbye
  (strip lower title : string -> string) (int_of_str : string -> option Z)
  (entropy : nat -> Z) (libm_exp : float -> float)
  (w w' : World) (r : option Session) :
  Console.main strip lower title int_of_str entropy libm_exp w = Returned r w' ->
  exists st t,
    r = Some st /\
    tty w' = (t ++ [Shown (Say "Goodbye!"%string)])%list /\
    Forall well_formed (scenarios st) /\
    cache_ok st.
Proof.
  intros H.
  pose proof (ConsoleFacts.main_sat strip lower title int_of_str entropy libm_exp w) as Hsat.
  rewrite H in Hsat. destruct Hsat as (st & -> & Hreach & Hwf & t & Ht).
  exists st, t. repeat split; try assumption;
    now destruct (reachable_cache_ok libm_exp st Hreach).
Qed.

Lemma main_returns_after_goodbye_witness :
  exists r w',
    Console.main AsciiText.strip AsciiText.lower AsciiText.title
      AsciiText.int_of_str AsciiText.entropy exp_model (typing whole_session)
    = Returned r w' /\
    stdin w' = ["never read"%string] /\
    exists st t,
      r = Some st /\
      tty w' = (t ++ [Shown (Say "Goodbye!"%string)])%list /\
      Forall well_formed (scenarios st) /\
      cache_ok st.
Proof.
  eexists. eexists. split; [vm_compute; reflexivity|]. split; [reflexivity|].
  eapply (main_returns_after_goodbye AsciiText.strip AsciiText.lower AsciiText.title
            AsciiText.int_of_str AsciiText.entropy exp_model (typing whole_session)).
  vm_compute. reflexivity.
Defined.

(** ** The session *)

Lemma menu_turn_coherent
  (libm_exp : float -> float) (st st' : Session) (choice : Choice)
  (out : list Event) (go : bool) :
  cache_coherent libm_exp st ->
  menu_turn libm_exp st choice = Ok (st', out, go) ->
  cache_coherent libm_exp st'.
Proof.
  unfold cache_coherent. intros Hc H.
  destruct choice as [s|number| | |]; cbn [menu_turn] in H.
  - injection H as <- _ _. cbn. unfold append.
    eapply Forall_impl; [|exact Hc]. cbn beta. intros x [Hin Hx].
    split; [apply in_or_app; now left|exact Hx].
  - destruct (run_simulation libm_exp st number) as [[st1 out1]|e] eqn:Er; [|discriminate].
    cbn in H. injection H as <- _ _.
    destruct (run_simulation_cache libm_exp st st1 number out1 Er)
      as [[_ ->]|(s & r & Hsub & Hsim & Hsc & Hca & _)]; [exact Hc|].
    rewrite Hca, Hsc. apply Forall_app. split.
    + rewrite Forall_forall in *. intros x Hx. apply filter_In in Hx as [Hx _]. now apply Hc.
    + constructor; [|constructor]. cbn. split; [|exact Hsim].
      eapply ConsoleFacts.subscript_In, Hsub.
  - destruct (results_cache st) eqn:Ec.
    + injection H as <- _ _. now rewrite Ec.
    + destruct (compare _); [|discriminate]. cbn in H. injection H as <- _ _.
      now rewrite Ec.
  - destruct (scenarios st) eqn:Es; injection H as <- _ _; rewrite Es; exact Hc.
  - injection H as <- _ _. exact Hc.
Qed.

Lemma reachable_coherent (libm_exp : float -> float) (st : Session) :
  reachable libm_exp st -> cache_coherent libm_exp st.
Proof.
  induction 1 as [|st st' choice out _ IH Hturn].
  - constructor.
  - exact (menu_turn_coherent libm_exp st st' choice out true IH Hturn).
Qed.

(** X11. The list of scenarios only grows, and only by choice 1: a turn
    of the loop leaves it as it was or appends the one scenario created;
    no scenario is removed, replaced or reordered. *)
Theorem scenarios_only_grow
  (libm_exp : float -> float) (st st' : Session) (choice : Choice)
  (out : list Event) (go : bool) :
  menu_turn libm_exp st choice = Ok (st', out, go) ->
  (scenarios st' = scenarios st /\ forall s, choice <> CreateScenario s) \/
  (exists s, choice = CreateScenario s /\ scenarios st' = (scenarios st ++ [s])%list /\
             results_cache st' = results_cache st).
Proof.
  intros H.
  destruct choice as [s|number| | |].
  - right. exists s. cbn in H. injection H as <- _ _. now repeat split.
  - left. split; [|discriminate].
    destruct (ConsoleFacts.menu_turn_scenarios libm_exp st st' _ out go H)
      as [Hs|(s & Hs & _)]; [exact Hs|discriminate].
  - left. split; [|discriminate].
    destruct (ConsoleFacts.menu_turn_scenarios libm_exp st st' _ out go H)
      as [Hs|(s & Hs & _)]; [exact Hs|discriminate].
  - left. split; [|discriminate].
    destruct (ConsoleFacts.menu_turn_scenarios libm_exp st st' _ out go H)
      as [Hs|(s & Hs & _)]; [exact Hs|discriminate].
  - left. split; [|discriminate].
    destruct (ConsoleFacts.menu_turn_scenarios libm_exp st st' _ out go H)
      as [Hs|(s & Hs & _)]; [exact Hs|discriminate].
Qed.

Lemma scenarios_only_grow_witness :
  exists st' out,
    menu_turn exp_model Examples.stale_session (RunSimulation 1) = Ok (st', out, true) /\
    scenarios st' = scenarios Examples.stale_session.
Proof.
  eexists. eexists. split; [vm_compute; reflexivity|].
  destruct (scenarios_only_grow exp_model Examples.stale_session _ (RunSimulation 1) _ true
              ltac:(vm_compute; reflexivity)) as [[Hs _]|(s & Hs & _)];
    [exact Hs|discriminate Hs].
Defined.

(** X12. The cache is never stale: in every session the loop can reach,
    each cached pair [(s, r)] holds a scenario [s] of the session and the
    result that [simulate] gives on it. *)
Theorem cache_never_stale (libm_exp : float -> float) (st : Session) (s : Strategy) (r : Result) :
  reachable libm_exp st ->
  In (s, r) (results_cache st) ->
  In s (scenarios st) /\ simulate libm_exp s = Ok r.
Proof.
  intros Hreach Hin.
  pose proof (reachable_coherent libm_exp st Hreach) as Hc.
  unfold cache_coherent in Hc. rewrite Forall_forall in Hc.
  exact (Hc (s, r) Hin).
Qed.

Lemma scored_session_reachable : reachable exp_model scored_session.
Proof.
  eapply (reachable_turn exp_model (mkSession [Examples.cram_in_dorm] []) _ (RunSimulation 1)).
  - eapply (reachable_turn exp_model (mkSession [] []) _ (CreateScenario Examples.cram_in_dorm)).
    + apply reachable_start.
    + reflexivity.
  - vm_compute. reflexivity.
Qed.

Lemma cache_never_stale_witness :
  exists r,
    In (Examples.cram_in_dorm, r) (results_cache scored_session) /\
    In Examples.cram_in_dorm (scenarios scored_session) /\
    simulate exp_model Examples.cram_in_dorm = Ok r.
Proof.
  eexists. split; [vm_compute; left; reflexivity|].
  apply (cache_never_stale exp_model scored_session).
  - exact scored_session_reachable.
  - vm_compute. left. reflexivity.
Defined.

(** X13. The cache never holds more entries than there are scenarios. *)
Theorem cache_no_longer_than_scenarios (libm_exp : float -> float) (st : Session) :
  reachable libm_exp st ->
  (List.length (results_cache st) <= List.length (scenarios st))%nat.
Proof.
  intros Hreach.
  destruct (reachable_cache_ok libm_exp st Hreach) as [_ Hnd].
  pose proof (reachable_coherent libm_exp st Hreach) as Hc.
  unfold cache_coherent in Hc. rewrite Forall_forall in Hc.
  unfold cache_names in Hnd.
  rewrite <- (length_map (fun x => name (fst x)) (results_cache st)).
  rewrite <- (length_map name (scenarios st)).
  apply NoDup_incl_length; [exact Hnd|].
  intros n Hn. apply in_map_iff in Hn as (x & <- & Hx).
  apply in_map, (Hc x Hx).
Qed.

Lemma cache_no_longer_than_scenarios_witness :
  reachable exp_model scored_session /\
  (List.length (results_cache scored_session) <= List.length (scenarios scored_session))%nat.
Proof.
  split; [exact scored_session_reachable|].
  exact (cache_no_longer_than_scenarios exp_model scored_session scored_session_reachable).
Defined.

(** ** The scorer and the comparator *)

Section Scorer.
Local Open Scope float_scope.

(** X14. [clamp] is idempotent, whatever the three doubles are (NaN and
    signed zeros included): clamping a clamped value changes nothing. *)
Theorem clamp_idempotent (x lo hi : float) :
  clamp (clamp x lo hi) lo hi = clamp x lo hi.
Proof.
  unfold clamp, py_max, py_min.
  destruct (x <? hi) eqn:Exh.
  - destruct (lo <? x) eqn:Elx.
    + now rewrite Exh, Elx.
    + destruct (lo <? hi) eqn:Elh.
      * destruct (lo <? lo); reflexivity.
      * now rewrite Elh.
  - destruct (lo <? hi) eqn:Elh.
    + destruct (hi <? hi); now rewrite Elh.
    + destruct (lo <? hi) eqn:Elh'; [discriminate|].
      destruct (lo <? lo); try reflexivity; now rewrite ?Elh'.
Qed.

(** X15. A NaN is clamped to the upper bound: [min(hi, x)] keeps [hi]
    when [x] is a NaN, and [max(lo, hi)] is [hi] for [lo < hi].  So a score
    that came out as a NaN would be reported as 100 (or 15), not as 0. *)
Theorem clamp_of_nan (x lo hi : float) :
  (x <=? x) = false -> (lo <? hi) = true -> clamp x lo hi = hi.
Proof.
  intros Hnan Hlt. unfold clamp, py_max, py_min.
  rewrite (ScorerFacts.nan_ltb x hi Hnan). now rewrite Hlt.
Qed.

Lemma clamp_of_nan_witness :
  (nan <=? nan) = false /\ (0 <? 100) = true /\ clamp nan 0 100 = 100.
Proof.
  split; [reflexivity|]. split; [reflexivity|].
  apply (clamp_of_nan nan 0 100); reflexivity.
Defined.

(** X16. Within the documented risks (1 to 5 each) the effectiveness that
    [simulate] returns is at least 9.3, the rounded product of 85 with the
    lowest weight of each table, the lowest focus factor and the highest
    penalties: the lower clamp at 0 never binds either. *)
Theorem effectiveness_at_least_9_3 (libm_exp : float -> float) (s : Strategy) (r : Result) :
  (1 <= distraction_risk s <= 5)%Z -> (1 <= course_difficulty s <= 5)%Z ->
  simulate libm_exp s = Ok r ->
  (9.3 <=? effectiveness r) = true.
Proof.
  intros Hdr Hcd H.
  pose proof (ScorerFacts.all_categories_spec _ ScorerFacts.focus_check_all s) as Hw.
  cbv beta in Hw.
  pose proof (SimFacts.all_risks_spec _ Hw _ _ Hdr Hcd) as Hc. clear Hw.
  pose proof (ScorerFacts.effectiveness_of_result libm_exp s r H) as He.
  unfold focus_check in Hc. unfold focus_of in He.
  destruct (effectiveness_from _ _ _ 1.0 _ _) as [a|] eqn:Ea; [|discriminate Hc].
  destruct (effectiveness_from _ _ _ 0.88 _ _) as [b|] eqn:Eb; [|discriminate Hc].
  destruct (effectiveness_from _ _ _ 0.75 _ _) as [c|] eqn:Ec; [|discriminate Hc].
  repeat (apply andb_true_iff in Hc; destruct Hc as [Hc ?]).
  destruct (session_minutes s <=? 60)%Z; [|destruct (session_minutes s <=? 90)%Z];
    rewrite ?Ea, ?Eb, ?Ec in He; injection He as <-; assumption.
Qed.

Lemma effectiveness_at_least_9_3_witness :
  exists r, simulate exp_model Examples.cram_in_dorm = Ok r /\
            (9.3 <=? effectiveness r) = true /\ effectiveness r = 9.3.
Proof.
  eexists. split; [vm_compute; reflexivity|]. split; [|vm_compute; reflexivity].
  apply (effectiveness_at_least_9_3 exp_model Examples.cram_in_dorm);
    [simpl; lia|simpl; lia|vm_compute; reflexivity].
Defined.

(** X17. Longer sessions never raise the effectiveness: between two
    scenarios with risks of 1 to 5 that agree on every scoring field but the
    session length, the one with the longer sessions has an effectiveness
    that is not larger. *)
Theorem effectiveness_monotone_in_session_length
  (libm_exp : float -> float) (s1 s2 : Strategy) (r1 r2 : Result) :
  (1 <= distraction_risk s1 <= 5)%Z -> (1 <= course_difficulty s1 <= 5)%Z ->
  agree_except_minutes s1 s2 ->
  (session_minutes s1 <= session_minutes s2)%Z ->
  simulate libm_exp s1 = Ok r1 -> simulate libm_exp s2 = Ok r2 ->
  (effectiveness r2 <=? effectiveness r1) = true.
Proof.
  intros Hdr Hcd (Hm & He & Hb & Hd & Hc) Hle H1 H2.
  pose proof (ScorerFacts.all_categories_spec _ ScorerFacts.focus_check_all s1) as Hw.
  cbv beta in Hw.
  pose proof (SimFacts.all_risks_spec _ Hw _ _ Hdr Hcd) as Hchk. clear Hw.
  pose proof (ScorerFacts.effectiveness_of_result libm_exp s1 r1 H1) as E1.
  pose proof (ScorerFacts.effectiveness_of_result libm_exp s2 r2 H2) as E2.
  replace (method_w s2) with (method_w s1) in E2 by (unfold method_w; now rewrite Hm).
  replace (env_w s2) with (env_w s1) in E2 by (unfold env_w; now rewrite He).
  replace (break_w s2) with (break_w s1) in E2 by (unfold break_w; now rewrite Hb).
  rewrite <- Hd, <- Hc in E2.
  unfold focus_check in Hchk. unfold focus_of in E1, E2.
  destruct (effectiveness_from _ _ _ 1.0 _ _) as [a|] eqn:Ea; [|discriminate Hchk].
  destruct (effectiveness_from _ _ _ 0.88 _ _) as [b|] eqn:Eb; [|discriminate Hchk].
  destruct (effectiveness_from _ _ _ 0.75 _ _) as [c|] eqn:Ec; [|discriminate Hchk].
  repeat (apply andb_true_iff in Hchk; destruct Hchk as [Hchk ?]).
  destruct (session_minutes s1 <=? 60)%Z eqn:A1;
    [|destruct (session_minutes s1 <=? 90)%Z eqn:B1];
    (destruct (session_minutes s2 <=? 60)%Z eqn:A2;
       [|destruct (session_minutes s2 <=? 90)%Z eqn:B2]);
    rewrite ?Ea, ?Eb, ?Ec in E1; rewrite ?Ea, ?Eb, ?Ec in E2;
    injection E1 as <-; injection E2 as <-; try assumption;
    exfalso; rewrite ?Z.leb_le, ?Z.leb_gt in *; lia.
Qed.

Lemma effectiveness_monotone_in_session_length_witness :
  exists r1 r2,
    simulate exp_model (Examples.practice_in_library "Plan A") = Ok r1 /\
    simulate exp_model long_practice = Ok r2 /\
    (effectiveness r2 <=? effectiveness r1) = true.
Proof.
  eexists. eexists. split; [vm_compute; reflexivity|]. split; [vm_compute; reflexivity|].
  apply (effectiveness_monotone_in_session_length exp_model
           (Examples.practice_in_library "Plan A") long_practice);
    try (simpl; lia); try (vm_compute; reflexivity).
  unfold agree_except_minutes. simpl. repeat split; reflexivity.
Defined.

Lemma max_scan_In {A : Type} (key : A -> float) (rest : list A) :
  forall held, In (max_scan key held rest) (held :: rest).
Proof.
  induction rest as [|item rest IH]; intros held; cbn [max_scan]; [now left|].
  destruct (IH (if key held <? key item then item else held)) as [E|Hin].
  - destruct (key held <? key item); [right; left; exact E|left; exact E].
  - right. right. exact Hin.
Qed.

Lemma min_scan_In {A : Type} (key : A -> float) (rest : list A) :
  forall held, In (min_scan key held rest) (held :: rest).
Proof.
  induction rest as [|item rest IH]; intros held; cbn [min_scan]; [now left|].
  destruct (IH (if key item <? key held then item else held)) as [E|Hin].
  - destruct (key item <? key held); [right; left; exact E|left; exact E].
  - right. right. exact Hin.
Qed.

(** X18. On two entries or more, whatever doubles the results hold (NaN
    included), [compare] prints the table, one row per entry in order,
    followed by exactly four lines, each naming an entry of its input. *)
Theorem compare_names_entries (results : list (Strategy * Result)) :
  (2 <= List.length results)%nat ->
  exists best_eff best_sus best_efy lowest_burn,
    In best_eff results /\ In best_sus results /\
    In best_efy results /\ In lowest_burn results /\
    compare results =
      Ok (comparison_table results ++
          [ Say ("Highest effectiveness: " ++ name (fst best_eff));
            Say ("Best sustainability: " ++ name (fst best_sus));
            Say ("Best efficiency: " ++ name (fst best_efy));
            Say ("Lowest burnout risk: " ++ name (fst lowest_burn)) ])%list.
Proof.
  intros Hlen. unfold compare.
  destruct (List.length results <? 2)%nat eqn:E; [apply Nat.ltb_lt in E; lia|].
  destruct results as [|first rest]; [cbn in Hlen; lia|].
  cbn [max_key min_key bind].
  exists (max_scan (fun x => effectiveness (snd x)) first rest),
         (max_scan (fun x => sustainability (snd x)) first rest),
         (max_scan (fun x => efficiency (snd x)) first rest),
         (min_scan (fun x => burnout_risk (snd x)) first rest).
  repeat split; try apply max_scan_In; apply min_scan_In.
Qed.

Lemma compare_names_entries_witness :
  exists out,
    compare [ (Examples.cram_in_dorm, mkResult nan 1 2 3 4 []);
              (long_practice, mkResult 5 nan 7 nan 9 []) ] = Ok out /\
    List.length out = 11%nat.
Proof.
  destruct (compare_names_entries
              [ (Examples.cram_in_dorm, mkResult nan 1 2 3 4 []);
                (long_practice, mkResult 5 nan 7 nan 9 []) ] ltac:(simpl; lia))
    as (a & b & c & d & _ & _ & _ & _ & H).
  eexists. split; [exact H|]. reflexivity.
Defined.

(** X19. The notes of a result are distinct, and within the documented
    input domains there are at most five of them: up to 14 sessions of at
    most 180 minutes, the notes on a low weekly frequency and on a high
    weekly load exclude each other. *)
Theorem notes_distinct_at_most_five (libm_exp : float -> float) (s : Strategy) (r : Result) :
  simulate libm_exp s = Ok r ->
  NoDup (notes r) /\ (valid s -> (List.length (notes r) <= 5)%nat).
Proof.
  intros H. apply SimFacts.simulate_inv in H.
  destruct H as (_ & _ & _ & _ & _ & Hn). rewrite Hn. clear Hn.
  unfold session_notes, rule_notes, valid.
  destruct (str_in (method s) _); destruct (str_in (break_style s) _);
    destruct (str_in (environment s) _ && (4 <=? distraction_risk s)%Z);
    destruct (Z.leb_spec (sessions_per_week s) 2);
    destruct (Z.ltb_spec 600 (session_minutes s * sessions_per_week s));
    (destruct (session_minutes s <=? 60)%Z; [|destruct (session_minutes s <=? 90)%Z]);
    (split;
     [ repeat constructor; cbn; intuition discriminate
     | cbn; intros (? & ? & _); try lia; nia ]).
Qed.

Lemma notes_distinct_at_most_five_witness :
  exists r, simulate exp_model Examples.cram_in_dorm = Ok r /\
            NoDup (notes r) /\ (List.length (notes r) <= 5)%nat /\
            List.length (notes r) = 5%nat.
Proof.
  eexists. split; [vm_compute; reflexivity|].
  destruct (notes_distinct_at_most_five exp_model Examples.cram_in_dorm _
              ltac:(vm_compute; reflexivity)) as [Hnd Hle].
  split; [exact Hnd|]. split; [|vm_compute; reflexivity].
  apply Hle. unfold valid. simpl. lia.
Defined.

(** X20. [logistic] never divides by zero: with an [exp] whose result is
    not negative at the argument, [1.0 + math.exp(-x)] is not zero, for
    every double [x] (NaN and the infinities included).  [logistic] then
    returns, or fails with the [ValueError] or [OverflowError] of
    [math.exp]. *)
Theorem logistic_never_divides_by_zero (libm_exp : float -> float) (x : float) :
  (libm_exp (- x) <? 0) = false ->
  logistic libm_exp x = Ok (1 / (1 + libm_exp (- x))) \/
  logistic libm_exp x = Raise ValueError \/
  logistic libm_exp x = Raise OverflowError.
Proof.
  intros Hr. unfold logistic, math_exp.
  destruct (is_nan (libm_exp (- x)) && negb (is_nan (- x))); [right; now left|].
  destruct (is_infinity (libm_exp (- x)) && is_finite (- x)); [right; now right|].
  left. cbn [bind]. unfold truediv.
  now rewrite (ScorerFacts.one_plus_not_negative _ Hr).
Qed.

Lemma logistic_never_divides_by_zero_witness :
  (exp_model (- (-1000)) <? 0) = false /\
  (logistic exp_model (-1000) = Ok (1 / (1 + exp_model (- (-1000)))) \/
   logistic exp_model (-1000) = Raise ValueError \/
   logistic exp_model (-1000) = Raise OverflowError).
Proof.
  split; [vm_compute; reflexivity|].
  apply (logistic_never_divides_by_zero exp_model (-1000)). vm_compute. reflexivity.
Defined.

(** X21. The display name does not enter the scoring: on two scenarios
    that agree on the seven fields other than [name], [simulate] returns the
    same [Result], bit for bit, or raises the same exception. *)
Theorem simulate_ignores_name (libm_exp : float -> float) (s1 s2 : Strategy) :
  scoring_fields s1 = scoring_fields s2 ->
  simulate libm_exp s1 = simulate libm_exp s2.
Proof.
  destruct s1, s2. unfold scoring_fields. simpl.
  intros H. injection H as -> -> -> -> -> -> ->. reflexivity.
Qed.

Lemma simulate_ignores_name_witness :
  name Examples.cram_in_dorm <> name Examples.cram_renamed /\
  scoring_fields Examples.cram_in_dorm = scoring_fields Examples.cram_renamed /\
  simulate exp_model Examples.cram_in_dorm = simulate exp_model Examples.cram_renamed.
Proof.
  split; [discriminate|]. split; [reflexivity|].
  exact (simulate_ignores_name exp_model Examples.cram_in_dorm Examples.cram_renamed eq_refl).
Defined.

End Scorer.

(** ** The rows of the comparison table *)

Lemma str_len_app (a b : string) :
  str_len (a ++ b)%string = (str_len a + str_len b)%nat.
Proof.
  induction a as [|c a IH]; cbn [String.append str_len]; [reflexivity|].
  destruct (is_continuation c); rewrite IH; reflexivity.
Qed.

Lemma str_take_len (s : string) : forall n, (str_len (str_take n s) <= n)%nat.
Proof.
  induction s as [|c s IH]; intros n; cbn [str_take]; [cbn; lia|].
  destruct (is_continuation c) eqn:Ec.
  - cbn [str_len]. rewrite Ec. apply IH.
  - destruct n as [|n]; [cbn; lia|].
    cbn [str_len]. rewrite Ec. specialize (IH n). lia.
Qed.

(** X22. The label of a row of the comparison table has at most 25
    characters: a name of up to 25 characters is printed whole, a longer
    one as its first 24 characters followed by an ellipsis. *)
Theorem row_label_at_most_25 (s : Strategy) :
  (str_len (row_label s) <= 25)%nat /\
  ((str_len (name s) <= 25)%nat -> row_label s = name s) /\
  ((25 < str_len (name s))%nat ->
   row_label s = (str_take 24 (name s) ++ ELLIPSIS)%string /\
   (str_len (str_take 24 (name s)) <= 24)%nat).
Proof.
  unfold row_label.
  destruct (25 <? str_len (name s))%nat eqn:E.
  - apply Nat.ltb_lt in E. pose proof (str_take_len (name s) 24) as Ht.
    split; [|split].
    + rewrite str_len_app. change (str_len ELLIPSIS) with 1%nat. lia.
    + lia.
    + intros _. now split.
  - apply Nat.ltb_ge in E. split; [exact E|]. split; [reflexivity|lia].
Qed.

Lemma row_label_at_most_25_witness :
  str_len (name accented_plan) = 26%nat /\
  String.length (name accented_plan) = 52%nat /\
  row_label accented_plan = (str_mul E_ACUTE 24 ++ ELLIPSIS)%string /\
  (str_len (row_label accented_plan) <= 25)%nat.
Proof.
  split; [reflexivity|]. split; [reflexivity|]. split; [vm_compute; reflexivity|].
  apply (row_label_at_most_25 accented_plan).
Defined.

(** * The claims *)

Local Open Scope float_scope.

(** C1.  On every scenario within the documented input domains, and with a
    C library [exp] that meets [exp_contract], [simulate] returns a
    [Result] whose effectiveness, sustainability, efficiency and burnout
    risk lie in [0, 100] and whose predicted improvement lies in [0, 15],
    as rounded to one decimal. *)
Theorem simulate_within_documented_ranges
  (libm_exp : float -> float) (s : Strategy) :
  exp_contract libm_exp -> valid s ->
  exists r, simulate libm_exp s = Ok r /\ in_documented_ranges r.
Proof.
  intros Hexp Hs.
  destruct (SimFacts.simulate_returns libm_exp Hexp s Hs) as [r Hr].
  exists r. split; [exact Hr|].
  exact (SimFacts.simulate_ranges libm_exp s r Hr).
Qed.

Lemma simulate_within_documented_ranges_witness :
  valid cram_in_dorm /\
  exists r, simulate exp_model cram_in_dorm = Ok r /\ in_documented_ranges r.
Proof.
  assert (Hv : valid cram_in_dorm) by (unfold valid; simpl; lia).
  split; [exact Hv|].
  exact (simulate_within_documented_ranges exp_model cram_in_dorm exp_model_contract Hv).
Defined.

(** C2, as amended.  For practice problems in the library with pomodoro
    breaks, 45 minutes 4 times a week, difficulty 3 and distraction risk 2,
    the effectiveness that [simulate] returns is 71.9: the double nearest to
    85 * 0.94 * 0.9 = 71.91 rounded to one decimal. *)
Theorem practice_in_library_effectiveness
  (libm_exp : float -> float) (label : string) (r : Result) :
  simulate libm_exp (practice_in_library label) = Ok r -> effectiveness r = 71.9.
Proof.
  intros H. apply SimFacts.simulate_inv in H.
  destruct H as [[b [Hb He]] _].
  vm_compute in Hb. injection Hb as <-. rewrite He. vm_compute. reflexivity.
Qed.

Lemma practice_in_library_effectiveness_witness :
  exists r, simulate exp_model (practice_in_library "Plan A") = Ok r /\
            effectiveness r = 71.9.
Proof.
  eexists. split; [vm_compute; reflexivity|].
  apply (practice_in_library_effectiveness exp_model "Plan A"). vm_compute. reflexivity.
Defined.

(** C2, as stated, fails: no run of [simulate] on that scenario, with any
    C library, returns an effectiveness of 78.1. *)
Lemma practice_in_library_not_78_1 :
  ~ exists libm_exp label r,
      simulate libm_exp (practice_in_library label) = Ok r /\ effectiveness r = 78.1.
Proof.
  intros (libm_exp & label & r & H & E).
  apply SimFacts.simulate_inv in H. destruct H as [[b [Hb He]] _].
  vm_compute in Hb. injection Hb as <-. rewrite He in E.
  apply (f_equal (fun x => x <? 75)) in E. vm_compute in E. discriminate E.
Qed.

(** C4.  Between two valid scenarios that agree on every field but the
    risks, the one whose distraction risk and course difficulty are not
    smaller has an effectiveness that is not larger.  Raising only the
    distraction risk, or only the course difficulty, is the case where the
    other risk is equal. *)
Theorem effectiveness_monotone
  (libm_exp : float -> float) (s1 s2 : Strategy) (r1 r2 : Result) :
  valid s1 -> valid s2 -> agree_except_risks s1 s2 ->
  (distraction_risk s1 <= distraction_risk s2)%Z ->
  (course_difficulty s1 <= course_difficulty s2)%Z ->
  simulate libm_exp s1 = Ok r1 -> simulate libm_exp s2 = Ok r2 ->
  (effectiveness r2 <=? effectiveness r1) = true.
Proof.
  intros (_ & _ & Hcd1 & Hdr1) (_ & _ & Hcd2 & Hdr2) (_ & Hm & Hsm & _ & He & Hb)
         Hdr Hcd H1 H2.
  apply SimFacts.simulate_inv in H1. destruct H1 as [[b1 [Hb1 He1]] _].
  apply SimFacts.simulate_inv in H2. destruct H2 as [[b2 [Hb2 He2]] _].
  pose proof (SimFacts.all_weights_spec _ SimFacts.monotone_check_all s1) as Hw.
  unfold monotone_check in Hw. cbv zeta in Hw.
  rewrite forallb_forall in Hw.
  specialize (Hw _ (SimFacts.effectiveness_table_In _ _ _ _ _ _ Hdr1 Hcd1)).
  rewrite forallb_forall in Hw.
  specialize (Hw _ (SimFacts.effectiveness_table_In _ _ _ _ _ _ Hdr2 Hcd2)).
  unfold monotone_pair, effectiveness_from in Hw.
  assert (Hb2' : base_eff_from (method_w s1) (env_w s1) (break_w s1) (session_focus s1)
                               (distraction_risk s2) (course_difficulty s2) = Ok b2).
  { rewrite <- Hb2. unfold base_eff, method_w, env_w, break_w, session_focus.
    now rewrite Hm, Hsm, He, Hb. }
  fold (base_eff s1) in Hw. rewrite Hb1, Hb2' in Hw. cbn [bind] in Hw.
  rewrite He1, He2.
  destruct (distraction_risk s1 <=? distraction_risk s2)%Z eqn:E1; [|lia].
  destruct (course_difficulty s1 <=? course_difficulty s2)%Z eqn:E2; [|lia].
  exact Hw.
Qed.

Lemma effectiveness_monotone_witness :
  exists r1 r2,
    simulate exp_model calm_in_dorm = Ok r1 /\
    simulate exp_model cram_in_dorm = Ok r2 /\
    (effectiveness r2 <=? effectiveness r1) = true.
Proof.
  eexists. eexists. split; [vm_compute; reflexivity|]. split; [vm_compute; reflexivity|].
  apply (effectiveness_monotone exp_model calm_in_dorm cram_in_dorm);
    try (unfold valid; simpl; lia);
    try (vm_compute; reflexivity).
  unfold agree_except_risks. simpl. repeat split; reflexivity.
Defined.

(** C5.  A method that is not a key of the method table gets the weight
    0.60, an environment that is not a key of its table 0.85, a break style
    that is not a key of its table 0.85: [simulate] is then its body run with
    that weight in every place where the looked-up weight is used.  The
    lookups cannot fail; and on every scenario of the documented input
    domains, known categories or not, [simulate] returns a [Result] (for an
    [exp] that is finite and non-negative up to 709). *)
Theorem unknown_categories_fall_back (libm_exp : float -> float) (s : Strategy) :
  (~ In (method s) (map fst METHOD_WEIGHTS) ->
   method_w s = 0.60 /\
   simulate libm_exp s = simulate_from libm_exp 0.60 (env_w s) (break_w s) s) /\
  (~ In (environment s) (map fst ENVIRONMENT_WEIGHTS) ->
   env_w s = 0.85 /\
   simulate libm_exp s = simulate_from libm_exp (method_w s) 0.85 (break_w s) s) /\
  (~ In (break_style s) (map fst BREAK_WEIGHTS) ->
   break_w s = 0.85 /\
   simulate libm_exp s = simulate_from libm_exp (method_w s) (env_w s) 0.85 s) /\
  (exp_contract libm_exp -> valid s -> returns (simulate libm_exp s)).
Proof.
  assert (Hbody : simulate libm_exp s
                  = simulate_from libm_exp (method_w s) (env_w s) (break_w s) s)
    by reflexivity.
  split; [|split; [|split]].
  - intros Hm. pose proof (dict_get_default METHOD_WEIGHTS (method s) 0.60 Hm) as Hw.
    fold (method_w s) in Hw. split; [exact Hw|]. now rewrite Hbody, Hw.
  - intros He. pose proof (dict_get_default ENVIRONMENT_WEIGHTS (environment s) 0.85 He) as Hw.
    fold (env_w s) in Hw. split; [exact Hw|]. now rewrite Hbody, Hw.
  - intros Hb. pose proof (dict_get_default BREAK_WEIGHTS (break_style s) 0.85 Hb) as Hw.
    fold (break_w s) in Hw. split; [exact Hw|]. now rewrite Hbody, Hw.
  - intros Hexp Hs. exact (SimFacts.simulate_returns libm_exp Hexp s Hs).
Qed.

Lemma unknown_categories_fall_back_witness :
  ~ In (method meditation_plan) (map fst METHOD_WEIGHTS) /\
  ~ In (environment meditation_plan) (map fst ENVIRONMENT_WEIGHTS) /\
  ~ In (break_style meditation_plan) (map fst BREAK_WEIGHTS) /\
  simulate exp_model meditation_plan
  = simulate_from exp_model 0.60 0.85 0.85 meditation_plan /\
  exp_contract exp_model /\ valid meditation_plan /\
  returns (simulate exp_model meditation_plan).
Proof.
  assert (Hm : ~ In (method meditation_plan) (map fst METHOD_WEIGHTS))
    by (simpl; intuition discriminate).
  assert (He : ~ In (environment meditation_plan) (map fst ENVIRONMENT_WEIGHTS))
    by (simpl; intuition discriminate).
  assert (Hb : ~ In (break_style meditation_plan) (map fst BREAK_WEIGHTS))
    by (simpl; intuition discriminate).
  assert (Hv : valid meditation_plan) by (unfold valid; simpl; lia).
  destruct (unknown_categories_fall_back exp_model meditation_plan)
    as (Fm & Fe & Fb & Hret).
  destruct (Fm Hm) as [Wm Sm]. destruct (Fe He) as [We _]. destruct (Fb Hb) as [Wb _].
  split; [exact Hm|]. split; [exact He|]. split; [exact Hb|].
  split; [now rewrite Sm, We, Wb|].
  split; [exact exp_model_contract|]. split; [exact Hv|].
  exact (Hret exp_model_contract Hv).
Defined.

(** Outside the documented input domains [simulate] checks nothing itself
    (the ranges are enforced by the prompts): with sessions of 10^400
    minutes the weekly minutes do not fit a double, and their conversion
    raises [OverflowError], whatever the C library. *)
Lemma endless_sessions_overflow :
  ~ In (method endless_sessions) (map fst METHOD_WEIGHTS) /\
  forall libm_exp, simulate libm_exp endless_sessions = Raise OverflowError.
Proof.
  split; [simpl; intuition discriminate|].
  intros libm_exp. vm_compute. reflexivity.
Qed.

(** C6.  On at least two entries whose results lie in the documented
    ranges, [compare] prints its table and then names four entries: for
    effectiveness, sustainability and efficiency the lowest-index entry
    holding the greatest value, for burnout risk the lowest-index entry
    holding the smallest. *)
Theorem compare_reports_first_best (results : list (Strategy * Result)) :
  (2 <= List.length results)%nat ->
  Forall (fun x => in_documented_ranges (snd x)) results ->
  exists best_eff best_sus best_efy lowest_burn,
    compare results =
      Ok (comparison_table results ++
          [ Say ("Highest effectiveness: " ++ name (fst best_eff));
            Say ("Best sustainability: " ++ name (fst best_sus));
            Say ("Best efficiency: " ++ name (fst best_efy));
            Say ("Lowest burnout risk: " ++ name (fst lowest_burn)) ])%list /\
    first_max (fun x => effectiveness (snd x)) results best_eff /\
    first_max (fun x => sustainability (snd x)) results best_sus /\
    first_max (fun x => efficiency (snd x)) results best_efy /\
    first_min (fun x => burnout_risk (snd x)) results lowest_burn.
Proof.
  intros Hlen Hok.
  destruct (documented_keys_not_nan results Hok) as (He & Hs & Hf & Hb).
  unfold compare.
  destruct (Nat.ltb_spec (List.length results) 2) as [Hlt|_]; [lia|].
  destruct results as [|first rest]; [simpl in Hlen; lia|].
  cbn [max_key min_key bind].
  do 4 eexists. split; [reflexivity|].
  repeat split.
  - now apply CompareFacts.max_key_first.
  - now apply CompareFacts.max_key_first.
  - now apply CompareFacts.max_key_first.
  - now apply CompareFacts.min_key_first.
Qed.

Lemma compare_reports_first_best_witness :
  exists best_eff,
    first_max (fun x => effectiveness (snd x)) tie_example best_eff /\
    In (Say ("Highest effectiveness: " ++ name (fst best_eff)))
       (match compare tie_example with Ok out => out | Raise _ => [] end) /\
    In (Say "Highest effectiveness: B")
       (match compare tie_example with Ok out => out | Raise _ => [] end).
Proof.
  assert (Hok : Forall (fun x => in_documented_ranges (snd x)) tie_example).
  { repeat constructor. }
  destruct (compare_reports_first_best tie_example (le_S _ _ (le_n 2)) Hok)
    as (best_eff & best_sus & best_efy & lowest_burn & Hout & Hmax & _).
  exists best_eff. split; [exact Hmax|]. split.
  - rewrite Hout. apply in_or_app. right. now left.
  - rewrite tie_example_output. apply in_or_app. right. now left.
Defined.

(** C7.  On fewer than two entries [compare] says that at least two
    scenarios are needed, prints nothing else, names no entry, and returns
    without an exception. *)
Theorem compare_needs_two (results : list (Strategy * Result)) :
  (List.length results < 2)%nat ->
  compare results = Ok [ Say "Create at least two scenarios to compare." ].
Proof.
  intros H. unfold compare.
  destruct (Nat.ltb_spec (List.length results) 2) as [_|Hge]; [reflexivity|lia].
Qed.

Lemma compare_needs_two_witness :
  compare [] = Ok [ Say "Create at least two scenarios to compare." ] /\
  compare (firstn 1 tie_example) = Ok [ Say "Create at least two scenarios to compare." ].
Proof.
  split.
  - exact (compare_needs_two [] (le_S _ _ (le_n 1))).
  - exact (compare_needs_two (firstn 1 tie_example) (le_n 2)).
Defined.

(** C8.  After a turn of the session loop that runs a simulation, the cache
    holds exactly one entry under the name of the scenario just simulated,
    which is that scenario with the result just computed, and the entries
    under other names are the ones it held before, in their order. *)
Theorem cache_last_write_wins
  (libm_exp : float -> float) (st st' : Session) (number : Z)
  (out : list Event) (go : bool) :
  menu_turn libm_exp st (RunSimulation number) = Ok (st', out, go) ->
  cache_updated libm_exp st number st'.
Proof.
  unfold menu_turn. intros H.
  destruct (run_simulation libm_exp st number) as [[st1 out1]|] eqn:E;
    cbn [bind fst snd] in H; [|discriminate H].
  injection H as <- _ _.
  exact (run_simulation_cache libm_exp st st1 number out1 E).
Qed.

Lemma cache_last_write_wins_witness :
  exists st' out,
    menu_turn exp_model stale_session (RunSimulation 1) = Ok (st', out, true) /\
    List.length (results_cache st') = 2%nat /\
    cache_updated exp_model stale_session 1 st'.
Proof.
  eexists. eexists. split; [vm_compute; reflexivity|]. split; [reflexivity|].
  eapply (cache_last_write_wins exp_model stale_session _ 1).
  vm_compute. reflexivity.
Defined.

(** C9.  Whatever the scenario, valid or not, the notes of a returned
    [Result] are at most one session-length note followed by at most five
    rule notes, so at most six, and the first six notes that
    [print_result] prints are all of them. *)
Theorem notes_at_most_six (libm_exp : float -> float) (s : Strategy) (r : Result) :
  simulate libm_exp s = Ok r ->
  notes r = (session_notes s ++ rule_notes s)%list /\
  (List.length (session_notes s) <= 1)%nat /\
  (List.length (rule_notes s) <= 5)%nat /\
  (List.length (notes r) <= 6)%nat /\
  firstn 6 (notes r) = notes r.
Proof.
  intros H. apply SimFacts.simulate_inv in H.
  destruct H as (_ & _ & _ & _ & _ & Hn).
  assert (H1 : (List.length (session_notes s) <= 1)%nat).
  { unfold session_notes.
    destruct (session_minutes s <=? 60)%Z; [simpl; lia|].
    destruct (session_minutes s <=? 90)%Z; simpl; lia. }
  assert (H5 : (List.length (rule_notes s) <= 5)%nat).
  { unfold rule_notes. rewrite !length_app.
    destruct (str_in (method s) _), (str_in (break_style s) _),
             (str_in (environment s) _ && _), (sessions_per_week s <=? 2)%Z,
             (600 <? _)%Z; simpl; lia. }
  assert (H6 : (List.length (notes r) <= 6)%nat) by (rewrite Hn, length_app; lia).
  repeat split; try assumption.
  apply firstn_all2. exact H6.
Qed.

Lemma notes_at_most_six_witness :
  exists r, simulate exp_model marathon_plan = Ok r /\
            List.length (notes r) = 6%nat /\
            firstn 6 (notes r) = notes r.
Proof.
  eexists. split; [vm_compute; reflexivity|]. split; [reflexivity|].
  apply (notes_at_most_six exp_model marathon_plan). vm_compute. reflexivity.
Defined.

(** C10.  With distraction risk and course difficulty in [1, 5], the
    effectiveness that [simulate] returns is at most 85: each of the six
    factors that multiply 85 is at most 1, their product [b] is at most 85
    and positive, and the clamp to [0, 100] leaves [b] as it is. *)
Theorem effectiveness_at_most_85 (libm_exp : float -> float) (s : Strategy) (r : Result) :
  (1 <= distraction_risk s <= 5)%Z -> (1 <= course_difficulty s <= 5)%Z ->
  simulate libm_exp s = Ok r ->
  (effectiveness r <=? 85) = true /\
  exists fs b,
    factors s = Ok fs /\ Forall (fun f => (f <=? 1) = true) fs /\
    base_eff s = Ok b /\ b = fold_left PrimFloat.mul fs 85 /\
    (b <=? 85) = true /\ clamp b 0 100 = b.
Proof.
  intros Hdr Hcd H. apply SimFacts.simulate_inv in H.
  destruct H as [[b [Hb He]] _].
  pose proof (SimFacts.all_weights_spec _ SimFacts.bound_check_all s) as Hw.
  cbv beta in Hw.
  pose proof (SimFacts.all_risks_spec _ Hw _ _ Hdr Hcd) as Hc. clear Hw.
  unfold bound_check in Hc. fold (factors s) in Hc. fold (base_eff s) in Hc.
  rewrite Hb in Hc.
  destruct (factors s) as [fs|]; [|discriminate Hc].
  repeat (apply andb_true_iff in Hc; destruct Hc as [Hc ?]).
  rewrite He. split; [assumption|].
  exists fs, b. repeat split; try assumption.
  - apply Forall_forall. now apply forallb_forall.
  - symmetry. now apply FloatAxioms.Leibniz.eqb_spec.
  - unfold clamp, py_min, py_max.
    match goal with Hlt : (b <? 100) = true |- _ => rewrite Hlt end.
    match goal with Hlt : (0 <? b) = true |- _ => rewrite Hlt end.
    reflexivity.
Qed.

Lemma effectiveness_at_most_85_witness :
  exists r, simulate exp_model (practice_in_library "Plan A") = Ok r /\
            (effectiveness r <=? 85) = true.
Proof.
  eexists. split; [vm_compute; reflexivity|].
  apply (effectiveness_at_most_85 exp_model (practice_in_library "Plan A"));
    [simpl; lia|simpl; lia|vm_compute; reflexivity].
Defined.
